(** * Evidence aggregation and budgeted summarisation pipeline

    A shallow embedding of [toe_evidence_analysis_enhanced.py]:
    the budget controller ([smart_truncate_content]), the evidence
    collector ([read_evidence_folder]), the generation client
    ([make_llm_request_with_retry]) and the two orchestrators (the
    module-level control loop and [process_controls]).

    Conventions of the embedding.
    - A Python [str] is the list of its characters, and [len] is the list
      length as a [Z]. A character is its code point, and the embedding
      covers the code points below 256: [ascii] is used as the type of
      these 256 characters, and [lower], [strip] and [isspace] are those of
      Python on that range (the upper-case letters and the white space of
      Latin-1 included). Control names, file names and texts with
      characters beyond that range are outside the embedding. Literals
      are written with [txt "..."]; the line feed is [nl]. The one literal
      of the source with characters beyond the range is the summary
      prompt: its bullets appear as the three bytes of their UTF-8
      encoding, so the fixed part of that prompt is longer here than in
      Python by two characters per bullet.
    - Python integers are [Z]; [//] with a positive divisor is [Z.div].
    - Code that can raise returns [exc A]; the message is [str(e)].
    - Calls into the operating system, the parsing libraries and the remote
      services are read from oracle records ([Filesystem], [Libs],
      [Remote], the [api] function of the generation client). *)

From Stdlib Require Import ZArith QArith_base Ascii String DecimalString Lia Sorted.
From stdpp Require Import base list.

Open Scope Z_scope.

(** ** Text *)

Abbreviation text := (list ascii).

Definition txt (s : string) : text := list_ascii_of_string s.

Definition nl : text := ["010"%char].

Definition len (s : text) : Z := Z.of_nat (length s).

(** [str(n)] / [f"{n}"] for an integer. *)
Definition str_int (n : Z) : text :=
  txt (NilZero.string_of_int (Z.to_int n)).

(** [s[:k]]: a negative bound counts from the end and is clamped at 0. *)
Definition slice_to (s : text) (k : Z) : text :=
  if 0 <=? k then take (Z.to_nat k) s else take (Z.to_nat (len s + k)) s.

(** [s[k:]]: a negative bound counts from the end and is clamped at 0. *)
Definition slice_from (s : text) (k : Z) : text :=
  if 0 <=? k then drop (Z.to_nat k) s else drop (Z.to_nat (len s + k)) s.

(** ** Configuration ([class Config] and the module-level budgets) *)

Definition MAX_FILE_CHARS : Z := 15000.
Definition MAX_TOTAL_CHARS : Z := 160000.

(** ** Budget controller *)

(** [estimate_tokens]: about four characters per token. *)
Definition estimate_tokens (t : text) : Z := len t / 4.

(** The marker placed between the head and the tail. *)
Definition truncation_marker (removed : Z) : text :=
  nl ++ nl ++ txt "[TRUNCATED: " ++ str_int removed
     ++ txt " chars removed from middle]" ++ nl ++ nl.

Definition smart_truncate_content (content : text) (max_chars : Z) : text :=
  if len content <=? max_chars then content
  else
    let keep_start := max_chars / 2 in
    let keep_end := max_chars / 4 in
    if keep_start + keep_end <? max_chars then
      let truncated :=
        slice_to content keep_start
          ++ truncation_marker (len content - max_chars)
          ++ slice_from content (- keep_end) in
      slice_to truncated max_chars
    else
      slice_to content max_chars
        ++ nl ++ txt "[TRUNCATED: content exceeds " ++ str_int max_chars
        ++ txt " chars]".

(** Per-file budgeting inside [read_evidence_folder] (the block under
    "Smart truncation for individual files"): the new file content and the
    new value of the [truncated] flag. *)
Definition budget_file (file_content : text) (truncated : bool) : text * bool :=
  if MAX_FILE_CHARS <? len file_content
  then (smart_truncate_content file_content MAX_FILE_CHARS, true)
  else (file_content, truncated).

(** ** Exceptions

    [exc A] is the outcome of code that may raise: [Raised msg] carries
    [str(e)]. [try_except] is a [try: ... except Exception as e:] block. *)

Inductive exc (A : Type) : Type :=
| Returned (a : A)
| Raised (msg : text).
Arguments Returned {A} a.
Arguments Raised {A} msg.

Definition exc_bind {A B} (c : exc A) (k : A -> exc B) : exc B :=
  match c with
  | Returned a => k a
  | Raised e => Raised e
  end.

Notation "'let*' x := c 'in' k" := (exc_bind c (fun x => k))
  (at level 10, x pattern, c at level 100, k at level 200).

Definition try_except {A} (body : exc A) (handler : text -> A) : A :=
  match body with
  | Returned a => a
  | Raised e => handler e
  end.

(** ** String helpers of the Python runtime *)

(** ['sep'.join(parts)]. *)
Fixpoint str_join (sep : text) (parts : list text) : text :=
  match parts with
  | [] => []
  | p :: ps =>
      match ps with
      | [] => p
      | _ :: _ => p ++ sep ++ str_join sep ps
      end
  end.

Fixpoint starts_with (p s : text) : bool :=
  match p, s with
  | [], _ => true
  | _ :: _, [] => false
  | a :: p', b :: s' => Ascii.eqb a b && starts_with p' s'
  end.

(** [needle in hay] for two strings. *)
Fixpoint contains (needle hay : text) : bool :=
  starts_with needle hay ||
  match hay with
  | [] => false
  | _ :: hay' => contains needle hay'
  end.

(** [str.lower()] on the code points below 256: the letters A to Z, and
    the upper-case letters of Latin-1, which are U+00C0 to U+00DE without
    the multiplication sign U+00D7; each is 32 below its lower-case
    form. *)
Definition lower_char (c : ascii) : ascii :=
  let n := N_of_ascii c in
  if (((65 <=? n) && (n <=? 90))
      || ((192 <=? n) && (n <=? 222) && negb (n =? 215)))%N
  then ascii_of_N (n + 32) else c.

Definition lower (s : text) : text := lower_char <$> s.

(** [str.isspace()] on the code points below 256: TAB, LF, VT, FF, CR,
    FS, GS, RS, US, the space, NEL (U+0085) and the no-break space
    (U+00A0). *)
Definition is_space (c : ascii) : bool :=
  let n := N_of_ascii c in
  (((9 <=? n) && (n <=? 13)) || ((28 <=? n) && (n <=? 32))
   || (n =? 133) || (n =? 160))%N.

Fixpoint lstrip (s : text) : text :=
  match s with
  | [] => []
  | c :: s' => if is_space c then lstrip s' else s
  end.

Definition strip (s : text) : text := reverse (lstrip (reverse (lstrip s))).

(** [re.sub] of the folder-name cleaning: each of the characters
    less-than, greater-than, colon, double quote, slash, backslash, bar,
    question mark and star is replaced by an underscore. *)
Definition unsafe_char (c : ascii) : bool :=
  existsb (Ascii.eqb c)
    ["<"; ">"; ":"; "034"; "/"; "092"; "|"; "?"; "*"]%char.

Definition clean_folder_name (s : text) : text :=
  (fun c => if unsafe_char c then "_"%char else c) <$> s.

(** [os.path.join(a, b)] on a POSIX system, for the two uses in the
    collector: [a] never ends with a separator and [b] never starts with
    one (the evidence root is ["Evidence"]; [b] is a cleaned control name,
    where ["/"] was replaced, or a directory entry). *)
Definition path_join (a b : text) : text := a ++ txt "/" ++ b.

(** [os.path.splitext(name)[1]] for a name without separators: the suffix
    from the last dot, unless only dots precede that dot. *)
Fixpoint last_dot_split (pre s : text) (best : option (text * text))
  : option (text * text) :=
  match s with
  | [] => best
  | c :: s' =>
      let best' := if Ascii.eqb c "."%char then Some (pre, s) else best in
      last_dot_split (pre ++ [c]) s' best'
  end.

Definition splitext_ext (name : text) : text :=
  match last_dot_split [] name None with
  | None => []
  | Some (root, ext) =>
      if forallb (Ascii.eqb "."%char) root then [] else ext
  end.

(** ** Operating system and parsing libraries

    The collector only observes the file system through [os.path] and
    [os.listdir]; these are read from an oracle. *)

Record Filesystem := {
  fs_exists : text -> bool;            (* os.path.exists *)
  fs_isdir : text -> bool;             (* os.path.isdir *)
  fs_isfile : text -> bool;            (* os.path.isfile *)
  fs_listdir : text -> exc (list text);  (* os.listdir, in listing order *)
  fs_getsize : text -> exc Z;          (* os.path.getsize *)
}.

(** One OCR reading: the recognised text, [avg_confidence] rendered with
    [.1f], and whether [avg_confidence < 70]. *)
Record ocr_reading := {
  ocr_text : text;
  ocr_conf_1f : text;
  ocr_conf_low : bool;
}.

(** Optional imports ([X is None] tests) and the outcome of the library
    calls of each decoder on a path. For the decoders whose body is one
    [try] block around library calls, the oracle is the outcome of that
    block; for the PDF reader it is the page list with the outcome of each
    [extract_text()], and for OCR the image list with the outcome of each
    recognition. The three OCR modules are imported in one [try], so they
    are present or absent together. *)
Record Libs := {
  docx_available : bool;
  pypdf2_available : bool;
  extract_msg_available : bool;
  email_available : bool;
  ocr_available : bool;
  txt_body : text -> exc text;
  docx_body : text -> exc text;
  csv_body : text -> exc text;
  xlsx_body : text -> exc text;
  large_excel_body : text -> exc text;
  msg_body : text -> exc text;
  eml_body : text -> exc text;
  mbox_body : text -> exc text;
  image_ocr : text -> exc ocr_reading;
  pdf_reader : text -> exc (list (exc text));
  pdf_images : text -> exc (list (exc ocr_reading));
}.

(** [a == b] on strings. *)
Fixpoint text_eqb (a b : text) : bool :=
  match a, b with
  | [], [] => true
  | x :: a', y :: b' => Ascii.eqb x y && text_eqb a' b'
  | _, _ => false
  end.

Definition len_pages {A} (l : list A) : Z := Z.of_nat (length l).

(** ** Decoders *)

Section Decoders.
Variable L : Libs.

Definition read_txt_file (path : text) : exc text := txt_body L path.

Definition read_docx_file (path : text) : exc text :=
  if negb (docx_available L)
  then Returned (txt "[DOCX file - python-docx not installed]")
  else Returned (try_except (docx_body L path)
                   (fun e => txt "[Error reading DOCX: " ++ e ++ txt "]")).

Definition read_image_file (path : text) : exc text :=
  if negb (ocr_available L)
  then Returned (txt "[OCR not available - install pytesseract, pillow, and Tesseract OCR]")
  else Returned (try_except
    (let* r := image_ocr L path in
     let t := ocr_text r in
     let t := if 8000 <? len t
              then slice_to t 7500 ++ nl ++ txt "[OCR TRUNCATED: Full text was "
                     ++ str_int (len t) ++ txt " chars]"
              else t in
     let result := txt "OCR Text (Confidence: " ++ ocr_conf_1f r ++ txt "%):"
                     ++ nl ++ t in
     Returned (if ocr_conf_low r
               then result ++ nl ++ txt "[WARNING: Low OCR confidence - text may be inaccurate]"
               else result))
    (fun e => txt "[Error performing OCR on image: " ++ e ++ txt "]")).

(** [extracted_text.strip()] is falsy. *)
Definition is_blank (s : text) : bool := forallb is_space s.

(** The page loop of the PyPDF2 stage. *)
Fixpoint extract_pages (pages : list (exc text)) (extracted_text : text)
  : exc text :=
  match pages with
  | [] => Returned extracted_text
  | page :: rest =>
      let* page_text := page in
      let extracted_text := extracted_text ++ page_text in
      if 12000 <? len extracted_text
      then Returned (slice_to extracted_text 12000)
      else extract_pages rest extracted_text
  end.

(** The page loop of the OCR stage: the lines appended to [text_content]
    so far, and the exception if one interrupted the loop. *)
Fixpoint ocr_pages (images : list (exc ocr_reading)) (page_num : Z)
  : list text * option text :=
  match images with
  | [] => ([], None)
  | image :: rest =>
      let banner := nl ++ txt "--- PAGE " ++ str_int (page_num + 1) ++ txt " OCR ---" in
      match image with
      | Raised e => ([banner], Some e)
      | Returned r =>
          let page_text := ocr_text r in
          let page_text :=
            if 2000 <? len page_text
            then slice_to page_text 1800 ++ nl ++ txt "[PAGE "
                   ++ str_int (page_num + 1) ++ txt " OCR TRUNCATED]"
            else page_text in
          let lines :=
            [banner; txt "OCR Confidence: " ++ ocr_conf_1f r ++ txt "%"; page_text]
              ++ (if ocr_conf_low r
                  then [txt "[WARNING: Low OCR confidence for this page]"]
                  else []) in
          let '(more, err) := ocr_pages rest (page_num + 1) in
          (lines ++ more, err)
      end
  end.

(** The PyPDF2 stage of [extract_text_from_pdf_with_ocr]: the finished
    result when it returns one, or else the notes it has left in
    [text_content] for the OCR stage. *)
Definition pdf_text_stage (pdf_path : text) : text + list text :=
  if pypdf2_available L then
    try_except
      (let* pages := pdf_reader L pdf_path in
       let max_pages := Z.min 10 (len_pages pages) in
       let* extracted_text := extract_pages (take (Z.to_nat max_pages) pages) [] in
       if negb (is_blank extracted_text) then
         Returned (inl (str_join nl
           ([txt "=== PDF TEXT EXTRACTION (" ++ str_int max_pages ++ txt " pages) ===";
             extracted_text]
            ++ (if max_pages <? len_pages pages
                then [txt "[NOTE: PDF has " ++ str_int (len_pages pages)
                        ++ txt " total pages, processed first "
                        ++ str_int max_pages ++ txt "]"]
                else []))))
       else
         Returned (inr [txt "[PDF contains no extractable text - attempting OCR...]"]))
      (fun e => inr [txt "[PDF text extraction failed: " ++ e ++ txt " - attempting OCR...]"])
  else inr [].

(** The OCR stage, entered with the notes of the first stage. *)
Definition pdf_ocr_stage (pdf_path : text) (text_content : list text) : text :=
  if ocr_available L then
    let text_content := text_content ++ [nl ++ txt "=== PDF OCR EXTRACTION ==="] in
    match pdf_images L pdf_path with
    | Raised e =>
        str_join nl (text_content ++ [txt "[PDF OCR failed: " ++ e ++ txt "]"])
    | Returned images =>
        match ocr_pages images 0 with
        | (lines, Some e) =>
            str_join nl (text_content ++ lines
                           ++ [txt "[PDF OCR failed: " ++ e ++ txt "]"])
        | (lines, None) =>
            str_join nl (text_content ++ lines
              ++ (if len_pages images =? 8
                  then [txt "[NOTE: OCR processed first 8 pages for comprehensive analysis]"]
                  else []))
        end
    end
  else
    str_join nl (text_content
      ++ [txt "[OCR not available - install OCR libraries for image-based PDF processing]"]).

Definition extract_text_from_pdf_with_ocr (pdf_path : text) : exc text :=
  match pdf_text_stage pdf_path with
  | inl result => Returned result
  | inr text_content => Returned (pdf_ocr_stage pdf_path text_content)
  end.

Definition read_pdf_file (path : text) : exc text :=
  extract_text_from_pdf_with_ocr path.

Definition read_csv_file (path : text) : exc text :=
  Returned (try_except (csv_body L path)
              (fun e => txt "[Error reading CSV: " ++ e ++ txt "]")).

Definition read_xlsx_file (path : text) : exc text :=
  Returned (try_except (xlsx_body L path)
              (fun e => txt "[Error reading XLSX: " ++ e ++ txt "]")).

Definition read_msg_file (path : text) : exc text :=
  if negb (extract_msg_available L)
  then Returned (txt "[MSG file - extract-msg not installed. Install with: pip install extract-msg]")
  else Returned (try_except (msg_body L path)
                   (fun e => txt "[Error reading MSG: " ++ e ++ txt "]")).

Definition read_eml_file (path : text) : exc text :=
  if negb (email_available L)
  then Returned (txt "[EML file - email module not available]")
  else Returned (try_except (eml_body L path)
                   (fun e => txt "[Error reading EML: " ++ e ++ txt "]")).

Definition read_mbox_file (path : text) : exc text :=
  Returned (try_except (mbox_body L path)
              (fun e => txt "[Error reading MBOX: " ++ e ++ txt "]")).

Definition process_large_excel_file (path : text) : exc text :=
  Returned (try_except (large_excel_body L path)
              (fun e => txt "[Error processing Excel file: " ++ e ++ txt "]")).

(** The dispatch on the extension inside the [try] of the file loop. *)
Definition dispatch_decoder (ext fpath : text) (file_size : Z) : exc text :=
  if text_eqb ext (txt ".txt") then read_txt_file fpath
  else if text_eqb ext (txt ".docx") then read_docx_file fpath
  else if text_eqb ext (txt ".pdf") then read_pdf_file fpath
  else if text_eqb ext (txt ".csv") then read_csv_file fpath
  else if existsb (text_eqb ext) [txt ".xlsx"; txt ".xls"] then
    if 50000 <? file_size then process_large_excel_file fpath
    else read_xlsx_file fpath
  else if text_eqb ext (txt ".msg") then read_msg_file fpath
  else if text_eqb ext (txt ".eml") then read_eml_file fpath
  else if text_eqb ext (txt ".mbox") then read_mbox_file fpath
  else if existsb (text_eqb ext)
            [txt ".png"; txt ".jpg"; txt ".jpeg"; txt ".tiff"; txt ".bmp"; txt ".gif"]
  then read_image_file fpath
  else Returned (txt "[Unsupported file type: " ++ ext ++ txt "]").

(** The whole [try: ... except Exception as e:] of one file. *)
Definition decode_file (fname fpath : text) (file_size : Z) : text :=
  let ext := lower (splitext_ext fname) in
  try_except (dispatch_decoder ext fpath file_size)
    (fun e => txt "[Error reading " ++ fname ++ txt ": " ++ e ++ txt "]").

End Decoders.

(** ** Configuration record ([class Config]) *)

Record Config := {
  EVIDENCE_ROOT : text;
  MODEL : text;
  MAX_RETRIES : Z;
  RETRY_DELAY : Z;        (* seconds; 1.0 in the source *)
  MAX_RETRY_DELAY : Z;    (* seconds; 60.0 in the source *)
  SAP_GRC_ENABLED : bool;
  JIRA_ENABLED : bool;
}.

(** The values written in the source. The delays are floats there; every
    delay the retry loops compute from them is a whole number of seconds,
    exactly representable, so they are kept in [Z]. *)
Definition default_config : Config := {|
  EVIDENCE_ROOT := txt "Evidence";
  MODEL := txt "gpt-4o";
  MAX_RETRIES := 5;
  RETRY_DELAY := 1;
  MAX_RETRY_DELAY := 60;
  SAP_GRC_ENABLED := false;
  JIRA_ENABLED := false;
|}.

(** ** Remote collaborators

    Past the [ENABLED] guard both fetchers are one [try] around an HTTP
    exchange whose handler returns ["[... Error: ...]"]; the text they end
    up returning is read from an oracle. *)

Record Remote := {
  sap_grc_exchange : text -> text;
  jira_exchange : text -> text;
}.

Definition get_sap_grc_evidence (cfg : Config) (R : Remote) (control_id : text) : text :=
  if negb (SAP_GRC_ENABLED cfg) then [] else sap_grc_exchange R control_id.

Definition get_jira_evidence (cfg : Config) (R : Remote) (control_name : text) : text :=
  if negb (JIRA_ENABLED cfg) then [] else jira_exchange R control_name.

(** ** Evidence collector *)

(** The local variables [contents], [file_count], [total_chars] and
    [truncated] of [read_evidence_folder]. *)
Record collector_state := {
  contents : list text;
  file_count : Z;
  total_chars : Z;
  truncated : bool;
}.

(** How one iteration of the file loop ends: it falls through to the next
    file, or leaves the loop with [break]. *)
Inductive loop_signal :=
| Continue (st : collector_state)
| Break (st : collector_state).

Definition signal_state (s : loop_signal) : collector_state :=
  match s with Continue st | Break st => st end.

(** An entry of the [files] list: [(fname, fpath, file_size)]. *)
Record file_entry := {
  fname : text;
  fpath : text;
  file_size : Z;
}.

(** [files.sort(key=lambda x: x[2])]: ascending by size, stable. *)
Fixpoint insert_by_size (f : file_entry) (sorted : list file_entry) : list file_entry :=
  match sorted with
  | [] => [f]
  | g :: rest =>
      if file_size f <=? file_size g then f :: g :: rest
      else g :: insert_by_size f rest
  end.

Definition sort_by_size (files : list file_entry) : list file_entry :=
  foldr insert_by_size [] files.

Definition file_header (count : Z) (f : file_entry) : text :=
  txt "=== LOCAL FILE " ++ str_int count ++ txt ": " ++ fname f
    ++ txt " (" ++ str_int (file_size f) ++ txt " bytes) ===".

Definition stopped_note : text :=
  txt "[STOPPED: Total evidence limit of " ++ str_int MAX_TOTAL_CHARS
    ++ txt " chars reached]".

Section Collector.
Variable cfg : Config.
Variable FS : Filesystem.
Variable L : Libs.
Variable R : Remote.

(** Body of [for fname, fpath, file_size in files:]. *)
Definition process_file (f : file_entry) (st : collector_state) : loop_signal :=
  if MAX_TOTAL_CHARS <=? total_chars st then Break st
  else
    let file_count := file_count st + 1 in
    let contents := contents st ++ [file_header file_count f] in
    let file_content := decode_file L (fname f) (fpath f) (file_size f) in
    let '(file_content, truncated) := budget_file file_content (truncated st) in
    let remaining_chars := MAX_TOTAL_CHARS - total_chars st in
    if remaining_chars <? len file_content then
      if 100 <? remaining_chars then
        let file_content := smart_truncate_content file_content (remaining_chars - 50) in
        Break {| contents := contents ++ [file_content; stopped_note];
                 file_count := file_count;
                 total_chars := total_chars st;
                 truncated := true |}
      else
        Break {| contents := contents;
                 file_count := file_count;
                 total_chars := total_chars st;
                 truncated := true |}
    else
      Continue {| contents := contents ++ [file_content; []];
                  file_count := file_count;
                  total_chars := total_chars st + len file_content;
                  truncated := truncated |}.

Fixpoint files_loop (files : list file_entry) (st : collector_state) : loop_signal :=
  match files with
  | [] => Continue st
  | f :: rest =>
      match process_file f st with
      | Continue st' => files_loop rest st'
      | Break st' => Break st'
      end
  end.

(** The listing loop that fills [files]. *)
Fixpoint collect_files (folder : text) (names : list text) : exc (list file_entry) :=
  match names with
  | [] => Returned []
  | name :: rest =>
      let path := path_join folder name in
      if fs_isfile FS path then
        let* size := fs_getsize FS path in
        let* more := collect_files folder rest in
        Returned ({| fname := name; fpath := path; file_size := size |} :: more)
      else collect_files folder rest
  end.

(** The fuzzy search over the evidence root: the first directory whose
    lower-cased name contains the lower-cased cleaned control name. *)
Fixpoint fuzzy_match (clean_name : text) (names : list text) : option text :=
  match names with
  | [] => None
  | name :: rest =>
      if fs_isdir FS (path_join (EVIDENCE_ROOT cfg) name)
         && contains (lower clean_name) (lower name)
      then Some name
      else fuzzy_match clean_name rest
  end.

(** Folder resolution. The second component is the local variable
    [folder_missing]: it is assigned in the [else] of the [for] and in the
    [else] of the [if], and on no other path, so it is [None] (unbound)
    when the fuzzy search leaves the loop with [break]. *)
Definition resolve_folder (control_name : text) : exc (text * option bool) :=
  let clean_name := clean_folder_name (strip control_name) in
  let folder := path_join (EVIDENCE_ROOT cfg) clean_name in
  if negb (fs_isdir FS folder) then
    let* names := if fs_exists FS (EVIDENCE_ROOT cfg)
                  then fs_listdir FS (EVIDENCE_ROOT cfg)
                  else Returned [] in
    match fuzzy_match clean_name names with
    | Some name => Returned (path_join (EVIDENCE_ROOT cfg) name, None)
    | None => Returned (folder, Some true)
    end
  else Returned (folder, Some false).

(** Reading a local variable: an unbound one raises [UnboundLocalError]
    (the message is the wording of CPython 3.11 and later). *)
Definition read_local {A} (name : text) (v : option A) : exc A :=
  match v with
  | Some a => Returned a
  | None => Raised (txt "cannot access local variable '" ++ name
                      ++ txt "' where it is not associated with a value")
  end.

(** [if evidence: contents.append(evidence); total_chars += ...;
    file_count += 1] of the two remote blocks. *)
Definition add_remote (enabled : bool) (evidence : text) (st : collector_state)
  : collector_state :=
  if enabled && negb (text_eqb evidence []) then
    {| contents := contents st ++ [evidence];
       file_count := file_count st + 1;
       total_chars := total_chars st + len evidence;
       truncated := truncated st |}
  else st.

Definition initial_state : collector_state :=
  {| contents := []; file_count := 0; total_chars := 0; truncated := false |}.

Definition enabled_word (b : bool) : text :=
  if b then txt "Enabled" else txt "Disabled".

Definition no_evidence_message (control_name folder : text) : text :=
  txt "No evidence found for control: " ++ control_name
    ++ txt " (Local folder: " ++ folder
    ++ txt ", SAP GRC: " ++ enabled_word (SAP_GRC_ENABLED cfg)
    ++ txt ", Jira: " ++ enabled_word (JIRA_ENABLED cfg) ++ txt ")".

(** The joined corpus and the [truncated] flag after the final safety
    check. *)
Definition final_check (st : collector_state) : text * bool :=
  let result := str_join nl (contents st) in
  if MAX_TOTAL_CHARS <? len result
  then (smart_truncate_content result MAX_TOTAL_CHARS, true)
  else (result, truncated st).

Definition truncation_warning (count : Z) (result : text) : text :=
  txt "[WARNING: Evidence content was truncated. Processed " ++ str_int count
    ++ txt " sources, total " ++ str_int (len result) ++ txt " chars]".

(** Everything after the file loop. *)
Definition finish (control_name folder : text) (st : collector_state) : text :=
  if file_count st =? 0 then no_evidence_message control_name folder
  else
    let '(result, truncated) := final_check st in
    if truncated
    then truncation_warning (file_count st) result ++ nl ++ nl ++ result
    else result.

(** The state before the file loop: the two remote blocks. *)
Definition remote_state (control_name : text) : collector_state :=
  add_remote (JIRA_ENABLED cfg) (get_jira_evidence cfg R control_name)
    (add_remote (SAP_GRC_ENABLED cfg) (get_sap_grc_evidence cfg R control_name)
       initial_state).

(** State after the local-files block. *)
Definition local_files_state (folder : text) (folder_missing : bool)
    (st : collector_state) : exc collector_state :=
  if negb folder_missing && fs_exists FS folder then
    let* names := fs_listdir FS folder in
    let* files := collect_files folder names in
    Returned (signal_state (files_loop (sort_by_size files) st))
  else Returned st.

Definition read_evidence_folder (control_name : text) : exc text :=
  let* resolved := resolve_folder control_name in
  let '(folder, folder_missing) := resolved in
  let st := remote_state control_name in
  let* missing := read_local (txt "folder_missing") folder_missing in
  let* st := local_files_state folder missing st in
  Returned (finish control_name folder st).

End Collector.

(** ** Generation client *)

(** The request handed to [client.chat.completions.create]. *)
Record payload := {
  p_model : text;
  p_system : text;       (* content of the system message *)
  p_user : text;         (* content of the user message *)
  p_max_tokens : Z;
  p_temperature : Q;
}.

(** What the collaborators outside the process have seen so far: the
    requests sent to the generation service and the [time.sleep]
    durations, oldest first. *)
Record world := {
  api_calls : list payload;
  sleeps : list Z;
}.

Definition fresh_world : world := {| api_calls := []; sleeps := [] |}.

Definition record_call (p : payload) (w : world) : world :=
  {| api_calls := api_calls w ++ [p]; sleeps := sleeps w |}.

Definition sleep (seconds : Z) (w : world) : world :=
  {| api_calls := api_calls w; sleeps := sleeps w ++ [seconds] |}.

(** The generation service: given how many requests it has already
    received and the new request, either
    [completion.choices[0].message.content] (possibly [None]) or the
    exception raised inside the [try]. *)
Definition service := nat -> payload -> exc (option text).

(** [range(n)]. *)
Definition range (n : Z) : list Z := Z.of_nat <$> seq 0 (Z.to_nat n).

Definition is_rate_limit (error_msg : text) : bool :=
  contains (txt "429") error_msg
  || contains (txt "too many requests") error_msg
  || contains (txt "rate limit") error_msg.

Definition is_auth_failure (error_msg : text) : bool :=
  contains (txt "401") error_msg || contains (txt "unauthorized") error_msg.

Definition is_bad_request (error_msg : text) : bool :=
  contains (txt "400") error_msg || contains (txt "bad request") error_msg.

Section GenerationClient.
Variable cfg : Config.
Variable api : service.

(** The [for attempt in range(Config.MAX_RETRIES)] loop, over the
    attempts that are left. *)
Fixpoint retry_loop (attempts : list Z) (p : payload) (w : world) : text * world :=
  match attempts with
  | [] =>
      (txt "LLM error after " ++ str_int (MAX_RETRIES cfg) ++ txt " attempts", w)
  | attempt :: rest =>
      let response := api (length (api_calls w)) p in
      let w := record_call p w in
      match response with
      | Returned content =>
          (match content with
           | Some (c :: cs) => strip (c :: cs)
           | _ => txt "No response generated"
           end, w)
      | Raised e =>
          let error_msg := lower e in
          if is_rate_limit error_msg then
            let wait_time :=
              Z.min (RETRY_DELAY cfg * 2 ^ attempt) (MAX_RETRY_DELAY cfg) in
            retry_loop rest p (sleep wait_time w)
          else if is_auth_failure error_msg then
            (txt "Authentication error: " ++ e, w)
          else if is_bad_request error_msg then
            (txt "Request too large: " ++ e, w)
          else if attempt <? MAX_RETRIES cfg - 1 then
            let wait_time := RETRY_DELAY cfg * 2 ^ attempt in
            retry_loop rest p (sleep wait_time w)
          else
            retry_loop rest p w
      end
  end.

Definition make_llm_request_with_retry (p : payload) (operation_name : text)
    (w : world) : text * world :=
  retry_loop (range (MAX_RETRIES cfg)) p w.

(** The summary prompt up to the evidence. *)
Definition summary_prompt_head : text :=
str_join nl [
  [];
  txt "You are a world-class auditor with decades of experience. Carefully review the following evidence files and provide a comprehensive, detailed bullet-point summary of ALL key information, data, and documentation present.";
  [];
  txt "Be thorough and specific. Structure your analysis as follows:";
  [];
  txt "DOCUMENTS PRESENT:";
  txt "• [List a general high level overview of files found]";
  [];
  txt "KEY INFORMATION IDENTIFIED:";
  txt "• [Important data points, dates, amounts, names, IDs]";
  txt "• [Process steps documented]";
  txt "• [Approvals, signatures, timestamps]";
  txt "• [Controls and checkpoints evident]";
  txt "• [Completeness and accuracy of documentation]";
  [];
  txt "GAPS OR CONCERNS:";
  txt "• [Any missing information or concerns noted]";
  [];
  txt "EVIDENCE FILES:";
  []
].

(** The summary prompt after the evidence. *)
Definition summary_prompt_tail : text :=
str_join nl [
  [];
  [];
  txt "Provide your structured bullet-point analysis:";
  []
].

(** The sufficiency prompt up to the control description. *)
Definition sufficiency_prompt_head : text :=
str_join nl [
  [];
  txt "You are a world-class auditor performing a Test of Effectiveness (TOE) review. ";
  [];
  txt "Given the control description below and the evidence provided, perform a thorough assessment:";
  [];
  txt "1. Start with a clear YES or NO - Is the evidence sufficient to conclude that this control is operating effectively?";
  [];
  txt "2. Provide detailed auditor-style reasoning including:";
  txt "   - Specific evidence that supports control effectiveness";
  txt "   - Any gaps or deficiencies identified";
  txt "   - Whether the evidence demonstrates the control operated as designed";
  txt "   - Adequacy of documentation, timing, authorization";
  txt "   - Overall assessment of control operation";
  [];
  txt "CONTROL DESCRIPTION:";
  []
].

(** The sufficiency prompt between the control description and the evidence. *)
Definition sufficiency_prompt_middle : text :=
str_join nl [
  [];
  [];
  txt "EVIDENCE PROVIDED:";
  []
].

(** The sufficiency prompt after the evidence. *)
Definition sufficiency_prompt_tail : text :=
str_join nl [
  [];
  [];
  txt "Provide your assessment in the format:";
  txt "CONCLUSION: [YES/NO]";
  [];
  txt "DETAILED REASONING:";
  txt "[Your comprehensive auditor assessment]";
  []
].
Definition ask_evidence_summary (evidence_content : text) (w : world)
  : text * world :=
  let evidence_content :=
    if MAX_TOTAL_CHARS <? len evidence_content
    then smart_truncate_content evidence_content MAX_TOTAL_CHARS
    else evidence_content in
  let prompt := summary_prompt_head ++ evidence_content ++ summary_prompt_tail in
  make_llm_request_with_retry
    {| p_model := MODEL cfg;
       p_system := txt "You are an expert auditor. Provide a comprehensive structured analysis of evidence with clear sections.";
       p_user := prompt;
       p_max_tokens := 2048;
       p_temperature := (7 # 10)%Q |}
    (txt "Evidence Summary") w.

Definition ask_evidence_sufficiency (control_desc evidence_content : text)
    (w : world) : text * world :=
  let combined_content :=
    txt "CONTROL: " ++ control_desc ++ nl ++ nl ++ txt "EVIDENCE: "
      ++ evidence_content in
  let evidence_content :=
    if MAX_TOTAL_CHARS <? len combined_content then
      let available_for_evidence := MAX_TOTAL_CHARS - len control_desc - 100 in
      if 500 <? available_for_evidence
      then smart_truncate_content evidence_content available_for_evidence
      else slice_to evidence_content 500 ++ txt "[TRUNCATED due to size limits]"
    else evidence_content in
  let prompt :=
    sufficiency_prompt_head ++ control_desc ++ sufficiency_prompt_middle
      ++ evidence_content ++ sufficiency_prompt_tail in
  make_llm_request_with_retry
    {| p_model := MODEL cfg;
       p_system := txt "You are an expert auditor performing Test of Effectiveness reviews. Be thorough and professional.";
       p_user := prompt;
       p_max_tokens := 2048;
       p_temperature := (7 # 10)%Q |}
    (txt "Evidence Sufficiency") w.

End GenerationClient.

(** ** Orchestrators *)

(** A cell of the input sheet as [row.get] hands it over: a [str], or a
    value of another type (a number, a date, the NaN that pandas puts in
    place of an empty cell). Such a value has no length and cannot be
    added to a [str]; it is given by [str(v)] and by the messages of the
    [TypeError] that [len(v)] and [s + v] raise for it, which depend on
    its type. *)
Inductive cell :=
| CellStr (s : text)
| CellOther (rendered len_error add_error : text).

(** [str(v)], which is also what an f-string puts in place of [{v}]. *)
Definition cell_str (c : cell) : text :=
  match c with
  | CellStr s => s
  | CellOther rendered _ _ => rendered
  end.

(** [len(v)]. *)
Definition cell_len (c : cell) : exc Z :=
  match c with
  | CellStr s => Returned (len s)
  | CellOther _ len_error _ => Raised len_error
  end.

(** [s + v] for a [str] [s]. *)
Definition str_add (s : text) (c : cell) : exc text :=
  match c with
  | CellStr t => Returned (s ++ t)
  | CellOther _ _ add_error => Raised add_error
  end.

(** An input row: the two columns the pipeline reads. The other columns
    are passed through untouched. [Control] is the cell of the control
    name as [str] renders it: both orchestrators and the collector only
    ever apply [str] to that cell or format it. The cell of the
    description is kept as it is, because the module-level loop passes it
    on without [str]. *)
Record control_row := {
  Control : text;
  Control_Description : cell;
}.

(** An output row: the input row with the two added columns. *)
Record result_row := {
  source_row : control_row;
  evidence_summary : text;
  evidence_sufficiency : text;
}.

(** The fixed texts of the no-evidence branch of the module-level loop. *)
Definition no_folder_summary : text :=
  txt "No evidence folder found for this control".

Definition no_folder_sufficiency : text :=
  txt "CONCLUSION: NO" ++ nl ++ nl
    ++ txt "DETAILED REASONING: No evidence was provided for review. Cannot assess control effectiveness without supporting documentation.".

(** [df[col1] = summaries; df[col2] = sufficiencies]. *)
Fixpoint add_columns (rows : list control_row) (summaries sufficiencies : list text)
  : list result_row :=
  match rows, summaries, sufficiencies with
  | r :: rows', s :: summaries', v :: sufficiencies' =>
      {| source_row := r; evidence_summary := s; evidence_sufficiency := v |}
        :: add_columns rows' summaries' sufficiencies'
  | _, _, _ => []
  end.

Section Orchestrator.
Variable cfg : Config.
Variable FS : Filesystem.
Variable L : Libs.
Variable R : Remote.
Variable api : service.

(** [ask_evidence_sufficiency] called on the cell of the description as
    it is. The f-strings render the cell with [str]; [len(control_desc)]
    is evaluated only when the combined content is over the cap, and
    raises there for a cell that is no [str]. *)
Definition ask_evidence_sufficiency_of_cell (control_desc : cell)
    (evidence_content : text) (w : world) : exc text * world :=
  let combined_content :=
    txt "CONTROL: " ++ cell_str control_desc ++ nl ++ nl ++ txt "EVIDENCE: "
      ++ evidence_content in
  match (if MAX_TOTAL_CHARS <? len combined_content
         then cell_len control_desc else Returned 0) with
  | Raised e => (Raised e, w)
  | Returned _ =>
      let '(sufficiency, w) :=
        ask_evidence_sufficiency cfg api (cell_str control_desc)
          evidence_content w in
      (Returned sufficiency, w)
  end.

(** Body of the module-level [for idx, (_, row) in enumerate(df.iterrows())]:
    there is no [try] around it, so an exception of the collector, or of
    the two uses of the raw description cell, leaves the loop and ends the
    script. [control_tokens] is only printed and added to a total that is
    only printed. *)
Definition analyse_control (row : control_row) (w : world)
  : exc (text * text) * world :=
  let control_desc := Control_Description row in
  match read_evidence_folder cfg FS L R (Control row) with
  | Raised e => (Raised e, w)
  | Returned evidence_content =>
      if contains (txt "No evidence folder found") evidence_content then
        (Returned (no_folder_summary, no_folder_sufficiency), w)
      else
        let '(summary, w) := ask_evidence_summary cfg api evidence_content w in
        match ask_evidence_sufficiency_of_cell control_desc evidence_content w with
        | (Raised e, w) => (Raised e, w)
        | (Returned sufficiency, w) =>
            match str_add evidence_content control_desc with
            | Raised e => (Raised e, w)
            | Returned combined =>
                let control_tokens := estimate_tokens combined in
                (Returned (summary, sufficiency), w)
            end
        end
  end.

Fixpoint control_loop (rows : list control_row)
    (evidence_summary_col evidence_sufficiency_col : list text) (w : world)
  : exc (list text * list text) * world :=
  match rows with
  | [] => (Returned (evidence_summary_col, evidence_sufficiency_col), w)
  | row :: rest =>
      match analyse_control row w with
      | (Raised e, w) => (Raised e, w)
      | (Returned (summary, sufficiency), w) =>
          control_loop rest (evidence_summary_col ++ [summary])
            (evidence_sufficiency_col ++ [sufficiency]) w
      end
  end.

(** The module-level script from the control loop to the two new columns:
    the output dataset, or the exception that ended the script. *)
Definition module_level_run (rows : list control_row) (w : world)
  : exc (list result_row) * world :=
  match control_loop rows [] [] w with
  | (Raised e, w) => (Raised e, w)
  | (Returned (summaries, sufficiencies), w) =>
      (Returned (add_columns rows summaries sufficiencies), w)
  end.

(** Body of the loop of [process_controls], with its [try]/[except];
    here both cells go through [str] first. *)
Definition process_control (row : control_row) (w : world) : (text * text) * world :=
  let control_desc := cell_str (Control_Description row) in
  match read_evidence_folder cfg FS L R (Control row) with
  | Raised e =>
      ((txt "Error during analysis: " ++ e, txt "Error during analysis: " ++ e), w)
  | Returned evidence_content =>
      let '(summary, w) := ask_evidence_summary cfg api evidence_content w in
      let '(sufficiency, w) :=
        ask_evidence_sufficiency cfg api control_desc evidence_content w in
      ((summary, sufficiency), w)
  end.

Fixpoint process_controls_loop (rows : list control_row)
    (summary_list sufficiency_list : list text) (w : world)
  : (list text * list text) * world :=
  match rows with
  | [] => ((summary_list, sufficiency_list), w)
  | row :: rest =>
      let '((summary, sufficiency), w) := process_control row w in
      process_controls_loop rest (summary_list ++ [summary])
        (sufficiency_list ++ [sufficiency]) w
  end.

Definition process_controls (rows : list control_row) (w : world)
  : list result_row * world :=
  let '((summary_list, sufficiency_list), w) := process_controls_loop rows [] [] w in
  (add_columns rows summary_list sufficiency_list, w).

End Orchestrator.

(** ** Vocabulary of the properties *)

(** The text a local file contributes after per-file budgeting. *)
Definition budgeted_text (L : Libs) (f : file_entry) : text :=
  fst (budget_file (decode_file L (fname f) (fpath f) (file_size f)) false).

(** Whether per-file budgeting cuts the file. *)
Definition over_file_cap (L : Libs) (f : file_entry) : bool :=
  MAX_FILE_CHARS <? len (decode_file L (fname f) (fpath f) (file_size f)).

(** The three entries ([header], text, separator) that each file of a run
    without [break] leaves in [contents], numbered from [count + 1]. *)
Fixpoint corpus_entries (L : Libs) (count : Z) (files : list file_entry) : list text :=
  match files with
  | [] => []
  | f :: rest =>
      [file_header (count + 1) f; budgeted_text L f; []]
        ++ corpus_entries L (count + 1) rest
  end.

(** Sum of the budgeted sizes of a list of files. *)
Definition budgeted_total (L : Libs) (files : list file_entry) : Z :=
  foldr (fun f acc => len (budgeted_text L f) + acc) 0 files.



(** The extensions the dispatch recognises. *)
Definition supported_extension (ext : text) : bool :=
  existsb (text_eqb ext)
    [txt ".txt"; txt ".docx"; txt ".pdf"; txt ".csv"; txt ".xlsx"; txt ".xls";
     txt ".msg"; txt ".eml"; txt ".mbox"; txt ".png"; txt ".jpg"; txt ".jpeg";
     txt ".tiff"; txt ".bmp"; txt ".gif"].

(** The four ways one iteration of the file loop can end, in terms of the
    budgeted text of the file. *)
Inductive file_step (L : Libs) (f : file_entry) (st : collector_state)
  : loop_signal -> Prop :=
| step_budget_spent :
    MAX_TOTAL_CHARS <= total_chars st ->
    file_step L f st (Break st)
| step_appended :
    total_chars st < MAX_TOTAL_CHARS ->
    len (budgeted_text L f) <= MAX_TOTAL_CHARS - total_chars st ->
    file_step L f st
      (Continue {| contents := contents st
                     ++ [file_header (file_count st + 1) f; budgeted_text L f; []];
                   file_count := file_count st + 1;
                   total_chars := total_chars st + len (budgeted_text L f);
                   truncated := truncated st || over_file_cap L f |})
| step_cut :
    total_chars st < MAX_TOTAL_CHARS ->
    MAX_TOTAL_CHARS - total_chars st < len (budgeted_text L f) ->
    100 < MAX_TOTAL_CHARS - total_chars st ->
    file_step L f st
      (Break {| contents := contents st
                  ++ [file_header (file_count st + 1) f;
                      smart_truncate_content (budgeted_text L f)
                        (MAX_TOTAL_CHARS - total_chars st - 50);
                      stopped_note];
                file_count := file_count st + 1;
                total_chars := total_chars st;
                truncated := true |})
| step_dropped :
    total_chars st < MAX_TOTAL_CHARS ->
    MAX_TOTAL_CHARS - total_chars st < len (budgeted_text L f) ->
    MAX_TOTAL_CHARS - total_chars st <= 100 ->
    file_step L f st
      (Break {| contents := contents st ++ [file_header (file_count st + 1) f];
                file_count := file_count st + 1;
                total_chars := total_chars st;
                truncated := true |}).

(** Total length of the entries of [contents]. *)
Definition sum_len (parts : list text) : Z :=
  foldr (fun s acc => len s + acc) 0 parts.

(** Ascending byte size, and the files of one given size. *)
Definition size_le (a b : file_entry) : Prop := file_size a <= file_size b.

Definition same_size (s : Z) (g : file_entry) : bool := file_size g =? s.


(** The wait of the rate-limit branch at a given attempt. *)
Definition capped_wait (cfg : Config) (attempt : Z) : Z :=
  Z.min (RETRY_DELAY cfg * 2 ^ attempt) (MAX_RETRY_DELAY cfg).

(** Every request with payload [p] fails with a message that the client
    classifies as a rate limit. *)
Definition always_rate_limited (api : service) (p : payload) : Prop :=
  forall n, exists e, api n p = Raised e /\ is_rate_limit (lower e) = true.

(** ** Sample environments *)

(** A file system given by its directories (path and entry names) and its
    regular files (path and size). *)
Definition sample_fs (dirs : list (text * list text)) (files : list (text * Z))
  : Filesystem := {|
  fs_exists p :=
    existsb (fun d => text_eqb p (fst d)) dirs
    || existsb (fun f => text_eqb p (fst f)) files;
  fs_isdir p := existsb (fun d => text_eqb p (fst d)) dirs;
  fs_isfile p := existsb (fun f => text_eqb p (fst f)) files;
  fs_listdir p :=
    match find (fun d => text_eqb p (fst d)) dirs with
    | Some d => Returned (snd d)
    | None => Raised (txt "[Errno 2] No such file or directory: '" ++ p ++ txt "'")
    end;
  fs_getsize p :=
    match find (fun f => text_eqb p (fst f)) files with
    | Some f => Returned (snd f)
    | None => Raised (txt "[Errno 2] No such file or directory: '" ++ p ++ txt "'")
    end;
|}.

(** Libraries that are all installed and whose calls on a path all end as
    [read] says. *)
Definition sample_libs (read : text -> exc text) : Libs := {|
  docx_available := true;
  pypdf2_available := true;
  extract_msg_available := true;
  email_available := true;
  ocr_available := true;
  txt_body := read;
  docx_body := read;
  csv_body := read;
  xlsx_body := read;
  large_excel_body := read;
  msg_body := read;
  eml_body := read;
  mbox_body := read;
  image_ocr p :=
    let* t := read p in
    Returned {| ocr_text := t; ocr_conf_1f := txt "90.0"; ocr_conf_low := false |};
  pdf_reader p := let* t := read p in Returned [Returned t];
  pdf_images p := Raised (txt "Unable to get page count.");
|}.

Definition sample_remote (sap jira : text) : Remote := {|
  sap_grc_exchange _ := sap;
  jira_exchange _ := jira;
|}.

(** A service that fails every request with the same message. *)
Definition failing_service (msg : text) : service := fun _ _ => Raised msg.

(** A service that answers every request with the same text. *)
Definition answering_service (answer : text) : service :=
  fun _ _ => Returned (Some answer).

(** [n] copies of one character. *)
Definition chars (c : ascii) (n : Z) : text := repeat c (Z.to_nat n).

(** The configuration of the source with the GRC collaborator switched on. *)
Definition grc_config : Config := {|
  EVIDENCE_ROOT := txt "Evidence";
  MODEL := txt "gpt-4o";
  MAX_RETRIES := 5;
  RETRY_DELAY := 1;
  MAX_RETRY_DELAY := 60;
  SAP_GRC_ENABLED := true;
  JIRA_ENABLED := false;
|}.

(** An evidence root with one control folder [Evidence/C001] holding the
    given files. *)
Definition one_folder_fs (files : list (text * Z)) : Filesystem :=
  sample_fs
    [(txt "Evidence", [txt "C001"]);
     (txt "Evidence/C001", fst <$> files)]
    ((fun f => (txt "Evidence/C001/" ++ fst f, snd f)) <$> files).

(** An evidence root without any control folder. *)
Definition empty_root_fs : Filesystem := sample_fs [(txt "Evidence", [])] [].

(** An evidence root whose only folder matches [C001] by substring. *)
Definition fuzzy_fs : Filesystem :=
  sample_fs
    [(txt "Evidence", [txt "C001_evidence"]);
     (txt "Evidence/C001_evidence", [txt "approval.txt"])]
    [(txt "Evidence/C001_evidence/approval.txt", 34)].

Definition row_C001 : control_row :=
  {| Control := txt "C001";
     Control_Description := CellStr (txt "Manager approval of changes") |}.

Definition row_C002 : control_row :=
  {| Control := txt "C002";
     Control_Description := CellStr (txt "Quarterly access review") |}.

(** The float NaN that pandas puts in place of an empty cell, with the
    messages of CPython for a float. *)
Definition nan_cell : cell :=
  CellOther (txt "nan") (txt "object of type 'float' has no len()")
    (txt "can only concatenate str (not " ++ ["034"%char] ++ txt "float"
       ++ ["034"%char] ++ txt ") to str").

(** A row whose description cell is empty in the sheet. *)
Definition row_without_description : control_row :=
  {| Control := txt "C002"; Control_Description := nan_cell |}.

(** [str(e)] of the [UnboundLocalError] on [folder_missing]. *)
Definition unbound_folder_missing : text :=
  txt "cannot access local variable 'folder_missing' where it is not associated with a value".

(** A five-character file next to a file that decodes to 160001
    characters, listed with the large one first. *)
Definition small_file : file_entry :=
  {| fname := txt "small.txt"; fpath := txt "Evidence/C001/small.txt"; file_size := 5 |}.

Definition big_file : file_entry :=
  {| fname := txt "big.txt"; fpath := txt "Evidence/C001/big.txt"; file_size := 160001 |}.

Definition big_fs : Filesystem :=
  one_folder_fs [(txt "big.txt", 160001); (txt "small.txt", 5)].

Definition big_libs : Libs :=
  sample_libs (fun path =>
    if text_eqb path (txt "Evidence/C001/big.txt")
    then Returned (chars "a" 160001)
    else Returned (txt "small")).

(** Eleven text files of 15000 characters each. *)
Definition eleven_names : list text :=
  (fun i => txt "f" ++ str_int i ++ txt ".txt") <$> range 11.


Definition eleven_files : list file_entry :=
  (fun n => {| fname := n; fpath := txt "Evidence/C001/" ++ n; file_size := 15000 |})
    <$> eleven_names.

Definition full_libs : Libs := sample_libs (fun _ => Returned (chars "a" 15000)).


Definition note_libs : Libs := sample_libs (fun _ => Returned (chars "n" 200)).


(** Libraries whose every call fails, a text file and a file of an
    unknown type. *)
Definition denied : text := txt "[Errno 13] Permission denied".

Definition denied_libs : Libs := sample_libs (fun _ => Raised denied).



(** The request of the connectivity test, and an authentication failure
    whose message shows a key fragment reading 429. *)
Definition ping : payload :=
  {| p_model := txt "gpt-4o"; p_system := txt "Be concise and precise.";
     p_user := txt "ping"; p_max_tokens := 10; p_temperature := (7 # 10)%Q |}.

Definition auth_message_with_429 : text :=
  txt "Error code: 401 - Incorrect API key provided: sk-proj-4290".

(** A state of the collector with 50 characters of budget left. *)
Definition almost_spent : collector_state :=
  {| contents := []; file_count := 0; total_chars := 159950; truncated := false |}.

(** Every request with payload [p] fails with a message that matches none
    of the patterns of the client. *)
Definition always_transient (api : service) (p : payload) : Prop :=
  forall n, exists e,
    api n p = Raised e
    /\ is_rate_limit (lower e) = false
    /\ is_auth_failure (lower e) = false
    /\ is_bad_request (lower e) = false.

(** The requests from number [first] on, [count] of them, are rate
    limited. *)
Definition rate_limited_from (api : service) (p : payload) (first count : nat)
  : Prop :=
  forall i, (i < count)%nat ->
    exists e, api (first + i)%nat p = Raised e /\ is_rate_limit (lower e) = true.

(** The text the client returns for a completion that did not raise. *)
Definition completion_text (content : option text) : text :=
  match content with
  | Some (c :: cs) => strip (c :: cs)
  | _ => txt "No response generated"
  end.

(** A service that is rate limited [k] times and then answers. *)
Definition recovering_service (k : nat) (answer : text) : service :=
  fun n _ =>
    if (n <? k)%nat then Raised (txt "Error code: 429 - Rate limit reached")
    else Returned (Some answer).

(** The request built by [ask_evidence_summary] around an evidence text. *)
Definition summary_payload (cfg : Config) (evidence : text) : payload :=
  {| p_model := MODEL cfg;
     p_system := txt "You are an expert auditor. Provide a comprehensive structured analysis of evidence with clear sections.";
     p_user := summary_prompt_head ++ evidence ++ summary_prompt_tail;
     p_max_tokens := 2048;
     p_temperature := (7 # 10)%Q |}.

(** The request built by [ask_evidence_sufficiency] around a control
    description and an evidence text. *)
Definition sufficiency_payload (cfg : Config) (control_desc evidence : text) : payload :=
  {| p_model := MODEL cfg;
     p_system := txt "You are an expert auditor performing Test of Effectiveness reviews. Be thorough and professional.";
     p_user := sufficiency_prompt_head ++ control_desc ++ sufficiency_prompt_middle
                 ++ evidence ++ sufficiency_prompt_tail;
     p_max_tokens := 2048;
     p_temperature := (7 # 10)%Q |}.

(** ** Client start-up ([initialize_client])

    [Config.API_KEY] is read from the environment and is passed in. The
    connection test always sends the same request, so the service is seen
    as a function of the number of requests already made; the construction
    of the client object is taken to succeed. [sys.exit] raises
    [SystemExit], which no [except Exception] catches: it ends the
    process. *)

Inductive startup :=
| ClientReady
| Exited (code : Z).

(** Requests sent and [time.sleep] durations during start-up. *)
Record probe_log := {
  probes : nat;
  probe_sleeps : list Z;
}.

(** The exception that ends one pass through the [try] of the connection
    test, if any: the one raised by the request, or the one the code raises
    itself for a response without content. *)
Definition probe_error (response : exc (option text)) : option text :=
  match response with
  | Returned (Some (_ :: _)) => None
  | Returned _ => Some (txt "Invalid response structure from API")
  | Raised e => Some e
  end.

(** The two tests of the handler that end the process at once. *)
Definition is_fatal_startup_error (error_msg : text) : bool :=
  (contains (txt "unauthorized") error_msg
   || contains (txt "invalid api key") error_msg)
  || (contains (txt "model") error_msg && contains (txt "not found") error_msg).

Fixpoint connection_test (cfg : Config) (ping : nat -> exc (option text))
    (attempts : list Z) (log : probe_log) : startup * probe_log :=
  match attempts with
  | [] => (ClientReady, log)
  | attempt :: rest =>
      let response := ping (probes log) in
      let log := {| probes := S (probes log); probe_sleeps := probe_sleeps log |} in
      match probe_error response with
      | None => (ClientReady, log)
      | Some e =>
          let error_msg := lower e in
          if is_fatal_startup_error error_msg then (Exited 1, log)
          else if attempt <? MAX_RETRIES cfg - 1 then
            let wait_time := RETRY_DELAY cfg * 2 ^ attempt in
            connection_test cfg ping rest
              {| probes := probes log;
                 probe_sleeps := probe_sleeps log ++ [wait_time] |}
          else (Exited 1, log)
      end
  end.

Definition initialize_client (cfg : Config) (api_key : text)
    (ping : nat -> exc (option text)) (log : probe_log) : startup * probe_log :=
  if text_eqb api_key (txt "YOUR_OPENAI_API_KEY_HERE") then (Exited 1, log)
  else connection_test cfg ping (range (MAX_RETRIES cfg)) log.

(** The uncapped wait after a failed attempt. *)
Definition doubling_wait (cfg : Config) (attempt : Z) : Z :=
  RETRY_DELAY cfg * 2 ^ attempt.

(** Every probe fails, and never with one of the fatal messages. *)
Definition always_unreachable (ping : nat -> exc (option text)) : Prop :=
  forall n, exists e,
    probe_error (ping n) = Some e /\ is_fatal_startup_error (lower e) = false.

(** ** The second retry helper ([make_llm_call_with_retry]) *)

(** What one pass through its [try] meets: a response, an [OpenAIError],
    or any other exception. *)
Inductive call_outcome :=
| Answered (content : option text)
| OpenAIFailure (msg : text)
| OtherFailure (msg : text).

Fixpoint llm_call_loop (cfg : Config) (call : nat -> call_outcome)
    (attempts : list Z) (log : probe_log) : option text * probe_log :=
  match attempts with
  | [] => (None, log)
  | attempt :: rest =>
      let outcome := call (probes log) in
      let log := {| probes := S (probes log); probe_sleeps := probe_sleeps log |} in
      match outcome with
      | Answered (Some (c :: cs)) => (Some (strip (c :: cs)), log)
      | Answered _ => llm_call_loop cfg call rest log
      | OpenAIFailure _ =>
          if attempt <? MAX_RETRIES cfg - 1 then
            let wait_time :=
              Z.min (RETRY_DELAY cfg * 2 ^ attempt) (MAX_RETRY_DELAY cfg) in
            llm_call_loop cfg call rest
              {| probes := probes log;
                 probe_sleeps := probe_sleeps log ++ [wait_time] |}
          else llm_call_loop cfg call rest log
      | OtherFailure _ => (None, log)
      end
  end.

Definition make_llm_call_with_retry (cfg : Config) (call : nat -> call_outcome)
    (log : probe_log) : option text * probe_log :=
  llm_call_loop cfg call (range (MAX_RETRIES cfg)) log.

(** Every response is missing or empty. *)
Definition always_empty (call : nat -> call_outcome) : Prop :=
  forall n, call n = Answered None \/ call n = Answered (Some []).

(** A connection that fails [k] times and then answers. *)
Definition flaky_ping (k : nat) (answer : text) : nat -> exc (option text) :=
  fun n => if (n <? k)%nat then Raised (txt "Connection error.")
           else Returned (Some answer).

Definition fresh_probe_log : probe_log := {| probes := 0; probe_sleeps := [] |}.

(** ** The large-workbook reader, inside its [try]

    A worksheet as [process_large_excel_file] sees it: its title, its
    [max_row] (which openpyxl may leave at [None]) and the rows that
    [iter_rows(values_only=True, max_row=15)] yields, each cell being
    [None] or already rendered by [str]. *)

Record sheet := {
  sheet_title : text;
  sheet_max_row : option Z;
  sheet_rows : list (list (option text));
}.

(** [', '.join([str(cell) for cell in row if cell is not None])]. *)
Definition row_line (row : list (option text)) : text :=
  str_join (txt ", ") (omap id row).

(** [any(cell is not None for cell in row)]. *)
Definition row_has_value (row : list (option text)) : bool :=
  existsb (fun cell => match cell with Some _ => true | None => false end) row.

(** The loop over the rows of one sheet: [rows_data] and [row_count] when
    it ends. Comparing with [ws.max_row - 5] raises when [max_row] is
    [None]; the comparison is only reached from the eleventh row on. *)
Fixpoint excel_rows (max_row : option Z) (rows : list (list (option text)))
    (row_count : Z) (rows_data : list text) : exc (list text * Z) :=
  match rows with
  | [] => Returned (rows_data, row_count)
  | row :: rest =>
      let* selected :=
        if row_count <? 10 then Returned true
        else match max_row with
             | Some m => Returned (m - 5 <=? row_count)
             | None => Raised (txt "unsupported operand type(s) for -: 'NoneType' and 'int'")
             end in
      let rows_data :=
        if selected && row_has_value row then rows_data ++ [row_line row]
        else rows_data in
      let row_count := row_count + 1 in
      if 15 <? row_count then Returned (rows_data, row_count)
      else excel_rows max_row rest row_count rows_data
  end.

Definition excel_sheet_text (ws : sheet) : exc text :=
  let* counted := excel_rows (sheet_max_row ws) (sheet_rows ws) 0 [] in
  let '(rows_data, row_count) := counted in
  let rows_data :=
    if 15 <? row_count then
      rows_data
        ++ [txt "[SUMMARY: Sheet has "
              ++ match sheet_max_row ws with
                 | Some m => str_int m
                 | None => txt "None"
                 end
              ++ txt " total rows, showing first 10 and last 5]"]
    else rows_data in
  Returned (str_join nl
              ([txt "--- Sheet: " ++ sheet_title ws ++ txt " ---"] ++ rows_data)).

Fixpoint excel_sheets_text (sheets : list sheet) : exc (list text) :=
  match sheets with
  | [] => Returned []
  | ws :: rest =>
      let* t := excel_sheet_text ws in
      let* more := excel_sheets_text rest in
      Returned (t :: more)
  end.

(** The body of the [try] of [process_large_excel_file] on a workbook that
    loaded. *)
Definition large_excel_summary (sheets : list sheet) : exc text :=
  let* texts := excel_sheets_text sheets in
  Returned (str_join nl
              ([txt "Excel Workbook: " ++ str_int (len_pages sheets) ++ txt " sheets"]
                 ++ texts)).

(** The lines of the rows that hold a value. *)
Definition row_lines (rows : list (list (option text))) : list text :=
  omap (fun row => if row_has_value row then Some (row_line row) else None) rows.

(** A sheet of 30 rows with one cell each, as the reader sees it. *)
Definition thirty_row_sheet : sheet := {|
  sheet_title := txt "Ledger";
  sheet_max_row := Some 30;
  sheet_rows := (fun i => [Some (txt "row " ++ str_int i)]) <$> range 15;
|}.

(** The message of [None - 5]. *)
Definition none_minus_int : text :=
  txt "unsupported operand type(s) for -: 'NoneType' and 'int'".

(** A sheet of 12 rows whose [max_row] is not recorded in the file. *)
Definition unsized_sheet : sheet := {|
  sheet_title := txt "Export";
  sheet_max_row := None;
  sheet_rows := (fun i => [Some (str_int i)]) <$> range 12;
|}.

Definition unsized_libs : Libs :=
  sample_libs (fun _ => large_excel_summary [thirty_row_sheet; unsized_sheet]).

(** ** Text of an Atlassian document

    A value decoded from JSON, as [response.json()] returns it: a [dict]
    is an association list in insertion order whose keys are distinct. *)

Local Unset Elimination Schemes.

Inductive json :=
  | JNull
  | JBool (b : bool)
  | JInt (n : Z)
  | JFloat (repr : text)
  | JStr (s : text)
  | JList (items : list json)
  | JDict (fields : list (text * json)).

Local Set Elimination Schemes.

(** [d.get(key)]. *)
Fixpoint dict_get (fields : list (text * json)) (key : text) : option json :=
  match fields with
  | [] => None
  | (k, v) :: rest => if text_eqb k key then Some v else dict_get rest key
  end.

(** [node.get('type') == 'text']. *)
Definition is_text_node (fields : list (text * json)) : bool :=
  match dict_get fields (txt "type") with
  | Some (JStr s) => text_eqb s (txt "text")
  | _ => false
  end.

(** [type(v).__name__]. *)
Definition type_name (v : json) : text :=
  match v with
  | JNull => txt "NoneType"
  | JBool _ => txt "bool"
  | JInt _ => txt "int"
  | JFloat _ => txt "float"
  | JStr _ => txt "str"
  | JList _ => txt "list"
  | JDict _ => txt "dict"
  end.

(** [extract_text_recursive(node)], threading [text_parts]. The loop
    [for child in node['content']] visits the items of a list; over a
    [dict] it visits the keys and over a [str] the characters, all of them
    strings, on which the function does nothing; over anything else it
    raises. *)
Fixpoint extract_text_recursive (node : json) (text_parts : list json)
    : exc (list json) :=
  let fix each (items : list json) (text_parts : list json) : exc (list json) :=
    match items with
    | [] => Returned text_parts
    | item :: rest =>
        let* text_parts := extract_text_recursive item text_parts in
        each rest text_parts
    end in
  match node with
  | JDict fields =>
      if is_text_node fields then
        Returned (text_parts
                    ++ [match dict_get fields (txt "text") with
                        | Some v => v
                        | None => JStr []
                        end])
      else
        (fix find (fields : list (text * json)) : exc (list json) :=
           match fields with
           | [] => Returned text_parts
           | (k, v) :: rest =>
               if text_eqb k (txt "content") then
                 match v with
                 | JList items => each items text_parts
                 | JDict _ | JStr _ => Returned text_parts
                 | JNull | JBool _ | JInt _ | JFloat _ =>
                     Raised (txt "'" ++ type_name v ++ txt "' object is not iterable")
                 end
               else find rest
           end) fields
  | JList items => each items text_parts
  | _ => Returned text_parts
  end.

(** The loop over the items of a list, as a function of its own. *)
Fixpoint extract_text_each (items : list json) (text_parts : list json)
    : exc (list json) :=
  match items with
  | [] => Returned text_parts
  | item :: rest =>
      let* text_parts := extract_text_recursive item text_parts in
      extract_text_each rest text_parts
  end.

(** The items handed to [' '.join], which accepts strings only; [i] is
    the position of the first item. *)
Fixpoint joinable (parts : list json) (i : Z) : exc (list text) :=
  match parts with
  | [] => Returned []
  | JStr s :: rest =>
      let* more := joinable rest (i + 1) in
      Returned (s :: more)
  | other :: _ =>
      Raised (txt "sequence item " ++ str_int i ++ txt ": expected str instance, "
                ++ type_name other ++ txt " found")
  end.

Section Adf.

(** [str] of a value that is no [dict]. *)
Variable py_str : json -> text.

Definition extract_text_from_adf (adf_content : json) : exc text :=
  match adf_content with
  | JDict _ =>
      let* text_parts := extract_text_recursive adf_content [] in
      let* parts := joinable text_parts 0 in
      Returned (str_join (txt " ") parts)
  | _ => Returned (py_str adf_content)
  end.

End Adf.

(** A document of the format: text leaves, and nodes of another type
    with their children. *)
Local Unset Elimination Schemes.

Inductive adf :=
  | AdfText (s : text)
  | AdfNode (type : text) (content : list adf).

Local Set Elimination Schemes.

(** The JSON value of a document. *)
Fixpoint adf_json (doc : adf) : json :=
  match doc with
  | AdfText s => JDict [(txt "type", JStr (txt "text")); (txt "text", JStr s)]
  | AdfNode type content =>
      JDict [(txt "type", JStr type); (txt "content", JList (adf_json <$> content))]
  end.

(** The text leaves of a document, from left to right. *)
Fixpoint adf_texts (doc : adf) : list text :=
  match doc with
  | AdfText s => [s]
  | AdfNode _ content => concat (adf_texts <$> content)
  end.

(** No node other than a leaf has the type [text]. *)
Fixpoint adf_well_typed (doc : adf) : bool :=
  match doc with
  | AdfText _ => true
  | AdfNode type content =>
      negb (text_eqb type (txt "text")) && forallb adf_well_typed content
  end.

(** A comment of two paragraphs. *)
Definition sample_comment : adf :=
  AdfNode (txt "doc")
    [AdfNode (txt "paragraph") [AdfText (txt "Approved by"); AdfText (txt "the controller")];
     AdfNode (txt "paragraph") [AdfNode (txt "hardBreak") []; AdfText (txt "on 3 May")]].

(** ** More sample environments *)


(** A PDF of three pages of which the third cannot be extracted. *)
Definition damaged_pdf_libs : Libs := {|
  docx_available := true;
  pypdf2_available := true;
  extract_msg_available := true;
  email_available := true;
  ocr_available := true;
  txt_body _ := Raised denied;
  docx_body _ := Raised denied;
  csv_body _ := Raised denied;
  xlsx_body _ := Raised denied;
  large_excel_body _ := Raised denied;
  msg_body _ := Raised denied;
  eml_body _ := Raised denied;
  mbox_body _ := Raised denied;
  image_ocr _ := Raised denied;
  pdf_reader _ :=
    Returned [Returned (chars "a" 7000); Returned (chars "b" 7000);
              Raised (txt "page 3 is damaged")];
  pdf_images _ := Raised (txt "Unable to get page count.");
|}.

(** * Properties *)

(** ** Lengths and slices *)

Lemma len_app (a b : text) : len (a ++ b) = len a + len b.
Proof. unfold len. rewrite length_app. lia. Qed.

Lemma len_nonneg (a : text) : 0 <= len a.
Proof. unfold len. lia. Qed.

Lemma len_take (n : nat) (s : text) : len (take n s) = Z.min (Z.of_nat n) (len s).
Proof. unfold len. rewrite length_take. lia. Qed.

Lemma slice_to_nonneg (s : text) (k : Z) :
  0 <= k -> slice_to s k = take (Z.to_nat k) s.
Proof. intros Hk. unfold slice_to. destruct (Z.leb_spec 0 k); [done | lia]. Qed.

Lemma len_slice_to (s : text) (k : Z) : 0 <= k -> len (slice_to s k) <= k.
Proof. intros Hk. rewrite slice_to_nonneg, len_take by done. lia. Qed.





(** ** Budget controller *)

Example smart_truncate_short :
  smart_truncate_content (txt "Approved by manager on 2024-01-01.") 15000
  = txt "Approved by manager on 2024-01-01.".
Proof. reflexivity. Qed.

Example smart_truncate_cap_100 :
  smart_truncate_content (chars "x" 120 ++ txt "END") 100
  = chars "x" 50
      ++ nl ++ nl ++ txt "[TRUNCATED: 23 chars removed from middle]" ++ nl ++ nl
      ++ chars "x" 5.
Proof. vm_compute. reflexivity. Qed.

Lemma smart_truncate_content_fits (content : text) (cap : Z) :
  len content <= cap -> smart_truncate_content content cap = content.
Proof.
  intros H. unfold smart_truncate_content.
  destruct (Z.leb_spec (len content) cap); [done | lia].
Qed.

Lemma head_tail_below_cap (C : Z) : 0 < C -> C / 2 + C / 4 < C.
Proof.
  intros HC.
  pose proof (Z.mul_div_le C 2 ltac:(lia)).
  pose proof (Z.mul_div_le C 4 ltac:(lia)).
  lia.
Qed.

(** With a positive cap the head-and-tail branch is always the one taken. *)
Lemma smart_truncate_content_long (content : text) (C : Z) :
  0 < C -> C < len content ->
  smart_truncate_content content C
  = slice_to (slice_to content (C / 2)
                ++ truncation_marker (len content - C)
                ++ slice_from content (- (C / 4))) C.
Proof.
  intros HC Hlen. unfold smart_truncate_content.
  destruct (Z.leb_spec (len content) C); [lia |].
  pose proof (head_tail_below_cap C HC).
  destruct (Z.ltb_spec (C / 2 + C / 4) C); [done | lia].
Qed.

Lemma len_smart_truncate_le (content : text) (C : Z) :
  0 < C -> C < len content -> len (smart_truncate_content content C) <= C.
Proof.
  intros HC Hlen. rewrite smart_truncate_content_long by done.
  apply len_slice_to. lia.
Qed.




(** C9. A text shorter than the per-file cap comes back from
    [smart_truncate_content] unchanged, and the per-file budgeting step of
    the collector leaves both the text and a false [truncated] flag as
    they were. *)
Theorem short_text_unchanged (content : text) :
  len content < MAX_FILE_CHARS ->
  smart_truncate_content content MAX_FILE_CHARS = content
  /\ budget_file content false = (content, false).
Proof.
  intros H. split.
  - apply smart_truncate_content_fits. lia.
  - unfold budget_file.
    destruct (Z.ltb_spec MAX_FILE_CHARS (len content)); [lia | done].
Qed.

Lemma short_text_unchanged_witness :
  len (txt "Approved by manager on 2024-01-01.") < MAX_FILE_CHARS
  /\ smart_truncate_content (txt "Approved by manager on 2024-01-01.") MAX_FILE_CHARS
     = txt "Approved by manager on 2024-01-01."
  /\ budget_file (txt "Approved by manager on 2024-01-01.") false
     = (txt "Approved by manager on 2024-01-01.", false).
Proof.
  split; [reflexivity |].
  apply (short_text_unchanged (txt "Approved by manager on 2024-01-01.")).
  reflexivity.
Defined.




(** ** Per-file budgeting *)

Lemma budget_file_text (c : text) (flag : bool) :
  fst (budget_file c flag) = fst (budget_file c false).
Proof. unfold budget_file. by destruct (MAX_FILE_CHARS <? len c). Qed.

Lemma budget_file_flag (c : text) (flag : bool) :
  snd (budget_file c flag) = flag || (MAX_FILE_CHARS <? len c).
Proof.
  unfold budget_file. destruct (MAX_FILE_CHARS <? len c); simpl; by destruct flag.
Qed.

Lemma len_budget_file (c : text) (flag : bool) :
  len (fst (budget_file c flag)) <= MAX_FILE_CHARS.
Proof.
  unfold budget_file. destruct (Z.ltb_spec MAX_FILE_CHARS (len c)); simpl.
  - apply len_smart_truncate_le; [reflexivity | done].
  - done.
Qed.

Lemma len_budgeted_text (L : Libs) (f : file_entry) :
  len (budgeted_text L f) <= MAX_FILE_CHARS.
Proof. apply len_budget_file. Qed.

(** ** The file loop of the collector *)

Section Loop.
Variable L : Libs.

Lemma process_file_step (f : file_entry) (st : collector_state) :
  file_step L f st (process_file L f st).
Proof.
  unfold process_file.
  destruct (Z.leb_spec MAX_TOTAL_CHARS (total_chars st)) as [Hs | Hs];
    [by constructor |].
  pose proof (budget_file_text (decode_file L (fname f) (fpath f) (file_size f))
                (truncated st)) as Ht.
  pose proof (budget_file_flag (decode_file L (fname f) (fpath f) (file_size f))
                (truncated st)) as Hf.
  destruct (budget_file _ (truncated st)) as [c flag]. simpl in Ht, Hf.
  fold (budgeted_text L f) in Ht. fold (over_file_cap L f) in Hf. subst c flag.
  destruct (Z.ltb_spec (MAX_TOTAL_CHARS - total_chars st) (len (budgeted_text L f))).
  - destruct (Z.ltb_spec 100 (MAX_TOTAL_CHARS - total_chars st)).
    + rewrite <- app_assoc. simpl. by constructor.
    + by constructor.
  - rewrite <- app_assoc. simpl. by constructor.
Qed.


(** A run that never breaks appends the three entries of every file. *)
Lemma files_loop_continue (files : list file_entry) (st st' : collector_state) :
  files_loop L files st = Continue st' ->
  contents st' = contents st ++ corpus_entries L (file_count st) files
  /\ file_count st' = file_count st + Z.of_nat (length files)
  /\ total_chars st' = total_chars st + budgeted_total L files
  /\ truncated st' = truncated st || existsb (over_file_cap L) files
  /\ (files <> [] -> total_chars st' <= MAX_TOTAL_CHARS).
Proof.
  revert st. induction files as [| f files IH]; intros st; simpl.
  - intros [= <-]. rewrite app_nil_r, orb_false_r. repeat split; try lia; done.
  - destruct (process_file_step f st) as [Hs | Hs Hfit | Hs Hfit Hr | Hs Hfit Hr];
      try discriminate.
    intros Hloop. destruct (IH _ Hloop) as (Hc & Hn & Ht & Hf & Hcap).
    simpl in Hc, Hn, Ht, Hf. repeat split.
    + rewrite Hc, <- app_assoc. done.
    + lia.
    + lia.
    + rewrite Hf, orb_assoc. done.
    + intros _. destruct files as [| g files]; [| apply Hcap; done].
      simpl in Hloop. injection Hloop as <-. simpl. lia.
Qed.

(** A run that breaks does so at one file, after a prefix that did not. *)
Lemma files_loop_break (files : list file_entry) (st0 st' : collector_state) :
  files_loop L files st0 = Break st' ->
  exists pre f post st,
    files = pre ++ f :: post
    /\ files_loop L pre st0 = Continue st
    /\ process_file L f st = Break st'.
Proof.
  revert st0. induction files as [| f files IH]; intros st0; simpl; [done |].
  destruct (process_file L f st0) as [st1 | st1] eqn:Hstep.
  - intros Hloop. destruct (IH _ Hloop) as (pre & g & post & st & -> & Hpre & Hg).
    exists (f :: pre), g, post, st. simpl. rewrite Hstep. done.
  - intros [= <-]. exists [], f, files, st0. done.
Qed.



(** *** Length of the joined corpus *)

Lemma sum_len_app (a b : list text) : sum_len (a ++ b) = sum_len a + sum_len b.
Proof. unfold sum_len. induction a; simpl; lia. Qed.







End Loop.

(** ** The sort by size *)

Lemma insert_by_size_hd (f g : file_entry) (l : list file_entry) :
  file_size g < file_size f -> HdRel size_le g l -> HdRel size_le g (insert_by_size f l).
Proof.
  intros Hlt Hhd. destruct l as [| h l]; simpl.
  - constructor. unfold size_le. lia.
  - destruct (Z.leb_spec (file_size f) (file_size h)).
    + constructor. unfold size_le. lia.
    + constructor. by inversion Hhd.
Qed.

Lemma insert_by_size_sorted (f : file_entry) (l : list file_entry) :
  Sorted size_le l -> Sorted size_le (insert_by_size f l).
Proof.
  induction l as [| g l IH]; simpl; intros Hs.
  - repeat constructor.
  - destruct (Z.leb_spec (file_size f) (file_size g)).
    + constructor; [done | by constructor].
    + inversion Hs; subst. constructor; [by apply IH |].
      by apply insert_by_size_hd.
Qed.

Lemma sort_by_size_sorted (files : list file_entry) :
  StronglySorted size_le (sort_by_size files).
Proof.
  apply Sorted_StronglySorted.
  - intros a b c. unfold size_le. lia.
  - induction files as [| f files IH]; simpl; [constructor |].
    by apply insert_by_size_sorted.
Qed.

Lemma insert_by_size_perm (f : file_entry) (l : list file_entry) :
  insert_by_size f l ≡ₚ f :: l.
Proof.
  induction l as [| g l IH]; simpl; [done |].
  destruct (file_size f <=? file_size g); [done |].
  rewrite IH. apply Permutation_swap.
Qed.

Lemma sort_by_size_perm (files : list file_entry) : sort_by_size files ≡ₚ files.
Proof.
  induction files as [| f files IH]; simpl; [done |].
  by rewrite insert_by_size_perm, IH.
Qed.

Lemma insert_by_size_keeps_order (s : Z) (f : file_entry) (l : list file_entry) :
  List.filter (same_size s) (insert_by_size f l)
  = List.filter (same_size s) (f :: l).
Proof.
  induction l as [| g l IH]; [done |]. simpl insert_by_size.
  destruct (Z.leb_spec (file_size f) (file_size g)); [done |].
  simpl in *. rewrite IH. unfold same_size.
  destruct (Z.eqb_spec (file_size f) s), (Z.eqb_spec (file_size g) s); try done.
  lia.
Qed.

(** The sort is stable: files of one size keep their listing order. *)
Lemma sort_by_size_stable (s : Z) (files : list file_entry) :
  List.filter (same_size s) (sort_by_size files) = List.filter (same_size s) files.
Proof.
  induction files as [| f files IH]; [done |].
  simpl sort_by_size. rewrite insert_by_size_keeps_order. simpl. by rewrite IH.
Qed.

(** ** Files that fit *)



(** ** The collector as a whole *)

Section Collecting.
Variable cfg : Config.
Variable FS : Filesystem.
Variable L : Libs.
Variable R : Remote.

Lemma add_remote_invariant (enabled : bool) (evidence : text) (st : collector_state) :
  total_chars st = sum_len (contents st) /\ 0 <= file_count st ->
  total_chars (add_remote enabled evidence st)
    = sum_len (contents (add_remote enabled evidence st))
  /\ 0 <= file_count (add_remote enabled evidence st).
Proof.
  intros [Ht Hc]. unfold add_remote.
  destruct (enabled && negb (text_eqb evidence [])); simpl; [| done].
  rewrite sum_len_app. unfold sum_len at 2. simpl. lia.
Qed.

Lemma remote_state_invariant (control_name : text) :
  total_chars (remote_state cfg R control_name)
    = sum_len (contents (remote_state cfg R control_name))
  /\ 0 <= file_count (remote_state cfg R control_name).
Proof. unfold remote_state. do 2 apply add_remote_invariant. done. Qed.

(** The collector on a control whose folder exists under its exact name. *)
Lemma read_evidence_folder_exact (control_name folder : text) (names : list text)
    (files : list file_entry) :
  resolve_folder cfg FS control_name = Returned (folder, Some false) ->
  fs_exists FS folder = true ->
  fs_listdir FS folder = Returned names ->
  collect_files FS folder names = Returned files ->
  read_evidence_folder cfg FS L R control_name
  = Returned (finish cfg control_name folder
                (signal_state (files_loop L (sort_by_size files)
                                 (remote_state cfg R control_name)))).
Proof.
  intros Hres Hex Hls Hfiles. unfold read_evidence_folder, local_files_state.
  rewrite Hres. simpl. rewrite Hex. simpl. rewrite Hls. simpl. rewrite Hfiles. done.
Qed.

(** With no folder and both collaborators switched off the collector
    returns the no-evidence message. *)
Lemma no_sources_give_message (control_name folder : text) :
  resolve_folder cfg FS control_name = Returned (folder, Some true) ->
  SAP_GRC_ENABLED cfg = false ->
  JIRA_ENABLED cfg = false ->
  read_evidence_folder cfg FS L R control_name
  = Returned (no_evidence_message cfg control_name folder).
Proof.
  intros Hres Hsap Hjira. unfold read_evidence_folder, local_files_state.
  rewrite Hres. simpl. unfold remote_state, add_remote. rewrite Hsap, Hjira. done.
Qed.



End Collecting.



(** C4, as stated, fails: the GRC text is appended as fetched. With the
    GRC collaborator on and a fetched text of 15001 characters, that one
    source contributes 15001 characters, more than the per-file cap. *)
Lemma remote_text_exceeds_file_cap :
  MAX_FILE_CHARS < len (chars "g" 15001)
  /\ contents (remote_state grc_config (sample_remote (chars "g" 15001) []) (txt "C002"))
     = [chars "g" 15001]
  /\ read_evidence_folder grc_config empty_root_fs (sample_libs (fun _ => Returned []))
       (sample_remote (chars "g" 15001) []) (txt "C002")
     = Returned (chars "g" 15001).
Proof. repeat split; vm_compute; reflexivity. Qed.

(** C4, amended. The text a local file contributes never exceeds the
    per-file cap: one iteration of the file loop adds nothing, or the
    header line alone, or the header line followed by one text of at most
    [MAX_FILE_CHARS] characters and a separator or the stop note. *)
Theorem local_file_text_within_cap (L : Libs) (f : file_entry) (st : collector_state) :
  len (budgeted_text L f) <= MAX_FILE_CHARS
  /\ exists added,
       contents (signal_state (process_file L f st)) = contents st ++ added
       /\ (added = []
           \/ added = [file_header (file_count st + 1) f]
           \/ exists c, len c <= MAX_FILE_CHARS
                /\ (added = [file_header (file_count st + 1) f; c; []]
                    \/ added = [file_header (file_count st + 1) f; c; stopped_note])).
Proof.
  pose proof (len_budgeted_text L f) as Hcap. split; [done |].
  destruct (process_file_step L f st) as [Hs | Hs Hfit | Hs Hfit Hr | Hs Hfit Hr]; simpl.
  - exists []. rewrite app_nil_r. auto.
  - eexists. split; [done |]. right. right. exists (budgeted_text L f). auto.
  - eexists. split; [done |]. right. right.
    exists (smart_truncate_content (budgeted_text L f)
              (MAX_TOTAL_CHARS - total_chars st - 50)).
    split; [| auto].
    pose proof (len_smart_truncate_le (budgeted_text L f)
                  (MAX_TOTAL_CHARS - total_chars st - 50) ltac:(lia) ltac:(lia)).
    lia.
  - eexists. split; [done |]. auto.
Qed.




(** The same situation end to end: the corpus announces two sources and
    ends with the header of the note, whose 200 characters are absent. *)
Example corpus_names_dropped_file :
  match read_evidence_folder grc_config (one_folder_fs [(txt "note.txt", 200)])
          note_libs (sample_remote (chars "g" 159950) []) (txt "C001") with
  | Returned corpus =>
      text_eqb corpus
        (txt "[WARNING: Evidence content was truncated. Processed 2 sources, total 159993 chars]"
           ++ nl ++ nl ++ chars "g" 159950 ++ nl
           ++ txt "=== LOCAL FILE 2: note.txt (200 bytes) ===")
  | Raised _ => false
  end = true.
Proof. vm_compute. reflexivity. Qed.

(** When the text of the one enabled collaborator is exactly as long as
    the global cap, the loop leaves at its top before the first file: the
    file is dropped, the joined corpus is not over the cap, and no banner
    is prepended. *)
Example remote_text_fills_budget :
  match read_evidence_folder grc_config (one_folder_fs [(txt "note.txt", 200)])
          note_libs (sample_remote (chars "g" 160000) []) (txt "C001") with
  | Returned corpus => text_eqb corpus (chars "g" 160000)
  | Raised _ => false
  end = true.
Proof. vm_compute. reflexivity. Qed.

(** ** Decoders *)

Lemma dispatch_unsupported (L : Libs) (ext fpath : text) (size : Z) :
  supported_extension ext = false ->
  dispatch_decoder L ext fpath size
  = Returned (txt "[Unsupported file type: " ++ ext ++ txt "]").
Proof.
  unfold supported_extension, dispatch_decoder. simpl.
  intros H. repeat (apply orb_false_elim in H as [-> H]). done.
Qed.






(** ** Generation client *)

Section Client.
Variable cfg : Config.
Variable api : service.

(** Under a permanent rate limit every attempt is made and followed by
    its capped wait. *)
Lemma retry_loop_rate_limited (p : payload) (attempts : list Z) (w : world) :
  always_rate_limited api p ->
  retry_loop cfg api attempts p w
  = (txt "LLM error after " ++ str_int (MAX_RETRIES cfg) ++ txt " attempts",
     {| api_calls := api_calls w ++ replicate (length attempts) p;
        sleeps := sleeps w ++ (capped_wait cfg <$> attempts) |}).
Proof.
  intros Hrl. revert w. induction attempts as [| a attempts IH]; intros w; simpl.
  - rewrite !app_nil_r. by destruct w.
  - destruct (Hrl (length (api_calls w))) as (e & -> & ->).
    rewrite IH. simpl. rewrite <- !app_assoc. done.
Qed.

Lemma range_pos (n : Z) : 0 < n -> exists rest, range n = 0 :: rest.
Proof.
  intros Hn. unfold range. destruct (Z.to_nat n) as [| k] eqn:Hk; [lia |].
  simpl. by eexists.
Qed.

Lemma retry_loop_calls_mono (p : payload) (attempts : list Z) (w : world) :
  (length (api_calls w)
   <= length (api_calls (snd (retry_loop cfg api attempts p w))))%nat.
Proof.
  revert w. induction attempts as [| a attempts IH]; intros w; simpl; [done |].
  destruct (api _ p) as [c | e]; simpl.
  - rewrite length_app. simpl. lia.
  - repeat case_match; simpl;
      try (etrans; [| apply IH]; simpl); rewrite ?length_app; simpl; lia.
Qed.

(** The loop sends at least one request as soon as one attempt is allowed. *)
Lemma retry_loop_calls (p : payload) (attempts : list Z) (w : world) :
  attempts <> [] ->
  (length (api_calls w) < length (api_calls (snd (retry_loop cfg api attempts p w))))%nat.
Proof.
  destruct attempts as [| a attempts]; [done |]. intros _. simpl.
  destruct (api _ p) as [c | e]; simpl.
  - rewrite length_app. simpl. lia.
  - repeat case_match; simpl;
      try (eapply Nat.lt_le_trans; [| apply retry_loop_calls_mono]; simpl);
      rewrite ?length_app; simpl; lia.
Qed.

Lemma ask_evidence_summary_calls (ev : text) (w : world) :
  0 < MAX_RETRIES cfg ->
  (length (api_calls w)
   < length (api_calls (snd (ask_evidence_summary cfg api ev w))))%nat.
Proof.
  intros Hn. unfold ask_evidence_summary, make_llm_request_with_retry.
  apply retry_loop_calls. destruct (range_pos _ Hn) as [rest ->]. done.
Qed.

Lemma ask_evidence_sufficiency_calls (desc ev : text) (w : world) :
  0 < MAX_RETRIES cfg ->
  (length (api_calls w)
   < length (api_calls (snd (ask_evidence_sufficiency cfg api desc ev w))))%nat.
Proof.
  intros Hn. unfold ask_evidence_sufficiency, make_llm_request_with_retry.
  apply retry_loop_calls. destruct (range_pos _ Hn) as [rest ->]. done.
Qed.

(** C8, amended. When the first attempt fails with a message that
    contains ["401"] or ["unauthorized"] and none of the rate-limit
    patterns, the client makes that one attempt and returns
    ["Authentication error: <message>"]; it sends no further request and
    never sleeps. *)
Theorem auth_failure_not_retried (p : payload) (operation_name e : text) (w : world) :
  0 < MAX_RETRIES cfg ->
  api (length (api_calls w)) p = Raised e ->
  is_auth_failure (lower e) = true ->
  is_rate_limit (lower e) = false ->
  make_llm_request_with_retry cfg api p operation_name w
  = (txt "Authentication error: " ++ e,
     {| api_calls := api_calls w ++ [p]; sleeps := sleeps w |}).
Proof.
  intros Hn Hfail Hauth Hrl. unfold make_llm_request_with_retry.
  destruct (range_pos _ Hn) as [rest ->]. simpl.
  rewrite Hfail, Hrl, Hauth. done.
Qed.

End Client.

Lemma auth_failure_not_retried_witness :
  0 < MAX_RETRIES default_config
  /\ failing_service (txt "Error code: 401 - Unauthorized") (length (api_calls fresh_world)) ping
     = Raised (txt "Error code: 401 - Unauthorized")
  /\ is_auth_failure (lower (txt "Error code: 401 - Unauthorized")) = true
  /\ is_rate_limit (lower (txt "Error code: 401 - Unauthorized")) = false
  /\ make_llm_request_with_retry default_config
       (failing_service (txt "Error code: 401 - Unauthorized")) ping
       (txt "Evidence Summary") fresh_world
     = (txt "Authentication error: " ++ txt "Error code: 401 - Unauthorized",
        {| api_calls := api_calls fresh_world ++ [ping]; sleeps := sleeps fresh_world |}).
Proof.
  split; [reflexivity |]. split; [reflexivity |]. split; [reflexivity |].
  split; [reflexivity |].
  apply (auth_failure_not_retried default_config
           (failing_service (txt "Error code: 401 - Unauthorized")) ping
           (txt "Evidence Summary") (txt "Error code: 401 - Unauthorized") fresh_world);
    reflexivity.
Defined.

(** C8, as stated, fails: the rate-limit test comes first and looks for
    ["429"] anywhere in the message. An authentication failure whose
    message shows a key fragment containing 429 is retried: five attempts,
    five waits. *)
Lemma auth_failure_retried_as_rate_limit :
  is_auth_failure (lower auth_message_with_429) = true
  /\ make_llm_request_with_retry default_config (failing_service auth_message_with_429)
       ping (txt "Evidence Summary") fresh_world
     = (txt "LLM error after 5 attempts",
        {| api_calls := [ping; ping; ping; ping; ping]; sleeps := [1; 2; 4; 8; 16] |}).
Proof. split; vm_compute; reflexivity. Qed.

Lemma capped_wait_grows (cfg : Config) (attempt : Z) :
  0 < RETRY_DELAY cfg -> 0 <= attempt ->
  capped_wait cfg attempt <= MAX_RETRY_DELAY cfg
  /\ (capped_wait cfg attempt < capped_wait cfg (attempt + 1)
      \/ capped_wait cfg (attempt + 1) = MAX_RETRY_DELAY cfg).
Proof.
  intros Hd Ha. unfold capped_wait.
  rewrite Z.pow_add_r, Z.pow_1_r by lia.
  pose proof (Z.pow_pos_nonneg 2 attempt ltac:(lia) Ha) as Hpow.
  pose proof (Z.mul_pos_pos _ _ Hd Hpow) as Hprod.
  replace (RETRY_DELAY cfg * (2 ^ attempt * 2))
    with (2 * (RETRY_DELAY cfg * 2 ^ attempt)) by lia.
  lia.
Qed.

(** C7. When every attempt fails with a rate-limit error, the client
    makes exactly [MAX_RETRIES] attempts, sleeps
    [min(RETRY_DELAY * 2^attempt, MAX_RETRY_DELAY)] after each of them, and
    returns the text ["LLM error after <MAX_RETRIES> attempts"]. No wait
    exceeds the maximum delay, and from one attempt to the next the wait
    strictly increases until it has reached the maximum delay. With the
    shipped configuration the waits are 1, 2, 4, 8, 16: strictly
    increasing throughout. *)
Theorem rate_limit_exhausts_retries (cfg : Config) (api : service) (p : payload)
    (operation_name : text) (w : world) :
  0 < RETRY_DELAY cfg ->
  always_rate_limited api p ->
  make_llm_request_with_retry cfg api p operation_name w
  = (txt "LLM error after " ++ str_int (MAX_RETRIES cfg) ++ txt " attempts",
     {| api_calls := api_calls w ++ replicate (Z.to_nat (MAX_RETRIES cfg)) p;
        sleeps := sleeps w ++ (capped_wait cfg <$> range (MAX_RETRIES cfg)) |})
  /\ (forall attempt, 0 <= attempt ->
        capped_wait cfg attempt <= MAX_RETRY_DELAY cfg
        /\ (capped_wait cfg attempt < capped_wait cfg (attempt + 1)
            \/ capped_wait cfg (attempt + 1) = MAX_RETRY_DELAY cfg))
  /\ (cfg = default_config ->
      capped_wait cfg <$> range (MAX_RETRIES cfg) = [1; 2; 4; 8; 16]
      /\ StronglySorted Z.lt (capped_wait cfg <$> range (MAX_RETRIES cfg))).
Proof.
  intros Hd Hrl. split; [| split].
  - unfold make_llm_request_with_retry.
    rewrite (retry_loop_rate_limited cfg api p _ w Hrl).
    unfold range. by rewrite length_fmap, length_seq.
  - intros attempt Ha. by apply capped_wait_grows.
  - intros ->. split; [reflexivity |].
    change (capped_wait default_config <$> range (MAX_RETRIES default_config))
      with [1; 2; 4; 8; 16].
    repeat constructor.
Qed.

Lemma rate_limit_exhausts_retries_witness :
  0 < RETRY_DELAY default_config
  /\ always_rate_limited (failing_service (txt "Error code: 429 - Rate limit reached")) ping
  /\ make_llm_request_with_retry default_config
       (failing_service (txt "Error code: 429 - Rate limit reached")) ping
       (txt "Evidence Summary") fresh_world
     = (txt "LLM error after 5 attempts",
        {| api_calls := [ping; ping; ping; ping; ping];
           sleeps := [1; 2; 4; 8; 16] |})
  /\ StronglySorted Z.lt [1; 2; 4; 8; 16].
Proof.
  assert (always_rate_limited
            (failing_service (txt "Error code: 429 - Rate limit reached")) ping) as H.
  { intros n. eexists. split; reflexivity. }
  split; [reflexivity |]. split; [exact H |].
  destruct (rate_limit_exhausts_retries default_config _ ping (txt "Evidence Summary")
              fresh_world eq_refl H) as (Hrun & _ & Hshipped).
  split; [exact Hrun |].
  destruct (Hshipped eq_refl) as [_ Hsorted]. exact Hsorted.
Defined.

(** ** Orchestrators *)

(** C1, at the input where the code departs from it. The control [C002]
    has no evidence folder and both collaborators are off. The collector
    returns the no-evidence message, which begins "No evidence found for
    control"; the module-level loop looks for "No evidence folder found",
    does not find it, and sends at least two requests to the generation
    service, whatever the service answers. [process_control] has no such
    test at all and does the same. *)
Theorem no_evidence_still_calls_service (L : Libs) (api : service) (w : world) :
  read_evidence_folder default_config empty_root_fs L (sample_remote [] []) (txt "C002")
  = Returned (txt "No evidence found for control: C002 (Local folder: Evidence/C002, SAP GRC: Disabled, Jira: Disabled)")
  /\ contains (txt "No evidence folder found")
       (txt "No evidence found for control: C002 (Local folder: Evidence/C002, SAP GRC: Disabled, Jira: Disabled)")
     = false
  /\ (length (api_calls w) + 2
      <= length (api_calls (snd (analyse_control default_config empty_root_fs L
                                   (sample_remote [] []) api row_C002 w))))%nat
  /\ (length (api_calls w) + 2
      <= length (api_calls (snd (process_control default_config empty_root_fs L
                                   (sample_remote [] []) api row_C002 w))))%nat.
Proof.
  assert (read_evidence_folder default_config empty_root_fs L (sample_remote [] [])
            (txt "C002")
          = Returned (txt "No evidence found for control: C002 (Local folder: Evidence/C002, SAP GRC: Disabled, Jira: Disabled)")) as Hread by reflexivity.
  split; [done |]. split; [reflexivity |].
  unfold analyse_control, process_control, ask_evidence_sufficiency_of_cell.
  change (Control row_C002) with (txt "C002"). rewrite Hread.
  change (Control_Description row_C002) with (CellStr (txt "Quarterly access review")).
  cbn [cell_str cell_len str_add].
  change (contains _ _) with false. cbv iota.
  split.
  all: pose proof (ask_evidence_summary_calls default_config api
                (txt "No evidence found for control: C002 (Local folder: Evidence/C002, SAP GRC: Disabled, Jira: Disabled)")
                w ltac:(reflexivity)) as H1;
    destruct (ask_evidence_summary _ _ _ w) as [summary w1]; simpl in H1;
    pose proof (ask_evidence_sufficiency_calls default_config api
                (txt "Quarterly access review")
                (txt "No evidence found for control: C002 (Local folder: Evidence/C002, SAP GRC: Disabled, Jira: Disabled)")
                w1 ltac:(reflexivity)) as H2;
    try match goal with
        | |- context [if ?b then Returned ?a else Returned ?c] =>
            replace (if b then Returned a else Returned c)
              with (Returned (if b then a else c)) by (by destruct b)
        end;
    destruct (ask_evidence_sufficiency _ _ _ _ w1) as [sufficiency w2]; simpl in *; lia.
Qed.

(** With a service that answers, the row of [C002] carries the answers of
    the service, not the fixed no-evidence texts. *)
Example no_evidence_row_is_generated :
  let run :=
    analyse_control default_config empty_root_fs (sample_libs (fun _ => Returned []))
      (sample_remote [] []) (answering_service (txt "CONCLUSION: YES")) row_C002
      fresh_world in
  fst run = Returned (txt "CONCLUSION: YES", txt "CONCLUSION: YES")
  /\ length (api_calls (snd run)) = 2%nat
  /\ sleeps (snd run) = [].
Proof. repeat split; vm_compute; reflexivity. Qed.

(** C5, at the input where the code departs from it. The evidence root
    has no folder [C001] but a folder [C001_evidence]; the fuzzy search
    finds it and leaves its loop with [break], so [folder_missing] is never
    assigned and reading it raises. The module-level loop has no handler:
    the script ends with that exception and no output row. The loop of
    [process_controls], which has the handler, yields the error-text row. *)
Theorem module_loop_aborts_on_collector_error (L : Libs) (R : Remote) (api : service)
    (w : world) :
  read_evidence_folder default_config fuzzy_fs L R (txt "C001")
  = Raised unbound_folder_missing
  /\ module_level_run default_config fuzzy_fs L R api [row_C001] w
     = (Raised unbound_folder_missing, w)
  /\ process_controls default_config fuzzy_fs L R api [row_C001] w
     = ([{| source_row := row_C001;
            evidence_summary := txt "Error during analysis: " ++ unbound_folder_missing;
            evidence_sufficiency := txt "Error during analysis: " ++ unbound_folder_missing |}],
        w).
Proof.
  assert (read_evidence_folder default_config fuzzy_fs L R (txt "C001")
          = Raised unbound_folder_missing) as Hread by reflexivity.
  split; [done |]. split.
  - unfold module_level_run, control_loop, analyse_control.
    change (Control row_C001) with (txt "C001"). by rewrite Hread.
  - unfold process_controls, process_controls_loop, process_control.
    change (Control row_C001) with (txt "C001"). by rewrite Hread.
Qed.

Section ProcessControls.
Variable cfg : Config.
Variable FS : Filesystem.
Variable L : Libs.
Variable R : Remote.
Variable api : service.

Lemma process_controls_loop_lengths (rows : list control_row)
    (summaries sufficiencies : list text) (w : world) :
  length summaries = length sufficiencies ->
  exists more_s more_v,
    fst (process_controls_loop cfg FS L R api rows summaries sufficiencies w)
    = (summaries ++ more_s, sufficiencies ++ more_v)
    /\ length more_s = length rows /\ length more_v = length rows.
Proof.
  revert summaries sufficiencies w.
  induction rows as [| row rows IH]; intros summaries sufficiencies w Hlen; simpl.
  - exists [], []. by rewrite !app_nil_r.
  - destruct (process_control cfg FS L R api row w) as [[s v] w1].
    destruct (IH (summaries ++ [s]) (sufficiencies ++ [v]) w1) as (ms & mv & Heq & Hs & Hv).
    { rewrite !length_app. simpl. lia. }
    exists (s :: ms), (v :: mv). rewrite Heq, <- !app_assoc. simpl. by rewrite Hs, Hv.
Qed.

Lemma add_columns_rows (rows : list control_row) (summaries sufficiencies : list text) :
  length summaries = length rows -> length sufficiencies = length rows ->
  source_row <$> add_columns rows summaries sufficiencies = rows.
Proof.
  revert summaries sufficiencies.
  induction rows as [| r rows IH]; intros [| s ss] [| v vs]; simpl; try done.
  intros [= Hs] [= Hv]. by rewrite IH.
Qed.

(** [process_controls] keeps one output row per input row, in input
    order, whatever the collector and the service do. *)
Lemma process_controls_covers_rows (rows : list control_row) (w : world) :
  source_row <$> fst (process_controls cfg FS L R api rows w) = rows.
Proof.
  unfold process_controls.
  destruct (process_controls_loop_lengths rows [] [] w eq_refl) as (ms & mv & Heq & Hs & Hv).
  destruct (process_controls_loop cfg FS L R api rows [] [] w) as [[s v] w1].
  simpl in *. injection Heq as -> ->. by apply add_columns_rows.
Qed.

End ProcessControls.

(** ** More on the budget controller *)

(** X1. Truncating twice with the same positive cap changes nothing more:
    the first result already fits the cap. *)
Theorem smart_truncate_idempotent (content : text) (C : Z) :
  0 < C ->
  smart_truncate_content (smart_truncate_content content C) C
  = smart_truncate_content content C.
Proof.
  intros HC. apply smart_truncate_content_fits.
  destruct (Z.le_gt_cases (len content) C) as [Hfit | Hlong].
  - by rewrite smart_truncate_content_fits.
  - apply len_smart_truncate_le; lia.
Qed.

Lemma smart_truncate_idempotent_witness :
  0 < 51
  /\ smart_truncate_content (smart_truncate_content (chars "e" 60) 51) 51
     = smart_truncate_content (chars "e" 60) 51.
Proof.
  split; [reflexivity |].
  apply (smart_truncate_idempotent (chars "e" 60) 51). reflexivity.
Defined.

Lemma len_truncation_marker (removed : Z) :
  len (truncation_marker removed) = 43 + len (str_int removed).
Proof.
  unfold truncation_marker. rewrite !len_app.
  change (len nl) with 1. change (len (txt "[TRUNCATED: ")) with 12.
  change (len (txt " chars removed from middle]")) with 27. lia.
Qed.

Lemma len_slice_from_tail (s : text) (k : Z) :
  0 < k -> k <= len s -> len (slice_from s (- k)) = k.
Proof.
  intros Hk Hle. unfold slice_from. destruct (Z.leb_spec 0 (- k)); [lia |].
  unfold len in *. rewrite length_drop. lia.
Qed.

(** X2. When the marker fits into the quarter of the cap that head and
    tail leave free, nothing is clipped: the result is the first [C/2]
    characters, the whole marker and the last [C/4] characters, so it is
    [C/2 + C/4 + len marker] characters long, shorter than the cap allows. *)
Theorem smart_truncate_unclipped (content : text) (C : Z) :
  0 < C -> C < len content ->
  C / 2 + len (truncation_marker (len content - C)) + C / 4 <= C ->
  smart_truncate_content content C
  = take (Z.to_nat (C / 2)) content
      ++ truncation_marker (len content - C)
      ++ drop (Z.to_nat (len content - C / 4)) content
  /\ len (smart_truncate_content content C)
     = C / 2 + len (truncation_marker (len content - C)) + C / 4.
Proof.
  intros HC Hlen Hfit.
  pose proof (len_truncation_marker (len content - C)) as Hm.
  pose proof (len_nonneg (str_int (len content - C))) as Hd.
  pose proof (Z.mul_div_le C 2 ltac:(lia)) as H2.
  pose proof (Z.mul_div_le C 4 ltac:(lia)) as H4.
  assert (0 <= C / 2) as Hh by (apply Z.div_pos; lia).
  assert (0 < C / 4) as Hq.
  { apply Z.div_str_pos. split; [lia |].
    pose proof (Z.mod_pos_bound C 2 ltac:(lia)).
    pose proof (Z.div_mod C 2 ltac:(lia)).
    pose proof (Z.div_le_mono 0 C 4 ltac:(lia) ltac:(lia)). 
    destruct (Z.le_gt_cases 4 C); [done |].
    assert (C / 4 = 0) as Hz by (apply Z.div_small; lia). lia. }
  assert (smart_truncate_content content C
          = take (Z.to_nat (C / 2)) content
              ++ truncation_marker (len content - C)
              ++ drop (Z.to_nat (len content - C / 4)) content) as Heq.
  { rewrite smart_truncate_content_long by done.
    rewrite (slice_to_nonneg content _ Hh).
    assert (slice_from content (- (C / 4))
            = drop (Z.to_nat (len content - C / 4)) content) as ->.
    { unfold slice_from. destruct (Z.leb_spec 0 (- (C / 4))); [lia |].
      f_equal; lia. }
    rewrite slice_to_nonneg by lia. apply take_ge.
    rewrite !length_app, length_take, length_drop.
    unfold len in *. lia. }
  split; [done |]. rewrite Heq, !len_app, len_take.
  unfold len in *. rewrite length_drop. lia.
Qed.

Lemma smart_truncate_unclipped_witness :
  0 < 200 /\ 200 < len (chars "x" 300)
  /\ 200 / 2 + len (truncation_marker (len (chars "x" 300) - 200)) + 200 / 4 <= 200
  /\ smart_truncate_content (chars "x" 300) 200
     = take (Z.to_nat (200 / 2)) (chars "x" 300)
         ++ truncation_marker (len (chars "x" 300) - 200)
         ++ drop (Z.to_nat (len (chars "x" 300) - 200 / 4)) (chars "x" 300)
  /\ len (smart_truncate_content (chars "x" 300) 200)
     = 200 / 2 + len (truncation_marker (len (chars "x" 300) - 200)) + 200 / 4.
Proof.
  split; [reflexivity |]. split; [reflexivity |].
  split; [vm_compute; discriminate |].
  apply (smart_truncate_unclipped (chars "x" 300) 200);
    [reflexivity | reflexivity | vm_compute; discriminate].
Defined.

(** ** More on the collector *)

Lemma len_final_check (st : collector_state) :
  len (fst (final_check st)) <= MAX_TOTAL_CHARS.
Proof.
  unfold final_check.
  destruct (Z.ltb_spec MAX_TOTAL_CHARS (len (str_join nl (contents st)))); simpl.
  - apply len_smart_truncate_le; [reflexivity | done].
  - done.
Qed.

(** X3. Whatever the collector returns is the no-evidence message, or a
    body of at most [MAX_TOTAL_CHARS] characters, or such a body behind the
    warning banner and a blank line: the banner is the only part of a
    corpus that can push it over the global cap. *)
Theorem corpus_body_within_global_cap (cfg : Config) (FS : Filesystem) (L : Libs)
    (R : Remote) (control_name corpus : text) :
  read_evidence_folder cfg FS L R control_name = Returned corpus ->
  (exists folder, corpus = no_evidence_message cfg control_name folder)
  \/ exists body,
       len body <= MAX_TOTAL_CHARS
       /\ (corpus = body
           \/ exists count, corpus = truncation_warning count body ++ nl ++ nl ++ body).
Proof.
  unfold read_evidence_folder.
  destruct (resolve_folder cfg FS control_name) as [[folder missing] | e]; simpl; [| done].
  destruct missing as [b |]; simpl; [| done].
  destruct (local_files_state FS L folder b (remote_state cfg R control_name))
    as [st | e]; simpl; [| done].
  intros [= <-]. unfold finish.
  destruct (file_count st =? 0); [left; by eexists |].
  right. pose proof (len_final_check st) as Hlen.
  destruct (final_check st) as [body flag]. simpl in Hlen.
  exists body. split; [done |]. destruct flag; [right; by eexists | by left].
Qed.

Lemma corpus_body_within_global_cap_witness :
  read_evidence_folder grc_config (one_folder_fs [(txt "note.txt", 200)]) note_libs
    (sample_remote (txt "GRC record") []) (txt "C001")
  = Returned (txt "GRC record" ++ nl
                ++ txt "=== LOCAL FILE 2: note.txt (200 bytes) ===" ++ nl
                ++ chars "n" 200 ++ nl)
  /\ ((exists folder,
         txt "GRC record" ++ nl
           ++ txt "=== LOCAL FILE 2: note.txt (200 bytes) ===" ++ nl
           ++ chars "n" 200 ++ nl
         = no_evidence_message grc_config (txt "C001") folder)
      \/ exists body,
           len body <= MAX_TOTAL_CHARS
           /\ (txt "GRC record" ++ nl
                 ++ txt "=== LOCAL FILE 2: note.txt (200 bytes) ===" ++ nl
                 ++ chars "n" 200 ++ nl
               = body
               \/ exists count,
                    txt "GRC record" ++ nl
                      ++ txt "=== LOCAL FILE 2: note.txt (200 bytes) ===" ++ nl
                      ++ chars "n" 200 ++ nl
                    = truncation_warning count body ++ nl ++ nl ++ body)).
Proof.
  split; [reflexivity |].
  apply (corpus_body_within_global_cap grc_config
           (one_folder_fs [(txt "note.txt", 200)]) note_libs
           (sample_remote (txt "GRC record") []) (txt "C001")).
  reflexivity.
Defined.

Lemma process_file_total (L : Libs) (f : file_entry) (st : collector_state) :
  total_chars st <= MAX_TOTAL_CHARS ->
  total_chars st <= total_chars (signal_state (process_file L f st))
  /\ total_chars (signal_state (process_file L f st)) <= MAX_TOTAL_CHARS.
Proof.
  intros Hle. pose proof (len_nonneg (budgeted_text L f)).
  destruct (process_file_step L f st); simpl; lia.
Qed.

(** X4. The running total of the file loop never decreases and never
    passes the global cap: started at or below [MAX_TOTAL_CHARS], it ends
    at or below it, whatever the files hold. *)
Theorem total_chars_within_global_cap (L : Libs) (files : list file_entry)
    (st : collector_state) :
  total_chars st <= MAX_TOTAL_CHARS ->
  total_chars st <= total_chars (signal_state (files_loop L files st))
  /\ total_chars (signal_state (files_loop L files st)) <= MAX_TOTAL_CHARS.
Proof.
  revert st. induction files as [| f files IH]; intros st Hle; simpl; [lia |].
  pose proof (process_file_total L f st Hle) as [Hup Hcap].
  destruct (process_file L f st) as [st1 | st1]; simpl in *.
  - destruct (IH st1 Hcap). lia.
  - lia.
Qed.

Lemma total_chars_within_global_cap_witness :
  total_chars initial_state <= MAX_TOTAL_CHARS
  /\ total_chars initial_state
     <= total_chars (signal_state (files_loop full_libs eleven_files initial_state))
  /\ total_chars (signal_state (files_loop full_libs eleven_files initial_state))
     <= MAX_TOTAL_CHARS.
Proof.
  split; [vm_compute; discriminate |].
  apply (total_chars_within_global_cap full_libs eleven_files initial_state).
  vm_compute; discriminate.
Defined.

(** X5. A folder found only by the fuzzy search is never read: when the
    exact folder is absent and some directory of the evidence root contains
    the cleaned control name, the collector raises the [UnboundLocalError]
    on [folder_missing], whatever the folder holds and whatever the
    collaborators return. *)
Theorem fuzzy_match_always_raises (cfg : Config) (FS : Filesystem) (L : Libs)
    (R : Remote) (control_name : text) (names : list text) (name : text) :
  fs_isdir FS (path_join (EVIDENCE_ROOT cfg)
                 (clean_folder_name (strip control_name))) = false ->
  fs_exists FS (EVIDENCE_ROOT cfg) = true ->
  fs_listdir FS (EVIDENCE_ROOT cfg) = Returned names ->
  fuzzy_match cfg FS (clean_folder_name (strip control_name)) names = Some name ->
  read_evidence_folder cfg FS L R control_name = Raised unbound_folder_missing.
Proof.
  intros Hdir Hroot Hls Hfuzzy. unfold read_evidence_folder, resolve_folder.
  rewrite Hdir, Hroot. simpl. rewrite Hls. simpl. rewrite Hfuzzy. done.
Qed.

Lemma fuzzy_match_always_raises_witness :
  fs_isdir fuzzy_fs (path_join (EVIDENCE_ROOT default_config)
                       (clean_folder_name (strip (txt " c001 ")))) = false
  /\ fs_exists fuzzy_fs (EVIDENCE_ROOT default_config) = true
  /\ fs_listdir fuzzy_fs (EVIDENCE_ROOT default_config) = Returned [txt "C001_evidence"]
  /\ fuzzy_match default_config fuzzy_fs (clean_folder_name (strip (txt " c001 ")))
       [txt "C001_evidence"] = Some (txt "C001_evidence")
  /\ read_evidence_folder default_config fuzzy_fs denied_libs (sample_remote [] [])
       (txt " c001 ")
     = Raised unbound_folder_missing.
Proof.
  split; [reflexivity |]. split; [reflexivity |]. split; [reflexivity |].
  split; [reflexivity |].
  apply (fuzzy_match_always_raises default_config fuzzy_fs denied_libs
           (sample_remote [] []) (txt " c001 ") [txt "C001_evidence"]
           (txt "C001_evidence")); reflexivity.
Defined.

(** X6. A control folder that exists but holds no regular file is
    reported like a missing one: with both collaborators off the collector
    returns the no-evidence message naming that folder. *)
Theorem empty_folder_gives_no_evidence_message (cfg : Config) (FS : Filesystem)
    (L : Libs) (R : Remote) (control_name folder : text) (names : list text) :
  resolve_folder cfg FS control_name = Returned (folder, Some false) ->
  fs_listdir FS folder = Returned names ->
  collect_files FS folder names = Returned [] ->
  SAP_GRC_ENABLED cfg = false ->
  JIRA_ENABLED cfg = false ->
  read_evidence_folder cfg FS L R control_name
  = Returned (no_evidence_message cfg control_name folder).
Proof.
  intros Hres Hls Hfiles Hsap Hjira.
  unfold read_evidence_folder, local_files_state. rewrite Hres. simpl.
  unfold remote_state, add_remote. rewrite Hsap, Hjira. simpl.
  destruct (fs_exists FS folder); simpl; [| done].
  rewrite Hls. simpl. rewrite Hfiles. done.
Qed.

Lemma empty_folder_gives_no_evidence_message_witness :
  resolve_folder default_config (one_folder_fs []) (txt "C001")
  = Returned (txt "Evidence/C001", Some false)
  /\ fs_listdir (one_folder_fs []) (txt "Evidence/C001") = Returned []
  /\ collect_files (one_folder_fs []) (txt "Evidence/C001") [] = Returned []
  /\ SAP_GRC_ENABLED default_config = false
  /\ JIRA_ENABLED default_config = false
  /\ read_evidence_folder default_config (one_folder_fs []) denied_libs
       (sample_remote [] []) (txt "C001")
     = Returned (no_evidence_message default_config (txt "C001") (txt "Evidence/C001")).
Proof.
  split; [reflexivity |]. split; [reflexivity |]. split; [reflexivity |].
  split; [reflexivity |]. split; [reflexivity |].
  apply (empty_folder_gives_no_evidence_message default_config (one_folder_fs [])
           denied_libs (sample_remote [] []) (txt "C001") (txt "Evidence/C001") []);
    reflexivity.
Defined.

Lemma strongly_sorted_app (l1 l2 : list file_entry) (a b : file_entry) :
  StronglySorted size_le (l1 ++ l2) -> a ∈ l1 -> b ∈ l2 -> size_le a b.
Proof.
  induction l1 as [| x l1 IH]; simpl; intros Hs Ha Hb.
  - by apply elem_of_nil in Ha.
  - inversion Hs as [| ? ? Hs' Hall]; subst.
    apply elem_of_cons in Ha as [-> | Ha].
    + rewrite Forall_forall in Hall. apply Hall.
      apply elem_of_app. by right.
    + by apply IH.
Qed.

(** X7. Smaller files go first: when the loop over the sorted files
    leaves through [break], every file that was taken whole is no larger in
    bytes than the file of the [break] and than every file left out. *)
Theorem kept_files_are_the_smallest (L : Libs) (files : list file_entry)
    (st0 st' : collector_state) :
  files_loop L (sort_by_size files) st0 = Break st' ->
  exists pre f post st,
    sort_by_size files = pre ++ f :: post
    /\ files_loop L pre st0 = Continue st
    /\ process_file L f st = Break st'
    /\ forall a b, a ∈ pre -> b ∈ f :: post -> file_size a <= file_size b.
Proof.
  intros Hloop.
  destruct (files_loop_break L _ _ _ Hloop) as (pre & f & post & st & Hsplit & Hpre & Hf).
  exists pre, f, post, st. repeat split; try done.
  intros a b Ha Hb. pose proof (sort_by_size_sorted files) as Hs.
  rewrite Hsplit in Hs. exact (strongly_sorted_app _ _ a b Hs Ha Hb).
Qed.

Lemma kept_files_are_the_smallest_witness :
  exists st',
    files_loop big_libs (sort_by_size [big_file; small_file]) almost_spent = Break st'
    /\ exists pre f post st,
         sort_by_size [big_file; small_file] = pre ++ f :: post
         /\ files_loop big_libs pre almost_spent = Continue st
         /\ process_file big_libs f st = Break st'
         /\ forall a b, a ∈ pre -> b ∈ f :: post -> file_size a <= file_size b.
Proof.
  eexists. split; [vm_compute; reflexivity |].
  apply (kept_files_are_the_smallest big_libs [big_file; small_file] almost_spent).
  vm_compute; reflexivity.
Defined.

Lemma budgeted_total_nonneg (L : Libs) (files : list file_entry) :
  0 <= budgeted_total L files.
Proof.
  unfold budgeted_total. induction files as [| f files IH]; simpl; [done |].
  pose proof (len_nonneg (budgeted_text L f)). lia.
Qed.

Lemma files_loop_all_fit (L : Libs) (files : list file_entry) (st : collector_state) :
  total_chars st + budgeted_total L files < MAX_TOTAL_CHARS ->
  exists st', files_loop L files st = Continue st'.
Proof.
  revert st. induction files as [| f files IH]; intros st Hfit; simpl; [by eexists |].
  unfold budgeted_total in Hfit. simpl in Hfit. fold (budgeted_total L files) in Hfit.
  pose proof (budgeted_total_nonneg L files) as Hrest.
  pose proof (len_nonneg (budgeted_text L f)) as Hf.
  destruct (process_file_step L f st); try lia.
  apply IH. simpl. lia.
Qed.

Lemma remote_state_not_truncated (cfg : Config) (R : Remote) (control_name : text) :
  truncated (remote_state cfg R control_name) = false.
Proof.
  unfold remote_state, add_remote.
  by repeat (case_match; simpl).
Qed.

Lemma existsb_over_file_cap (L : Libs) (files : list file_entry) :
  Forall (fun f => len (decode_file L (fname f) (fpath f) (file_size f))
                   <= MAX_FILE_CHARS) files ->
  existsb (over_file_cap L) files = false
  /\ Forall (fun f => budgeted_text L f
                      = decode_file L (fname f) (fpath f) (file_size f)) files.
Proof.
  induction 1 as [| f files Hf Hall [IH1 IH2]]; simpl; [done |].
  unfold over_file_cap at 1.
  destruct (Z.ltb_spec MAX_FILE_CHARS
              (len (decode_file L (fname f) (fpath f) (file_size f)))) as [| Hle];
    [lia |].
  split; [done |]. constructor; [| done].
  unfold budgeted_text, budget_file.
  destruct (Z.ltb_spec MAX_FILE_CHARS
              (len (decode_file L (fname f) (fpath f) (file_size f)))); [lia | done].
Qed.

(** X8. Within budget nothing is altered. When the folder exists under
    its exact name and holds at least one file, no decoded text is over the
    per-file cap, the texts together stay below the global budget left by
    the collaborators, and the joined corpus is not over the global cap,
    then the corpus is exactly the collaborator texts followed, for each
    file in ascending size order, by its header, its decoded text unchanged
    and an empty separator line, with no banner in front. *)
Theorem corpus_within_budget_is_verbatim (cfg : Config) (FS : Filesystem) (L : Libs)
    (R : Remote) (control_name folder : text) (names : list text)
    (files : list file_entry) :
  resolve_folder cfg FS control_name = Returned (folder, Some false) ->
  fs_exists FS folder = true ->
  fs_listdir FS folder = Returned names ->
  collect_files FS folder names = Returned files ->
  files <> [] ->
  Forall (fun f => len (decode_file L (fname f) (fpath f) (file_size f))
                   <= MAX_FILE_CHARS) (sort_by_size files) ->
  total_chars (remote_state cfg R control_name)
    + budgeted_total L (sort_by_size files) < MAX_TOTAL_CHARS ->
  len (str_join nl
         (contents (remote_state cfg R control_name)
            ++ corpus_entries L (file_count (remote_state cfg R control_name))
                 (sort_by_size files))) <= MAX_TOTAL_CHARS ->
  read_evidence_folder cfg FS L R control_name
  = Returned (str_join nl
                (contents (remote_state cfg R control_name)
                   ++ corpus_entries L (file_count (remote_state cfg R control_name))
                        (sort_by_size files)))
  /\ Forall (fun f => budgeted_text L f
                      = decode_file L (fname f) (fpath f) (file_size f))
       (sort_by_size files).
Proof.
  intros Hres Hex Hls Hfiles Hne Hsmall Hfit Hjoin.
  destruct (existsb_over_file_cap L _ Hsmall) as [Hnone Hsame]. split; [| done].
  rewrite (read_evidence_folder_exact cfg FS L R _ _ _ _ Hres Hex Hls Hfiles).
  destruct (files_loop_all_fit L _ _ Hfit) as [st' Hloop]. rewrite Hloop. simpl.
  destruct (files_loop_continue L _ _ _ Hloop) as (Hc & Hn & _ & Ht & _).
  destruct (remote_state_invariant cfg R control_name) as [_ Hcount].
  rewrite remote_state_not_truncated, Hnone in Ht. simpl in Ht.
  assert (0 < Z.of_nat (length (sort_by_size files))) as Hpos.
  { rewrite (Permutation_length (sort_by_size_perm files)).
    destruct files; [done | simpl; lia]. }
  unfold finish, final_check.
  destruct (Z.eqb_spec (file_count st') 0); [lia |].
  rewrite Hc, Ht.
  destruct (Z.ltb_spec MAX_TOTAL_CHARS
              (len (str_join nl
                      (contents (remote_state cfg R control_name)
                         ++ corpus_entries L (file_count (remote_state cfg R control_name))
                              (sort_by_size files))))); [lia | done].
Qed.

Lemma corpus_within_budget_is_verbatim_witness :
  read_evidence_folder default_config big_fs
    (sample_libs (fun path => Returned (txt "Approved by manager on 2024-01-01.")))
    (sample_remote [] []) (txt "C001")
  = Returned (str_join nl
      [txt "=== LOCAL FILE 1: small.txt (5 bytes) ===";
       txt "Approved by manager on 2024-01-01."; [];
       txt "=== LOCAL FILE 2: big.txt (160001 bytes) ===";
       txt "Approved by manager on 2024-01-01."; []]).
Proof.
  destruct (corpus_within_budget_is_verbatim default_config big_fs
              (sample_libs (fun path => Returned (txt "Approved by manager on 2024-01-01.")))
              (sample_remote [] []) (txt "C001") (txt "Evidence/C001")
              [txt "big.txt"; txt "small.txt"] [big_file; small_file]
              eq_refl eq_refl eq_refl eq_refl
              ltac:(discriminate)
              ltac:(repeat constructor; vm_compute; discriminate)
              ltac:(vm_compute; reflexivity)
              ltac:(vm_compute; discriminate))
    as [Hrun _].
  exact Hrun.
Defined.

(** ** More on the decoders *)

Lemma text_eqb_eq (a b : text) : text_eqb a b = true -> a = b.
Proof.
  revert b. induction a as [| x a IH]; intros [| y b]; simpl; try done.
  intros [Hxy Hab]%andb_true_iff. apply Ascii.eqb_eq in Hxy. f_equal; [done |].
  by apply IH.
Qed.

Lemma str_join_nonempty (x : text) (before after : list text) :
  x <> [] -> str_join nl (before ++ x :: after) <> [].
Proof.
  intros Hx. induction before as [| p ps IH]; simpl.
  - destruct after; [done |]. by destruct x.
  - destruct (ps ++ x :: after) eqn:Heq; [by destruct ps |].
    destruct p; [| done]. simpl. done.
Qed.

Lemma pdf_reader_always_answers_aux (L : Libs) (pdf_path : text) :
  exists result, extract_text_from_pdf_with_ocr L pdf_path = Returned result.
Proof.
  unfold extract_text_from_pdf_with_ocr. case_match; by eexists.
Qed.

Lemma str_join_nonempty_elem (x : text) (parts : list text) :
  x ∈ parts -> x <> [] -> str_join nl parts <> [].
Proof.
  intros (before & after & ->)%list_elem_of_split Hx. by apply str_join_nonempty.
Qed.

(** X9. Reading a PDF never raises and never yields an empty text: every
    path through the two stages ends in a text that holds at least one
    heading or bracketed note, whatever the PDF library and the OCR tools
    do. *)
Theorem pdf_reader_always_answers (L : Libs) (pdf_path : text) :
  exists result,
    extract_text_from_pdf_with_ocr L pdf_path = Returned result /\ result <> [].
Proof.
  unfold extract_text_from_pdf_with_ocr, pdf_text_stage, pdf_ocr_stage,
    try_except, exc_bind.
  repeat case_match; simplify_eq; (eexists; split; [reflexivity |]);
    first
      [ apply (str_join_nonempty_elem (nl ++ txt "=== PDF OCR EXTRACTION ==="));
        [rewrite !elem_of_app, !elem_of_cons; tauto | done]
      | apply (str_join_nonempty_elem
                 (txt "[OCR not available - install OCR libraries for image-based PDF processing]"));
        [rewrite !elem_of_app, !elem_of_cons; tauto | done]
      | by apply (str_join_nonempty _ [])
      | done ].
Qed.

(** X10. Of all the decoders only the plain-text reader lets an
    exception out: when the dispatch raises, the extension is [.txt] and
    the exception is the one of reading that file. *)
Theorem only_plain_text_read_raises (L : Libs) (ext fpath : text) (file_size : Z)
    (e : text) :
  dispatch_decoder L ext fpath file_size = Raised e ->
  ext = txt ".txt" /\ txt_body L fpath = Raised e.
Proof.
  unfold dispatch_decoder.
  destruct (text_eqb ext (txt ".txt")) eqn:Htxt.
  { intros H. split; [by apply text_eqb_eq | done]. }
  unfold read_docx_file, read_pdf_file, read_csv_file, read_xlsx_file,
    process_large_excel_file, read_msg_file, read_eml_file, read_mbox_file,
    read_image_file.
  destruct (pdf_reader_always_answers_aux L fpath) as [r Hr].
  rewrite Hr. repeat case_match; done.
Qed.

Lemma only_plain_text_read_raises_witness :
  dispatch_decoder denied_libs (txt ".txt") (txt "Evidence/C001/approval.txt") 34
  = Raised denied
  /\ txt ".txt" = txt ".txt"
  /\ txt_body denied_libs (txt "Evidence/C001/approval.txt") = Raised denied.
Proof.
  split; [reflexivity |].
  apply (only_plain_text_read_raises denied_libs (txt ".txt")
           (txt "Evidence/C001/approval.txt") 34 denied).
  reflexivity.
Defined.

Lemma extract_pages_ok (texts : list text) (acc : text) :
  len acc <= 12000 ->
  extract_pages (Returned <$> texts) acc
  = Returned (slice_to (acc ++ concat texts) 12000).
Proof.
  revert acc. induction texts as [| t texts IH]; intros acc Hacc; simpl.
  - rewrite app_nil_r, slice_to_nonneg by lia. f_equal. symmetry. apply take_ge.
    unfold len in Hacc. lia.
  - destruct (Z.ltb_spec 12000 (len (acc ++ t))) as [Hover | Hfit].
    + f_equal. rewrite !slice_to_nonneg by lia. rewrite app_assoc.
      symmetry. apply take_app_le. unfold len in Hover. lia.
    + rewrite IH by done. by rewrite app_assoc.
Qed.

(** Once the pages read hold more than 12000 characters the loop has
    left, whatever the later pages are. *)
Lemma extract_pages_stops (texts : list text) (rest : list (exc text)) (acc : text) :
  len acc <= 12000 -> 12000 < len (acc ++ concat texts) ->
  extract_pages ((Returned <$> texts) ++ rest) acc
  = Returned (slice_to (acc ++ concat texts) 12000).
Proof.
  revert acc. induction texts as [| t texts IH]; intros acc Hacc Hover; simpl in *.
  - rewrite app_nil_r in Hover. lia.
  - destruct (Z.ltb_spec 12000 (len (acc ++ t))) as [Hnow | Hfit].
    + f_equal. rewrite !slice_to_nonneg by lia. rewrite app_assoc.
      symmetry. apply take_app_le. unfold len in Hnow. lia.
    + rewrite IH; [by rewrite app_assoc | done | by rewrite <- app_assoc].
Qed.

(** X11. The text stage of the PDF reader looks at the first ten pages at
    most and keeps exactly the first 12000 characters of their
    concatenated texts. Pages after the tenth, and pages after the point
    where the texts read so far exceed 12000 characters, are never
    extracted, so a page there that cannot be extracted does no harm. When
    the kept text is blank the stage leaves its note for the OCR stage;
    otherwise the reader returns the heading with the number of pages
    looked at, the kept text and, for a PDF of more than ten pages, the
    note with the page count. *)
Theorem pdf_text_is_first_12000_chars (L : Libs) (pdf_path : text)
    (texts : list text) (rest : list (exc text)) :
  pypdf2_available L = true ->
  pdf_reader L pdf_path = Returned ((Returned <$> texts) ++ rest) ->
  rest = [] \/ (10 <= length texts)%nat \/ 12000 < len (concat texts) ->
  let total_pages := len_pages ((Returned <$> texts) ++ rest) in
  let max_pages := Z.min 10 total_pages in
  let extracted_text := slice_to (concat (take 10 texts)) 12000 in
  let result :=
    str_join nl
      ([txt "=== PDF TEXT EXTRACTION (" ++ str_int max_pages ++ txt " pages) ===";
        extracted_text]
         ++ (if max_pages <? total_pages
             then [txt "[NOTE: PDF has " ++ str_int total_pages
                     ++ txt " total pages, processed first "
                     ++ str_int max_pages ++ txt "]"]
             else [])) in
  extract_pages (take (Z.to_nat max_pages) ((Returned <$> texts) ++ rest)) []
  = Returned extracted_text
  /\ pdf_text_stage L pdf_path
     = (if is_blank extracted_text
        then inr [txt "[PDF contains no extractable text - attempting OCR...]"]
        else inl result)
  /\ (is_blank extracted_text = false ->
      extract_text_from_pdf_with_ocr L pdf_path = Returned result).
Proof.
  intros Hav Hpages Hcase total_pages max_pages extracted_text result.
  assert (extract_pages (take (Z.to_nat max_pages) ((Returned <$> texts) ++ rest)) []
          = Returned extracted_text) as Hloop.
  { subst max_pages total_pages extracted_text. unfold len_pages.
    rewrite length_app, length_fmap.
    destruct (decide (10 <= length texts)%nat) as [Hten | Hfew].
    - replace (Z.to_nat (Z.min 10 (Z.of_nat (length texts + length rest)))) with 10%nat
        by lia.
      rewrite take_app_le by (rewrite length_fmap; lia).
      rewrite <- fmap_take. by rewrite extract_pages_ok.
    - rewrite (take_ge texts) by lia.
      destruct Hcase as [-> | [Hten | Hover]]; [| lia |].
      + rewrite app_nil_r, take_ge by (rewrite length_fmap; lia).
        by rewrite extract_pages_ok.
      + rewrite take_app_ge by (rewrite length_fmap; lia).
        by rewrite extract_pages_stops. }
  assert (pdf_text_stage L pdf_path
          = (if is_blank extracted_text
             then inr [txt "[PDF contains no extractable text - attempting OCR...]"]
             else inl result)) as Hstage.
  { unfold pdf_text_stage. rewrite Hav, Hpages. cbn [exc_bind].
    fold total_pages. fold max_pages. rewrite Hloop. cbn [exc_bind].
    by destruct (is_blank extracted_text). }
  split; [done |]. split; [done |].
  intros Hblank. unfold extract_text_from_pdf_with_ocr. by rewrite Hstage, Hblank.
Qed.

Lemma pdf_text_is_first_12000_chars_witness :
  extract_text_from_pdf_with_ocr damaged_pdf_libs (txt "Evidence/C001/report.pdf")
  = Returned (txt "=== PDF TEXT EXTRACTION (3 pages) ===" ++ nl
                ++ chars "a" 7000 ++ chars "b" 5000).
Proof.
  destruct (pdf_text_is_first_12000_chars damaged_pdf_libs
              (txt "Evidence/C001/report.pdf") [chars "a" 7000; chars "b" 7000]
              [Raised (txt "page 3 is damaged")])
    as (_ & _ & Hresult).
  - reflexivity.
  - reflexivity.
  - right. right. vm_compute. reflexivity.
  - rewrite Hresult; vm_compute; reflexivity.
Defined.

Lemma last_dot_split_no_dot (pre s : text) (best : option (text * text)) :
  forallb (fun c => negb (Ascii.eqb c "."%char)) s = true ->
  last_dot_split pre s best = best.
Proof.
  revert pre best. induction s as [| c s IH]; intros pre best; simpl; [done |].
  intros [Hc Hs]%andb_true_iff. rewrite IH by done.
  by destruct (Ascii.eqb c "."%char).
Qed.

Lemma lower_nil_unsupported : supported_extension (lower []) = false.
Proof. reflexivity. Qed.

(** X12. A file whose name has no dot, or whose only dot is the leading
    one of a hidden file, has the empty extension and is reported as an
    unsupported type; its decoders are never consulted. *)
Theorem name_without_extension_is_unsupported (L : Libs) (name fpath : text)
    (file_size : Z) :
  forallb (fun c => negb (Ascii.eqb c "."%char)) name = true ->
  decode_file L name fpath file_size = txt "[Unsupported file type: ]"
  /\ decode_file L ("."%char :: name) fpath file_size = txt "[Unsupported file type: ]".
Proof.
  intros Hname. unfold decode_file.
  assert (splitext_ext name = []) as ->.
  { unfold splitext_ext. by rewrite last_dot_split_no_dot. }
  assert (splitext_ext ("."%char :: name) = []) as ->.
  { unfold splitext_ext. simpl. by rewrite last_dot_split_no_dot. }
  by rewrite dispatch_unsupported.
Qed.

Lemma name_without_extension_is_unsupported_witness :
  forallb (fun c => negb (Ascii.eqb c "."%char)) (txt "gitignore") = true
  /\ decode_file denied_libs (txt "gitignore") (txt "Evidence/C001/gitignore") 12
     = txt "[Unsupported file type: ]"
  /\ decode_file denied_libs (txt ".gitignore") (txt "Evidence/C001/gitignore") 12
     = txt "[Unsupported file type: ]".
Proof.
  split; [reflexivity |].
  apply (name_without_extension_is_unsupported denied_libs (txt "gitignore")
           (txt "Evidence/C001/gitignore") 12).
  reflexivity.
Defined.

(** ** More on the generation client *)

Section ClientMore.
Variable cfg : Config.
Variable api : service.

Lemma range_split (k n : Z) :
  0 <= k < n ->
  range n = range k ++ k :: (Z.of_nat <$> seq (S (Z.to_nat k)) (Z.to_nat n - S (Z.to_nat k))).
Proof.
  intros Hk. unfold range.
  replace (Z.to_nat n) with (Z.to_nat k + S (Z.to_nat n - S (Z.to_nat k)))%nat by lia.
  rewrite seq_app, fmap_app. simpl. f_equal. f_equal; [lia |].
  f_equal. f_equal. lia.
Qed.

Lemma range_length (n : Z) : length (range n) = Z.to_nat n.
Proof. unfold range. by rewrite length_fmap, length_seq. Qed.

(** A run of rate-limited attempts only adds requests and capped waits. *)
Lemma retry_loop_after_rate_limits (p : payload) (pre rest : list Z) (w : world) :
  rate_limited_from api p (length (api_calls w)) (length pre) ->
  retry_loop cfg api (pre ++ rest) p w
  = retry_loop cfg api rest p
      {| api_calls := api_calls w ++ replicate (length pre) p;
         sleeps := sleeps w ++ (capped_wait cfg <$> pre) |}.
Proof.
  revert w. induction pre as [| a pre IH]; intros w Hrl; simpl.
  - rewrite !app_nil_r. by destruct w.
  - destruct (Hrl 0%nat ltac:(simpl; lia)) as (e & He & Hpat).
    rewrite Nat.add_0_r in He. rewrite He, Hpat.
    rewrite IH.
    + simpl. by rewrite <- !app_assoc.
    + intros i Hi. simpl. rewrite length_app. simpl.
      destruct (Hrl (S i) ltac:(simpl; lia)) as (e' & He' & Hpat').
      exists e'. split; [| done]. rewrite <- He'. f_equal. lia.
Qed.

(** X13. Once a request is answered the call is over: after [k]
    rate-limited attempts, with [k] below the ceiling, an answer to attempt
    [k + 1] is returned at once. The client has then sent [k + 1] requests
    and slept the first [k] capped waits; the text is the stripped
    completion, or "No response generated" when the completion is missing
    or empty, which is not retried. *)
Theorem answer_after_rate_limits_ends_call (p : payload) (operation_name : text)
    (w : world) (k : nat) (content : option text) :
  Z.of_nat k < MAX_RETRIES cfg ->
  rate_limited_from api p (length (api_calls w)) k ->
  api (length (api_calls w) + k)%nat p = Returned content ->
  make_llm_request_with_retry cfg api p operation_name w
  = (completion_text content,
     {| api_calls := api_calls w ++ replicate (S k) p;
        sleeps := sleeps w ++ (capped_wait cfg <$> range (Z.of_nat k)) |}).
Proof.
  intros Hk Hrl Hanswer. unfold make_llm_request_with_retry.
  rewrite (range_split (Z.of_nat k) (MAX_RETRIES cfg)) by lia.
  rewrite retry_loop_after_rate_limits; rewrite range_length, Nat2Z.id; [| done].
  simpl. rewrite length_app, length_replicate, Hanswer. unfold record_call. simpl.
  f_equal. f_equal. rewrite <- app_assoc. f_equal.
  change [p] with (replicate 1 p). rewrite <- replicate_add, Nat.add_1_r. done.
Qed.

(** X14. A malformed or oversized request is not retried: after [k]
    rate-limited attempts, a failure whose message contains ["400"] or
    ["bad request"], and neither a rate-limit nor an authentication
    pattern, ends the call with "Request too large: <message>" and without
    a further wait. *)
Theorem bad_request_not_retried (p : payload) (operation_name e : text)
    (w : world) (k : nat) :
  Z.of_nat k < MAX_RETRIES cfg ->
  rate_limited_from api p (length (api_calls w)) k ->
  api (length (api_calls w) + k)%nat p = Raised e ->
  is_rate_limit (lower e) = false ->
  is_auth_failure (lower e) = false ->
  is_bad_request (lower e) = true ->
  make_llm_request_with_retry cfg api p operation_name w
  = (txt "Request too large: " ++ e,
     {| api_calls := api_calls w ++ replicate (S k) p;
        sleeps := sleeps w ++ (capped_wait cfg <$> range (Z.of_nat k)) |}).
Proof.
  intros Hk Hrl Hfail Hnot_rl Hnot_auth Hbad. unfold make_llm_request_with_retry.
  rewrite (range_split (Z.of_nat k) (MAX_RETRIES cfg)) by lia.
  rewrite retry_loop_after_rate_limits; rewrite range_length, Nat2Z.id; [| done].
  simpl. rewrite length_app, length_replicate, Hfail, Hnot_rl, Hnot_auth, Hbad.
  unfold record_call. simpl.
  f_equal. f_equal. rewrite <- app_assoc. f_equal.
  change [p] with (replicate 1 p). rewrite <- replicate_add, Nat.add_1_r. done.
Qed.

Lemma retry_loop_transient (p : payload) (attempts : list Z) (w : world) :
  always_transient api p ->
  retry_loop cfg api attempts p w
  = (txt "LLM error after " ++ str_int (MAX_RETRIES cfg) ++ txt " attempts",
     {| api_calls := api_calls w ++ replicate (length attempts) p;
        sleeps := sleeps w
                    ++ ((fun a => RETRY_DELAY cfg * 2 ^ a)
                          <$> List.filter (fun a => a <? MAX_RETRIES cfg - 1) attempts) |}).
Proof.
  intros Htr. revert w. induction attempts as [| a attempts IH]; intros w; simpl.
  - rewrite !app_nil_r. by destruct w.
  - destruct (Htr (length (api_calls w))) as (e & -> & -> & -> & ->).
    destruct (a <? MAX_RETRIES cfg - 1); rewrite IH; simpl; by rewrite <- !app_assoc.
Qed.

Lemma filter_range_below (n : Z) :
  List.filter (fun a => a <? n - 1) (range n) = range (n - 1).
Proof.
  unfold range. destruct (Z.to_nat n) as [| k] eqn:Hn.
  - replace (Z.to_nat (n - 1)) with 0%nat by lia. done.
  - replace (Z.to_nat (n - 1)) with k by lia.
    rewrite seq_S, fmap_app, List.filter_app. simpl.
    destruct (Z.ltb_spec (Z.of_nat k) (n - 1)); [lia |]. rewrite app_nil_r.
    apply forallb_filter_id. apply forallb_forall. intros x Hx.
    apply in_map_iff in Hx as (i & <- & Hi). apply in_seq in Hi.
    apply Z.ltb_lt. lia.
Qed.

(** X15. Failures that match no pattern are retried up to the ceiling
    with doubling waits that are neither capped by the maximum delay nor
    followed by a wait after the last attempt: [MAX_RETRIES] requests,
    the [MAX_RETRIES - 1] waits [RETRY_DELAY * 2^attempt], then the text
    "LLM error after <MAX_RETRIES> attempts". *)
Theorem transient_failures_exhaust_retries (p : payload) (operation_name : text)
    (w : world) :
  always_transient api p ->
  make_llm_request_with_retry cfg api p operation_name w
  = (txt "LLM error after " ++ str_int (MAX_RETRIES cfg) ++ txt " attempts",
     {| api_calls := api_calls w ++ replicate (Z.to_nat (MAX_RETRIES cfg)) p;
        sleeps := sleeps w
                    ++ ((fun a => RETRY_DELAY cfg * 2 ^ a)
                          <$> range (MAX_RETRIES cfg - 1)) |}).
Proof.
  intros Htr. unfold make_llm_request_with_retry.
  by rewrite retry_loop_transient, filter_range_below, range_length.
Qed.

Lemma retry_loop_log (p : payload) (attempts : list Z) (w : world) :
  exists (k : nat) (waits : list Z),
    snd (retry_loop cfg api attempts p w)
    = {| api_calls := api_calls w ++ replicate k p; sleeps := sleeps w ++ waits |}
    /\ (k <= length attempts)%nat
    /\ (length waits <= k)%nat
    /\ (attempts <> [] -> (1 <= k)%nat).
Proof.
  revert w. induction attempts as [| a attempts IH]; intros w; simpl.
  - exists 0%nat, []. rewrite !app_nil_r. by destruct w.
  - assert (forall extra : list Z,
              (length extra <= 1)%nat ->
              exists (k : nat) (waits : list Z),
                snd (retry_loop cfg api attempts p
                       {| api_calls := api_calls w ++ [p]; sleeps := sleeps w ++ extra |})
                = {| api_calls := api_calls w ++ replicate k p;
                     sleeps := sleeps w ++ waits |}
                /\ (k <= S (length attempts))%nat
                /\ (length waits <= k)%nat
                /\ (a :: attempts <> [] -> (1 <= k)%nat)) as Hnext.
    { intros extra Hextra.
      destruct (IH {| api_calls := api_calls w ++ [p]; sleeps := sleeps w ++ extra |})
        as (k & waits & Heq & Hk & Hw & _).
      exists (S k), (extra ++ waits). simpl in Heq. rewrite Heq, <- !app_assoc.
      rewrite length_app. repeat split; try done; lia. }
    assert (exists (k : nat) (waits : list Z),
              {| api_calls := api_calls w ++ [p]; sleeps := sleeps w |}
              = {| api_calls := api_calls w ++ replicate k p;
                   sleeps := sleeps w ++ waits |}
              /\ (k <= S (length attempts))%nat
              /\ (length waits <= k)%nat
              /\ (a :: attempts <> [] -> (1 <= k)%nat)) as Hstop.
    { exists 1%nat, []. rewrite app_nil_r. simpl. repeat split; lia. }
    destruct (api (length (api_calls w)) p) as [content | e]; simpl; [done |].
    destruct (is_rate_limit (lower e)); [by apply (Hnext [_]) |].
    destruct (is_auth_failure (lower e)); [done |].
    destruct (is_bad_request (lower e)); [done |].
    destruct (a <? MAX_RETRIES cfg - 1); [by apply (Hnext [_]) |].
    specialize (Hnext [] ltac:(simpl; lia)). by rewrite app_nil_r in Hnext.
Qed.

(** X16. Whatever the service does, one call of the client sends the
    same request again and again and nothing else, at least once and at
    most [MAX_RETRIES] times when the ceiling is positive, and it sleeps at
    most once per request. *)
Theorem client_sends_bounded_requests (p : payload) (operation_name : text)
    (w : world) :
  0 < MAX_RETRIES cfg ->
  exists (k : nat) (waits : list Z),
    snd (make_llm_request_with_retry cfg api p operation_name w)
    = {| api_calls := api_calls w ++ replicate k p; sleeps := sleeps w ++ waits |}
    /\ (1 <= k)%nat
    /\ Z.of_nat k <= MAX_RETRIES cfg
    /\ (length waits <= k)%nat.
Proof.
  intros Hn. unfold make_llm_request_with_retry.
  destruct (retry_loop_log p (range (MAX_RETRIES cfg)) w) as (k & waits & Heq & Hk & Hw & H1).
  rewrite range_length in Hk.
  exists k, waits. repeat split; try done; [| lia].
  apply H1. destruct (range_pos _ Hn) as [rest ->]. done.
Qed.

End ClientMore.

Lemma answer_after_rate_limits_ends_call_witness :
  Z.of_nat 2 < MAX_RETRIES default_config
  /\ rate_limited_from (recovering_service 2 (txt " CONCLUSION: YES ")) ping
       (length (api_calls fresh_world)) 2
  /\ make_llm_request_with_retry default_config
       (recovering_service 2 (txt " CONCLUSION: YES ")) ping (txt "Evidence Summary")
       fresh_world
     = (txt "CONCLUSION: YES",
        {| api_calls := [ping; ping; ping]; sleeps := [1; 2] |}).
Proof.
  assert (rate_limited_from (recovering_service 2 (txt " CONCLUSION: YES ")) ping
            (length (api_calls fresh_world)) 2) as Hrl.
  { intros i Hi. exists (txt "Error code: 429 - Rate limit reached").
    split; [| reflexivity].
    unfold recovering_service. simpl. destruct i as [| [| i]]; [done | done | lia]. }
  split; [reflexivity |]. split; [exact Hrl |].
  exact (answer_after_rate_limits_ends_call default_config
           (recovering_service 2 (txt " CONCLUSION: YES ")) ping (txt "Evidence Summary")
           fresh_world 2 (Some (txt " CONCLUSION: YES ")) eq_refl Hrl eq_refl).
Defined.

Lemma bad_request_not_retried_witness :
  make_llm_request_with_retry default_config
    (failing_service (txt "Error code: 400 - Bad Request")) ping
    (txt "Evidence Summary") fresh_world
  = (txt "Request too large: Error code: 400 - Bad Request",
     {| api_calls := [ping]; sleeps := [] |}).
Proof.
  assert (rate_limited_from (failing_service (txt "Error code: 400 - Bad Request")) ping
            (length (api_calls fresh_world)) 0) as Hrl.
  { intros i Hi. lia. }
  exact (bad_request_not_retried default_config
           (failing_service (txt "Error code: 400 - Bad Request")) ping
           (txt "Evidence Summary") (txt "Error code: 400 - Bad Request")
           fresh_world 0 eq_refl Hrl eq_refl eq_refl eq_refl eq_refl).
Defined.

Lemma transient_failures_exhaust_retries_witness :
  always_transient (failing_service (txt "Connection reset by peer")) ping
  /\ make_llm_request_with_retry default_config
       (failing_service (txt "Connection reset by peer")) ping
       (txt "Evidence Summary") fresh_world
     = (txt "LLM error after 5 attempts",
        {| api_calls := [ping; ping; ping; ping; ping]; sleeps := [1; 2; 4; 8] |}).
Proof.
  assert (always_transient (failing_service (txt "Connection reset by peer")) ping) as H.
  { intros n. eexists. repeat split; reflexivity. }
  split; [exact H |].
  exact (transient_failures_exhaust_retries default_config _ ping
           (txt "Evidence Summary") fresh_world H).
Defined.

Lemma client_sends_bounded_requests_witness :
  0 < MAX_RETRIES default_config
  /\ exists (k : nat) (waits : list Z),
       snd (make_llm_request_with_retry default_config
              (recovering_service 2 (txt "ok")) ping (txt "Evidence Summary") fresh_world)
       = {| api_calls := api_calls fresh_world ++ replicate k ping;
            sleeps := sleeps fresh_world ++ waits |}
       /\ (1 <= k)%nat
       /\ Z.of_nat k <= MAX_RETRIES default_config
       /\ (length waits <= k)%nat.
Proof.
  split; [reflexivity |].
  apply (client_sends_bounded_requests default_config (recovering_service 2 (txt "ok"))
           ping (txt "Evidence Summary") fresh_world).
  reflexivity.
Defined.

(** ** The two prompts *)

Section Prompts.
Variable cfg : Config.
Variable api : service.

(** X17. The summary request never carries more than [MAX_TOTAL_CHARS]
    characters of evidence, about 40000 tokens by [estimate_tokens]:
    evidence within the cap goes in unchanged, longer evidence is cut by
    [smart_truncate_content] first; and every request of the call is that
    same request. *)
Theorem summary_request_is_budgeted (evidence_content : text) (w : world) :
  0 < MAX_RETRIES cfg ->
  exists (evidence : text) (k : nat) (waits : list Z),
    evidence = smart_truncate_content evidence_content MAX_TOTAL_CHARS
    /\ len evidence <= MAX_TOTAL_CHARS
    /\ estimate_tokens evidence <= 40000
    /\ (len evidence_content <= MAX_TOTAL_CHARS -> evidence = evidence_content)
    /\ snd (ask_evidence_summary cfg api evidence_content w)
       = {| api_calls := api_calls w ++ replicate k (summary_payload cfg evidence);
            sleeps := sleeps w ++ waits |}
    /\ (1 <= k)%nat.
Proof.
  intros Hn. unfold ask_evidence_summary, make_llm_request_with_retry.
  set (evidence := if MAX_TOTAL_CHARS <? len evidence_content
                   then smart_truncate_content evidence_content MAX_TOTAL_CHARS
                   else evidence_content).
  assert (evidence = smart_truncate_content evidence_content MAX_TOTAL_CHARS
          /\ len evidence <= MAX_TOTAL_CHARS) as [Heq Hlen].
  { subst evidence. destruct (Z.ltb_spec MAX_TOTAL_CHARS (len evidence_content)).
    - split; [done |]. apply len_smart_truncate_le; [reflexivity | done].
    - by rewrite smart_truncate_content_fits. }
  destruct (retry_loop_log cfg api (summary_payload cfg evidence)
              (range (MAX_RETRIES cfg)) w) as (k & waits & Hlog & _ & _ & Hk).
  exists evidence, k, waits. split; [done |]. split; [done |]. split.
  { unfold estimate_tokens. apply (Z.div_le_mono _ _ 4) in Hlen; [| lia].
    by change (MAX_TOTAL_CHARS / 4) with 40000 in Hlen. }
  split.
  { intros Hfit. rewrite Heq. by apply smart_truncate_content_fits. }
  split; [exact Hlog |].
  apply Hk. destruct (range_pos _ Hn) as [rest ->]. done.
Qed.

(** X18. The sufficiency request always carries the control description
    whole. For a description shorter than [MAX_TOTAL_CHARS - 600], the
    description and the evidence it carries together stay within
    [MAX_TOTAL_CHARS], and evidence that fits beside the description goes in
    unchanged. For a longer description the evidence is cut to its first
    500 characters and a note as soon as the two are over the cap. *)
Theorem sufficiency_request_keeps_description (control_desc evidence_content : text)
    (w : world) :
  0 < MAX_RETRIES cfg ->
  exists (evidence : text) (k : nat) (waits : list Z),
    snd (ask_evidence_sufficiency cfg api control_desc evidence_content w)
    = {| api_calls := api_calls w
                        ++ replicate k (sufficiency_payload cfg control_desc evidence);
         sleeps := sleeps w ++ waits |}
    /\ (1 <= k)%nat
    /\ (len control_desc + len evidence_content + 21 <= MAX_TOTAL_CHARS ->
        evidence = evidence_content)
    /\ (len control_desc < MAX_TOTAL_CHARS - 600 ->
        len control_desc + len evidence <= MAX_TOTAL_CHARS)
    /\ (MAX_TOTAL_CHARS - 600 <= len control_desc ->
        MAX_TOTAL_CHARS < len control_desc + len evidence_content + 21 ->
        evidence = slice_to evidence_content 500 ++ txt "[TRUNCATED due to size limits]").
Proof.
  intros Hn. unfold ask_evidence_sufficiency, make_llm_request_with_retry.
  set (combined := txt "CONTROL: " ++ control_desc ++ nl ++ nl ++ txt "EVIDENCE: "
                     ++ evidence_content).
  assert (len combined = len control_desc + len evidence_content + 21) as Hcombined.
  { subst combined. rewrite !len_app.
    change (len (txt "CONTROL: ")) with 9. change (len nl) with 1.
    change (len (txt "EVIDENCE: ")) with 10. lia. }
  set (evidence :=
         if MAX_TOTAL_CHARS <? len combined then
           if 500 <? MAX_TOTAL_CHARS - len control_desc - 100
           then smart_truncate_content evidence_content
                  (MAX_TOTAL_CHARS - len control_desc - 100)
           else slice_to evidence_content 500 ++ txt "[TRUNCATED due to size limits]"
         else evidence_content).
  destruct (retry_loop_log cfg api (sufficiency_payload cfg control_desc evidence)
              (range (MAX_RETRIES cfg)) w) as (k & waits & Hlog & _ & _ & Hk).
  exists evidence, k, waits. split; [exact Hlog |]. split.
  { apply Hk. destruct (range_pos _ Hn) as [rest ->]. done. }
  pose proof (len_nonneg control_desc) as Hd.
  pose proof (len_nonneg evidence_content) as He.
  subst evidence. rewrite Hcombined.
  destruct (Z.ltb_spec MAX_TOTAL_CHARS (len control_desc + len evidence_content + 21))
    as [Hover | Hfit].
  - destruct (Z.ltb_spec 500 (MAX_TOTAL_CHARS - len control_desc - 100)) as [Hroom | Hnone].
    + split; [lia |]. split; [| lia]. intros _.
      destruct (Z.le_gt_cases (len evidence_content)
                  (MAX_TOTAL_CHARS - len control_desc - 100)) as [Hle | Hgt].
      * rewrite smart_truncate_content_fits by done. lia.
      * pose proof (len_smart_truncate_le evidence_content
                      (MAX_TOTAL_CHARS - len control_desc - 100) ltac:(lia) Hgt). lia.
    + split; [lia |]. split; [lia | done].
  - split; [done |]. split; [lia | lia].
Qed.

End Prompts.

Lemma summary_request_is_budgeted_witness :
  0 < MAX_RETRIES default_config
  /\ exists (evidence : text) (k : nat) (waits : list Z),
       evidence = smart_truncate_content (txt "Approved by manager on 2024-01-01.")
                    MAX_TOTAL_CHARS
       /\ len evidence <= MAX_TOTAL_CHARS
       /\ estimate_tokens evidence <= 40000
       /\ (len (txt "Approved by manager on 2024-01-01.") <= MAX_TOTAL_CHARS ->
           evidence = txt "Approved by manager on 2024-01-01.")
       /\ snd (ask_evidence_summary default_config (answering_service (txt "ok"))
                 (txt "Approved by manager on 2024-01-01.") fresh_world)
          = {| api_calls := api_calls fresh_world
                              ++ replicate k (summary_payload default_config evidence);
               sleeps := sleeps fresh_world ++ waits |}
       /\ (1 <= k)%nat.
Proof.
  split; [reflexivity |].
  apply (summary_request_is_budgeted default_config (answering_service (txt "ok"))
           (txt "Approved by manager on 2024-01-01.") fresh_world).
  reflexivity.
Defined.

Lemma sufficiency_request_keeps_description_witness :
  0 < MAX_RETRIES default_config
  /\ exists (evidence : text) (k : nat) (waits : list Z),
       snd (ask_evidence_sufficiency default_config (answering_service (txt "ok"))
              (txt "Manager approval of changes")
              (txt "Approved by manager on 2024-01-01.") fresh_world)
       = {| api_calls := api_calls fresh_world
                           ++ replicate k
                                (sufficiency_payload default_config
                                   (txt "Manager approval of changes") evidence);
            sleeps := sleeps fresh_world ++ waits |}
       /\ (1 <= k)%nat
       /\ evidence = txt "Approved by manager on 2024-01-01."
       /\ len (txt "Manager approval of changes") + len evidence <= MAX_TOTAL_CHARS.
Proof.
  split; [reflexivity |].
  destruct (sufficiency_request_keeps_description default_config
              (answering_service (txt "ok")) (txt "Manager approval of changes")
              (txt "Approved by manager on 2024-01-01.") fresh_world eq_refl)
    as (evidence & k & waits & Hlog & Hk & Hsame & Hbound & _).
  exists evidence, k, waits. split; [exact Hlog |]. split; [exact Hk |].
  split; [apply Hsame; vm_compute; discriminate |].
  apply Hbound. reflexivity.
Defined.

(** ** More on the orchestrators *)

Section OrchestratorsMore.
Variable cfg : Config.
Variable FS : Filesystem.
Variable L : Libs.
Variable R : Remote.
Variable api : service.

Lemma process_controls_loop_acc (rows : list control_row)
    (summaries sufficiencies : list text) (w : world) :
  process_controls_loop cfg FS L R api rows summaries sufficiencies w
  = let '((more_s, more_v), w') := process_controls_loop cfg FS L R api rows [] [] w in
    ((summaries ++ more_s, sufficiencies ++ more_v), w').
Proof.
  revert summaries sufficiencies w.
  induction rows as [| row rows IH]; intros summaries sufficiencies w; simpl.
  - by rewrite !app_nil_r.
  - destruct (process_control cfg FS L R api row w) as [[s v] w1].
    rewrite (IH (summaries ++ [s])), (IH [s]).
    destruct (process_controls_loop cfg FS L R api rows [] [] w1) as [[ms mv] w2].
    by rewrite <- !app_assoc.
Qed.

(** [process_controls] row by row. *)
Lemma process_controls_cons (row : control_row) (rows : list control_row) (w : world) :
  process_controls cfg FS L R api (row :: rows) w
  = let '((summary, sufficiency), w1) := process_control cfg FS L R api row w in
    let '(out, w2) := process_controls cfg FS L R api rows w1 in
    ({| source_row := row; evidence_summary := summary;
        evidence_sufficiency := sufficiency |} :: out, w2).
Proof.
  unfold process_controls. simpl.
  destruct (process_control cfg FS L R api row w) as [[s v] w1].
  rewrite process_controls_loop_acc.
  destruct (process_controls_loop cfg FS L R api rows [] [] w1) as [[ms mv] w2]. done.
Qed.

Lemma process_control_calls (row : control_row) (w : world) :
  0 <= MAX_RETRIES cfg ->
  (length (api_calls (snd (process_control cfg FS L R api row w)))
   <= length (api_calls w) + 2 * Z.to_nat (MAX_RETRIES cfg))%nat.
Proof.
  intros Hn. unfold process_control.
  destruct (read_evidence_folder cfg FS L R (Control row)) as [ev | e]; simpl; [| lia].
  unfold ask_evidence_summary, ask_evidence_sufficiency, make_llm_request_with_retry.
  match goal with
  | |- context [retry_loop cfg api ?a ?p w] =>
      destruct (retry_loop_log cfg api p a w) as (k1 & waits1 & H1 & Hk1 & _);
      destruct (retry_loop cfg api a p w) as [summary w1]
  end.
  match goal with
  | |- context [retry_loop cfg api ?a ?p w1] =>
      destruct (retry_loop_log cfg api p a w1) as (k2 & waits2 & H2 & Hk2 & _);
      destruct (retry_loop cfg api a p w1) as [sufficiency w2]
  end.
  simpl in *. subst w1 w2. simpl. rewrite !length_app, !length_replicate.
  rewrite range_length in Hk1, Hk2. lia.
Qed.

(** X19. [process_controls] never loses a control: it returns one output
    row per input row, in input order; a row whose evidence collection
    raised carries "Error during analysis: <message>" in both added
    columns; and the whole batch sends at most [2 * MAX_RETRIES] requests
    per control. *)
Theorem process_controls_one_row_per_control (rows : list control_row) (w : world) :
  0 <= MAX_RETRIES cfg ->
  source_row <$> fst (process_controls cfg FS L R api rows w) = rows
  /\ Forall (fun out =>
               forall e,
                 read_evidence_folder cfg FS L R (Control (source_row out)) = Raised e ->
                 evidence_summary out = txt "Error during analysis: " ++ e
                 /\ evidence_sufficiency out = txt "Error during analysis: " ++ e)
       (fst (process_controls cfg FS L R api rows w))
  /\ (length (api_calls (snd (process_controls cfg FS L R api rows w)))
      <= length (api_calls w) + 2 * Z.to_nat (MAX_RETRIES cfg) * length rows)%nat.
Proof.
  intros Hn. revert w. induction rows as [| row rows IH]; intros w.
  - unfold process_controls. simpl. repeat split; [constructor | lia].
  - rewrite process_controls_cons.
    pose proof (process_control_calls row w Hn) as Hcalls.
    assert (forall e,
              read_evidence_folder cfg FS L R (Control row) = Raised e ->
              fst (process_control cfg FS L R api row w)
              = (txt "Error during analysis: " ++ e, txt "Error during analysis: " ++ e))
      as Herr.
    { intros e He. unfold process_control. by rewrite He. }
    destruct (process_control cfg FS L R api row w) as [[s v] w1].
    destruct (IH w1) as (Hrows & Hall & Hbound).
    destruct (process_controls cfg FS L R api rows w1) as [out w2].
    cbn [fst snd] in *. split; [rewrite fmap_cons; by f_equal |]. split.
    + constructor; [| done]. cbn [source_row evidence_summary evidence_sufficiency].
      intros e He. specialize (Herr e He). by injection Herr as -> ->.
    + simpl length. lia.
Qed.

Lemma control_loop_acc (rows : list control_row) (summaries sufficiencies : list text)
    (w : world) :
  control_loop cfg FS L R api rows summaries sufficiencies w
  = match control_loop cfg FS L R api rows [] [] w with
    | (Returned (more_s, more_v), w') =>
        (Returned (summaries ++ more_s, sufficiencies ++ more_v), w')
    | (Raised e, w') => (Raised e, w')
    end.
Proof.
  revert summaries sufficiencies w.
  induction rows as [| row rows IH]; intros summaries sufficiencies w; simpl.
  - by rewrite !app_nil_r.
  - destruct (analyse_control cfg FS L R api row w) as [[[s v] | e] w1]; [| done].
    rewrite (IH (summaries ++ [s])), (IH [s]).
    destruct (control_loop cfg FS L R api rows [] [] w1) as [[[ms mv] | e] w2]; [| done].
    by rewrite <- !app_assoc.
Qed.

(** The module-level run row by row. *)
Lemma module_level_run_cons (row : control_row) (rows : list control_row) (w : world) :
  module_level_run cfg FS L R api (row :: rows) w
  = match analyse_control cfg FS L R api row w with
    | (Raised e, w1) => (Raised e, w1)
    | (Returned (summary, sufficiency), w1) =>
        match module_level_run cfg FS L R api rows w1 with
        | (Raised e, w2) => (Raised e, w2)
        | (Returned out, w2) =>
            (Returned ({| source_row := row; evidence_summary := summary;
                          evidence_sufficiency := sufficiency |} :: out), w2)
        end
    end.
Proof.
  unfold module_level_run. simpl.
  destruct (analyse_control cfg FS L R api row w) as [[[s v] | e] w1]; [| done].
  rewrite control_loop_acc.
  destruct (control_loop cfg FS L R api rows [] [] w1) as [[[ms mv] | e] w2]; done.
Qed.

(** With a description that is a [str] the body of the module-level loop
    can only fail in the collector. *)
Lemma analyse_control_returns (row : control_row) (w : world) (evidence s : text) :
  read_evidence_folder cfg FS L R (Control row) = Returned evidence ->
  Control_Description row = CellStr s ->
  exists answers w', analyse_control cfg FS L R api row w = (Returned answers, w').
Proof.
  intros Hev Hdesc. unfold analyse_control, ask_evidence_sufficiency_of_cell.
  rewrite Hev, Hdesc. cbn [cell_str cell_len str_add].
  destruct (contains _ evidence); [by eexists _, _ |].
  destruct (ask_evidence_summary cfg api evidence w) as [summary w1].
  destruct (MAX_TOTAL_CHARS <? len _);
    destruct (ask_evidence_sufficiency cfg api s evidence w1) as [v w2];
    by eexists _, _.
Qed.

(** With a description that is no [str] the body fails after the summary
    request, or after both requests. *)
Lemma analyse_control_other (row : control_row) (w : world)
    (evidence rendered len_error add_error : text) :
  read_evidence_folder cfg FS L R (Control row) = Returned evidence ->
  contains (txt "No evidence folder found") evidence = false ->
  Control_Description row = CellOther rendered len_error add_error ->
  analyse_control cfg FS L R api row w
  = if MAX_TOTAL_CHARS
         <? len (txt "CONTROL: " ++ rendered ++ nl ++ nl ++ txt "EVIDENCE: " ++ evidence)
    then (Raised len_error, snd (ask_evidence_summary cfg api evidence w))
    else (Raised add_error,
          snd (ask_evidence_sufficiency cfg api rendered evidence
                 (snd (ask_evidence_summary cfg api evidence w)))).
Proof.
  intros Hev Hplain Hdesc. unfold analyse_control, ask_evidence_sufficiency_of_cell.
  rewrite Hev, Hplain, Hdesc. cbn [cell_str cell_len str_add].
  destruct (ask_evidence_summary cfg api evidence w) as [summary w1]. cbn [snd].
  destruct (MAX_TOTAL_CHARS <? len _); [done |].
  by destruct (ask_evidence_sufficiency cfg api rendered evidence w1) as [v w2].
Qed.

(** X20. When evidence collection raises for no control and every
    description cell holds a string, the module-level run ends with one
    output row per input row, in input order. *)
Theorem module_run_covers_rows (rows : list control_row) (w : world) :
  Forall (fun row =>
            (exists evidence,
               read_evidence_folder cfg FS L R (Control row) = Returned evidence)
            /\ exists s, Control_Description row = CellStr s) rows ->
  exists out w',
    module_level_run cfg FS L R api rows w = (Returned out, w')
    /\ source_row <$> out = rows.
Proof.
  intros Hall. revert w.
  induction Hall as [| row rows [[ev Hev] [d Hd]] _ IH]; intros w.
  - by exists [], w.
  - rewrite module_level_run_cons.
    destruct (analyse_control_returns row w ev d Hev Hd) as ([s v] & w1 & ->).
    destruct (IH w1) as (out & w2 & -> & Hrows).
    eexists _, _. split; [done |]. rewrite fmap_cons. by f_equal.
Qed.

(** X21. After controls whose evidence collection returns and whose
    description cells hold strings, the module-level run stops at the
    first control whose evidence collection raises: the script ends with
    that exception, no output row is produced for any control, not even
    for those analysed before it, and the controls after it are never
    looked at. *)
Theorem module_run_stops_at_first_error (pre post post' : list control_row)
    (row : control_row) (e : text) (w : world) :
  Forall (fun r =>
            (exists evidence,
               read_evidence_folder cfg FS L R (Control r) = Returned evidence)
            /\ exists s, Control_Description r = CellStr s) pre ->
  read_evidence_folder cfg FS L R (Control row) = Raised e ->
  exists w',
    module_level_run cfg FS L R api (pre ++ row :: post) w = (Raised e, w')
    /\ module_level_run cfg FS L R api (pre ++ row :: post') w = (Raised e, w')
    /\ snd (module_level_run cfg FS L R api pre w) = w'.
Proof.
  intros Hpre Hrow. revert w.
  induction Hpre as [| r pre [[ev Hev] [d Hd]] _ IH]; intros w.
  - exists w. simpl. rewrite !module_level_run_cons.
    unfold analyse_control. rewrite Hrow. done.
  - simpl. rewrite !module_level_run_cons.
    destruct (analyse_control_returns r w ev d Hev Hd) as ([s v] & w1 & ->).
    destruct (IH w1) as (w' & -> & -> & Hw). exists w'.
    split; [done |]. split; [done |].
    by destruct (module_level_run cfg FS L R api pre w1) as [[out | e'] w2].
Qed.

(** X29. A description cell that is no string ends the module-level
    script. After controls that go through, at the first control whose
    collected evidence is not the text of the no-folder branch and whose
    description cell holds a number, a date or the NaN of an empty cell,
    the run raises a [TypeError] and yields no output row at all: the one
    of [len(control_desc)] after the summary request when description and
    evidence together are over the cap, and otherwise the one of
    [evidence_content + control_desc] after both requests were sent. *)
Theorem non_string_description_ends_script (pre post : list control_row)
    (row : control_row) (evidence rendered len_error add_error : text) (w : world) :
  0 < MAX_RETRIES cfg ->
  Forall (fun r =>
            (exists evidence,
               read_evidence_folder cfg FS L R (Control r) = Returned evidence)
            /\ exists s, Control_Description r = CellStr s) pre ->
  read_evidence_folder cfg FS L R (Control row) = Returned evidence ->
  contains (txt "No evidence folder found") evidence = false ->
  Control_Description row = CellOther rendered len_error add_error ->
  let sent w' :=
    (length (api_calls w') - length (api_calls (snd (module_level_run cfg FS L R api pre w))))%nat in
  exists e w',
    module_level_run cfg FS L R api (pre ++ row :: post) w = (Raised e, w')
    /\ (MAX_TOTAL_CHARS
          < len (txt "CONTROL: " ++ rendered ++ nl ++ nl ++ txt "EVIDENCE: " ++ evidence) ->
        e = len_error /\ (1 <= sent w')%nat)
    /\ (len (txt "CONTROL: " ++ rendered ++ nl ++ nl ++ txt "EVIDENCE: " ++ evidence)
          <= MAX_TOTAL_CHARS ->
        e = add_error /\ (2 <= sent w')%nat).
Proof.
  intros Hn Hpre Hev Hplain Hdesc.
  set (combined := txt "CONTROL: " ++ rendered ++ nl ++ nl ++ txt "EVIDENCE: "
                     ++ evidence).
  revert w. induction Hpre as [| r pre [[ev Hr] [d Hd]] _ IH]; intros w sent; subst sent.
  - change (module_level_run cfg FS L R api [] w) with (Returned (@nil result_row), w).
    cbn [app snd]. rewrite module_level_run_cons.
    rewrite (analyse_control_other row w evidence rendered len_error add_error
               Hev Hplain Hdesc).
    fold combined.
    pose proof (ask_evidence_summary_calls cfg api evidence w Hn) as H1.
    pose proof (ask_evidence_sufficiency_calls cfg api rendered evidence
                  (snd (ask_evidence_summary cfg api evidence w)) Hn) as H2.
    destruct (Z.ltb_spec MAX_TOTAL_CHARS (len combined)) as [Hover | Hfit];
      eexists _, _; (split; [reflexivity |]); split; intros Hcase; try lia;
      (split; [reflexivity | lia]).
  - rewrite <- !app_comm_cons, !module_level_run_cons.
    destruct (analyse_control_returns r w ev d Hr Hd) as ([s v] & w1 & ->).
    destruct (IH w1) as (e & w' & Hrun & Hlen & Hadd). exists e, w'.
    rewrite Hrun. split; [done |].
    by destruct (module_level_run cfg FS L R api pre w1) as [[out | e'] w2].
Qed.

End OrchestratorsMore.

Lemma process_controls_one_row_per_control_witness :
  0 <= MAX_RETRIES default_config
  /\ fst (process_controls default_config fuzzy_fs denied_libs (sample_remote [] [])
            (answering_service (txt "CONCLUSION: NO")) [row_C002; row_C001] fresh_world)
     = [{| source_row := row_C002; evidence_summary := txt "CONCLUSION: NO";
           evidence_sufficiency := txt "CONCLUSION: NO" |};
        {| source_row := row_C001;
           evidence_summary := txt "Error during analysis: " ++ unbound_folder_missing;
           evidence_sufficiency := txt "Error during analysis: " ++ unbound_folder_missing |}]
  /\ source_row <$> fst (process_controls default_config fuzzy_fs denied_libs
                           (sample_remote [] []) (answering_service (txt "CONCLUSION: NO"))
                           [row_C002; row_C001] fresh_world)
     = [row_C002; row_C001]
  /\ (length (api_calls (snd (process_controls default_config fuzzy_fs denied_libs
                                (sample_remote [] [])
                                (answering_service (txt "CONCLUSION: NO"))
                                [row_C002; row_C001] fresh_world)))
      <= length (api_calls fresh_world)
         + 2 * Z.to_nat (MAX_RETRIES default_config) * length [row_C002; row_C001])%nat.
Proof.
  split; [discriminate |]. split; [vm_compute; reflexivity |].
  destruct (process_controls_one_row_per_control default_config fuzzy_fs denied_libs
              (sample_remote [] []) (answering_service (txt "CONCLUSION: NO"))
              [row_C002; row_C001] fresh_world ltac:(discriminate))
    as (Hrows & _ & Hbound).
  split; [exact Hrows | exact Hbound].
Defined.

Lemma module_run_covers_rows_witness :
  exists out w',
    module_level_run default_config empty_root_fs denied_libs (sample_remote [] [])
      (answering_service (txt "CONCLUSION: NO")) [row_C002; row_C001] fresh_world
    = (Returned out, w')
    /\ source_row <$> out = [row_C002; row_C001].
Proof.
  apply (module_run_covers_rows default_config empty_root_fs denied_libs
           (sample_remote [] []) (answering_service (txt "CONCLUSION: NO"))
           [row_C002; row_C001] fresh_world).
  repeat constructor; eexists; reflexivity.
Defined.

Lemma module_run_stops_at_first_error_witness :
  exists w',
    module_level_run default_config fuzzy_fs denied_libs (sample_remote [] [])
      (answering_service (txt "CONCLUSION: NO")) ([row_C002] ++ row_C001 :: [row_C002])
      fresh_world
    = (Raised unbound_folder_missing, w')
    /\ module_level_run default_config fuzzy_fs denied_libs (sample_remote [] [])
         (answering_service (txt "CONCLUSION: NO")) ([row_C002] ++ row_C001 :: [])
         fresh_world
       = (Raised unbound_folder_missing, w')
    /\ snd (module_level_run default_config fuzzy_fs denied_libs (sample_remote [] [])
              (answering_service (txt "CONCLUSION: NO")) [row_C002] fresh_world)
       = w'.
Proof.
  apply (module_run_stops_at_first_error default_config fuzzy_fs denied_libs
           (sample_remote [] []) (answering_service (txt "CONCLUSION: NO"))
           [row_C002] [row_C002] [] row_C001 unbound_folder_missing fresh_world).
  - repeat constructor; eexists; reflexivity.
  - reflexivity.
Defined.

Lemma non_string_description_ends_script_witness :
  exists w',
    module_level_run default_config empty_root_fs denied_libs (sample_remote [] [])
      (answering_service (txt "CONCLUSION: NO"))
      ([row_C001] ++ row_without_description :: [row_C002]) fresh_world
    = (Raised (txt "can only concatenate str (not " ++ ["034"%char] ++ txt "float"
                 ++ ["034"%char] ++ txt ") to str"), w')
    /\ (2 <= length (api_calls w')
             - length (api_calls
                         (snd (module_level_run default_config empty_root_fs denied_libs
                                 (sample_remote [] [])
                                 (answering_service (txt "CONCLUSION: NO"))
                                 [row_C001] fresh_world))))%nat.
Proof.
  destruct (non_string_description_ends_script default_config empty_root_fs denied_libs
              (sample_remote [] []) (answering_service (txt "CONCLUSION: NO"))
              [row_C001] [row_C002] row_without_description
              (txt "No evidence found for control: C002 (Local folder: Evidence/C002, SAP GRC: Disabled, Jira: Disabled)")
              (txt "nan") (txt "object of type 'float' has no len()")
              (txt "can only concatenate str (not " ++ ["034"%char] ++ txt "float"
                 ++ ["034"%char] ++ txt ") to str")
              fresh_world)
    as (e & w' & Hrun & _ & Hadd).
  - reflexivity.
  - repeat constructor; eexists; reflexivity.
  - reflexivity.
  - reflexivity.
  - reflexivity.
  - destruct Hadd as [-> Hsent]; [vm_compute; discriminate |].
    exists w'. split; [exact Hrun | exact Hsent].
Defined.

(** ** Client start-up *)

Section Startup.
Variable cfg : Config.
Variable ping : nat -> exc (option text).

Lemma connection_test_cons (attempt : Z) (rest : list Z) (log : probe_log) :
  connection_test cfg ping (attempt :: rest) log
  = match probe_error (ping (probes log)) with
    | None =>
        (ClientReady, {| probes := S (probes log); probe_sleeps := probe_sleeps log |})
    | Some e =>
        if is_fatal_startup_error (lower e) then
          (Exited 1, {| probes := S (probes log); probe_sleeps := probe_sleeps log |})
        else if attempt <? MAX_RETRIES cfg - 1 then
          connection_test cfg ping rest
            {| probes := S (probes log);
               probe_sleeps := probe_sleeps log ++ [doubling_wait cfg attempt] |}
        else
          (Exited 1, {| probes := S (probes log); probe_sleeps := probe_sleeps log |})
    end.
Proof. reflexivity. Qed.

Lemma probe_error_none (response : exc (option text)) :
  probe_error response = None -> exists c cs, response = Returned (Some (c :: cs)).
Proof. destruct response as [[[| c cs] |] | e]; try done. by exists c, cs. Qed.

Lemma connection_test_ready (i m : nat) (log log' : probe_log) :
  Z.of_nat (i + m) = MAX_RETRIES cfg -> (0 < m)%nat ->
  connection_test cfg ping (Z.of_nat <$> seq i m) log = (ClientReady, log') ->
  exists (n : nat) (c : ascii) (cs : text),
    (n < m)%nat
    /\ ping (probes log + n)%nat = Returned (Some (c :: cs))
    /\ probes log' = S (probes log + n)
    /\ probe_sleeps log'
       = probe_sleeps log ++ (doubling_wait cfg <$> (Z.of_nat <$> seq i n)).
Proof.
  revert i log. induction m as [| m IH]; intros i log Hmax Hm; [lia |].
  change (Z.of_nat <$> seq i (S m)) with (Z.of_nat i :: (Z.of_nat <$> seq (S i) m)).
  rewrite connection_test_cons.
  destruct (probe_error (ping (probes log))) as [e |] eqn:Hprobe.
  - destruct (is_fatal_startup_error (lower e)); [done |].
    destruct (Z.ltb_spec (Z.of_nat i) (MAX_RETRIES cfg - 1)) as [Hlt | Hge]; [| done].
    intros Hrun. apply IH in Hrun; [| lia | lia].
    destruct Hrun as (n & c & cs & Hn & Hans & Hp & Hs). simpl in *.
    exists (S n), c, cs. repeat split.
    + lia.
    + rewrite <- Hans. f_equal. lia.
    + lia.
    + by rewrite Hs, <- app_assoc.
  - intros [= <-]. destruct (probe_error_none _ Hprobe) as (c & cs & Hans).
    exists 0%nat, c, cs. simpl. rewrite Nat.add_0_r, app_nil_r.
    repeat split; [lia | done].
Qed.

(** X22. A client that start-up hands over has been tested, unless no
    attempt is configured: when [initialize_client] returns the client, the
    API key is not the placeholder, and either [MAX_RETRIES] is not
    positive and no request was sent at all, or the last of at most
    [MAX_RETRIES] requests was answered with non-empty content, after
    doubling waits between the failed ones. *)
Theorem ready_client_was_tested (api_key : text) (log log' : probe_log) :
  initialize_client cfg api_key ping log = (ClientReady, log') ->
  text_eqb api_key (txt "YOUR_OPENAI_API_KEY_HERE") = false
  /\ ((MAX_RETRIES cfg <= 0 /\ log' = log)
      \/ exists (n : nat) (c : ascii) (cs : text),
           Z.of_nat n < MAX_RETRIES cfg
           /\ ping (probes log + n)%nat = Returned (Some (c :: cs))
           /\ probes log' = S (probes log + n)
           /\ probe_sleeps log'
              = probe_sleeps log ++ (doubling_wait cfg <$> range (Z.of_nat n))).
Proof.
  unfold initialize_client.
  destruct (text_eqb api_key _); [done |]. intros Hrun. split; [done |].
  destruct (Z.le_gt_cases (MAX_RETRIES cfg) 0) as [Hnone | Hsome].
  - left. split; [done |]. unfold range in Hrun.
    replace (Z.to_nat (MAX_RETRIES cfg)) with 0%nat in Hrun by lia.
    simpl in Hrun. by injection Hrun.
  - right. unfold range in Hrun.
    apply (connection_test_ready 0) in Hrun; [| lia | lia].
    destruct Hrun as (n & c & cs & Hn & Hans & Hp & Hs).
    exists n, c, cs. unfold range. rewrite Nat2Z.id. repeat split; try done. lia.
Qed.

Lemma connection_test_unreachable (i m : nat) (log : probe_log) :
  always_unreachable ping ->
  Z.of_nat (i + m) = MAX_RETRIES cfg -> (0 < m)%nat ->
  connection_test cfg ping (Z.of_nat <$> seq i m) log
  = (Exited 1,
     {| probes := probes log + m;
        probe_sleeps := probe_sleeps log
                          ++ (doubling_wait cfg <$> (Z.of_nat <$> seq i (m - 1))) |}).
Proof.
  intros Hdown. revert i log. induction m as [| m IH]; intros i log Hmax Hm; [lia |].
  change (Z.of_nat <$> seq i (S m)) with (Z.of_nat i :: (Z.of_nat <$> seq (S i) m)).
  rewrite connection_test_cons.
  destruct (Hdown (probes log)) as (e & -> & ->).
  destruct (Z.ltb_spec (Z.of_nat i) (MAX_RETRIES cfg - 1)) as [Hlt | Hge].
  - rewrite IH by lia. simpl. f_equal. f_equal; [lia |].
    rewrite <- app_assoc. f_equal. rewrite Nat.sub_0_r.
    destruct m as [| m]; [lia |]. simpl. by rewrite Nat.sub_0_r.
  - assert (m = 0)%nat as -> by lia. simpl. rewrite app_nil_r. f_equal. f_equal. lia.
Qed.

(** X23. When the service cannot be reached, start-up ends the process:
    if every probe fails without a fatal message, [initialize_client] sends
    exactly [MAX_RETRIES] requests, sleeps the [MAX_RETRIES - 1] doubling
    waits between them, and exits with status 1. *)
Theorem unreachable_service_exits (api_key : text) (log : probe_log) :
  0 < MAX_RETRIES cfg ->
  text_eqb api_key (txt "YOUR_OPENAI_API_KEY_HERE") = false ->
  always_unreachable ping ->
  initialize_client cfg api_key ping log
  = (Exited 1,
     {| probes := probes log + Z.to_nat (MAX_RETRIES cfg);
        probe_sleeps := probe_sleeps log
                          ++ (doubling_wait cfg <$> range (MAX_RETRIES cfg - 1)) |}).
Proof.
  intros Hn Hkey Hdown. unfold initialize_client. rewrite Hkey. unfold range.
  rewrite (connection_test_unreachable 0) by (done || lia).
  by replace (Z.to_nat (MAX_RETRIES cfg - 1))
    with (Z.to_nat (MAX_RETRIES cfg) - 1)%nat by lia.
Qed.

End Startup.

Lemma ready_client_was_tested_witness :
  initialize_client default_config (txt "sk-test") (flaky_ping 2 (txt "pong"))
    fresh_probe_log
  = (ClientReady, {| probes := 3; probe_sleeps := [1; 2] |})
  /\ text_eqb (txt "sk-test") (txt "YOUR_OPENAI_API_KEY_HERE") = false
  /\ ((MAX_RETRIES default_config <= 0
       /\ {| probes := 3; probe_sleeps := [1; 2] |} = fresh_probe_log)
      \/ exists (n : nat) (c : ascii) (cs : text),
           Z.of_nat n < MAX_RETRIES default_config
           /\ flaky_ping 2 (txt "pong") (probes fresh_probe_log + n)%nat
              = Returned (Some (c :: cs))
           /\ probes {| probes := 3; probe_sleeps := [1; 2] |}
              = S (probes fresh_probe_log + n)
           /\ probe_sleeps {| probes := 3; probe_sleeps := [1; 2] |}
              = probe_sleeps fresh_probe_log
                  ++ (doubling_wait default_config <$> range (Z.of_nat n))).
Proof.
  split; [reflexivity |].
  apply (ready_client_was_tested default_config (flaky_ping 2 (txt "pong"))
           (txt "sk-test") fresh_probe_log {| probes := 3; probe_sleeps := [1; 2] |}).
  reflexivity.
Defined.

Lemma unreachable_service_exits_witness :
  0 < MAX_RETRIES default_config
  /\ always_unreachable (fun _ => Raised (txt "Connection error."))
  /\ initialize_client default_config (txt "sk-test")
       (fun _ => Raised (txt "Connection error.")) fresh_probe_log
     = (Exited 1, {| probes := 5; probe_sleeps := [1; 2; 4; 8] |}).
Proof.
  assert (always_unreachable (fun _ => Raised (txt "Connection error."))) as H.
  { intros n. exists (txt "Connection error."). split; reflexivity. }
  split; [reflexivity |]. split; [exact H |].
  exact (unreachable_service_exits default_config _ (txt "sk-test") fresh_probe_log
           eq_refl eq_refl H).
Defined.

(** ** The second retry helper *)

Lemma llm_call_loop_empty (cfg : Config) (call : nat -> call_outcome)
    (attempts : list Z) (log : probe_log) :
  always_empty call ->
  llm_call_loop cfg call attempts log
  = (None, {| probes := probes log + length attempts;
              probe_sleeps := probe_sleeps log |}).
Proof.
  intros Hempty. revert log. induction attempts as [| a attempts IH]; intros log; simpl.
  - rewrite Nat.add_0_r. by destruct log.
  - destruct (Hempty (probes log)) as [-> | ->]; rewrite IH; simpl;
      do 2 f_equal; lia.
Qed.

(** X24. [make_llm_call_with_retry] retries an empty response at once:
    when every response comes back without content it sends [MAX_RETRIES]
    requests with no wait between them and returns [None]. *)
Theorem empty_responses_retried_without_wait (cfg : Config)
    (call : nat -> call_outcome) (log : probe_log) :
  always_empty call ->
  make_llm_call_with_retry cfg call log
  = (None, {| probes := probes log + Z.to_nat (MAX_RETRIES cfg);
              probe_sleeps := probe_sleeps log |}).
Proof.
  intros Hempty. unfold make_llm_call_with_retry.
  by rewrite llm_call_loop_empty, range_length.
Qed.

Lemma empty_responses_retried_without_wait_witness :
  always_empty (fun _ => Answered (Some []))
  /\ make_llm_call_with_retry default_config (fun _ => Answered (Some []))
       fresh_probe_log
     = (None, {| probes := 5; probe_sleeps := [] |}).
Proof.
  assert (always_empty (fun _ => Answered (Some []))) as H by (intros n; by right).
  split; [exact H |].
  exact (empty_responses_retried_without_wait default_config _ fresh_probe_log H).
Defined.

(** ** The large-workbook reader *)

Lemma excel_rows_long_sheet (m : Z) (rows : list (list (option text))) (row_count : Z)
    (rows_data : list text) :
  20 <= m -> 0 <= row_count ->
  row_count + Z.of_nat (length rows) <= 15 ->
  excel_rows (Some m) rows row_count rows_data
  = Returned (rows_data ++ row_lines (take (Z.to_nat (10 - row_count)) rows),
              row_count + Z.of_nat (length rows)).
Proof.
  intros Hm. revert row_count rows_data.
  induction rows as [| row rows IH]; intros row_count rows_data Hc Hlen; simpl.
  - rewrite take_nil, app_nil_r. do 2 f_equal. lia.
  - simpl in Hlen.
    destruct (Z.ltb_spec (row_count + 1) 15) as [_ | _];
      destruct (Z.ltb_spec 15 (row_count + 1)); try lia.
    all: destruct (Z.ltb_spec row_count 10) as [Hfirst | Hlater]; simpl.
    all: rewrite ?IH by lia.
    all: try (destruct (Z.leb_spec (m - 5) row_count); [lia |]; simpl).
    all: try (replace (Z.to_nat (10 - row_count)) with (S (Z.to_nat (10 - (row_count + 1))))
                by lia; simpl; unfold row_lines at 2; simpl;
              destruct (row_has_value row); simpl;
              rewrite <- ?app_assoc; do 2 f_equal; lia).
    all: replace (Z.to_nat (10 - row_count)) with 0%nat by lia;
      replace (Z.to_nat (10 - (row_count + 1))) with 0%nat by lia;
      simpl; do 2 f_equal; lia.
Qed.

(** X25. Of a sheet with 20 rows or more the large-workbook reader shows
    the first ten rows only: since it iterates over at most 15 rows, the
    test for the last five rows never succeeds and the summary note is
    never added, so the sheet text is the title line followed by the lines
    of those of the first ten rows that hold a value. *)
Theorem long_sheet_shows_first_ten_rows (ws : sheet) (m : Z) :
  (length (sheet_rows ws) <= 15)%nat ->
  sheet_max_row ws = Some m ->
  20 <= m ->
  excel_sheet_text ws
  = Returned (str_join nl
                ([txt "--- Sheet: " ++ sheet_title ws ++ txt " ---"]
                   ++ row_lines (take 10 (sheet_rows ws)))).
Proof.
  intros Hlen Hmax Hm. unfold excel_sheet_text. rewrite Hmax.
  rewrite excel_rows_long_sheet by lia. simpl exc_bind.
  destruct (Z.ltb_spec 15 (0 + Z.of_nat (length (sheet_rows ws)))); [lia |]. done.
Qed.

Lemma long_sheet_shows_first_ten_rows_witness :
  (length (sheet_rows thirty_row_sheet) <= 15)%nat
  /\ sheet_max_row thirty_row_sheet = Some 30
  /\ 20 <= 30
  /\ excel_sheet_text thirty_row_sheet
     = Returned (str_join nl
                   ([txt "--- Sheet: " ++ sheet_title thirty_row_sheet ++ txt " ---"]
                      ++ row_lines (take 10 (sheet_rows thirty_row_sheet)))).
Proof.
  split; [vm_compute; lia |]. split; [reflexivity |]. split; [lia |].
  apply (long_sheet_shows_first_ten_rows thirty_row_sheet 30);
    [vm_compute; lia | reflexivity | lia].
Defined.

Example thirty_row_sheet_text :
  excel_sheet_text thirty_row_sheet
  = Returned (str_join nl
      [txt "--- Sheet: Ledger ---";
       txt "row 0"; txt "row 1"; txt "row 2"; txt "row 3"; txt "row 4";
       txt "row 5"; txt "row 6"; txt "row 7"; txt "row 8"; txt "row 9"]).
Proof. vm_compute. reflexivity. Qed.

Lemma excel_rows_raises_one_message (max_row : option Z)
    (rows : list (list (option text))) (row_count : Z) (rows_data : list text) :
  (exists r, excel_rows max_row rows row_count rows_data = Returned r)
  \/ excel_rows max_row rows row_count rows_data = Raised none_minus_int.
Proof.
  revert row_count rows_data.
  induction rows as [| row rows IH]; intros row_count rows_data; simpl.
  - left. by eexists.
  - destruct (row_count <? 10); simpl.
    + destruct (15 <? row_count + 1); [left; by eexists | apply IH].
    + destruct max_row as [m |]; simpl; [| by right].
      destruct (15 <? row_count + 1); [left; by eexists | apply IH].
Qed.

Lemma excel_sheet_raises_one_message (ws : sheet) :
  (exists t, excel_sheet_text ws = Returned t)
  \/ excel_sheet_text ws = Raised none_minus_int.
Proof.
  unfold excel_sheet_text.
  destruct (excel_rows_raises_one_message (sheet_max_row ws) (sheet_rows ws) 0 [])
    as [[[rows_data row_count] Hrows] | Hrows]; rewrite Hrows; simpl.
  - left. by eexists.
  - by right.
Qed.

Lemma excel_rows_unsized (rows : list (list (option text))) (row_count : Z)
    (rows_data : list text) :
  0 <= row_count <= 10 ->
  10 < row_count + Z.of_nat (length rows) ->
  excel_rows None rows row_count rows_data = Raised none_minus_int.
Proof.
  revert row_count rows_data.
  induction rows as [| row rows IH]; intros row_count rows_data Hc Hlen; simpl in *.
  - lia.
  - destruct (Z.ltb_spec row_count 10); simpl; [| reflexivity].
    destruct (Z.ltb_spec 15 (row_count + 1)); [lia |].
    apply IH; lia.
Qed.

(** X26. A large workbook with a sheet of more than ten rows whose
    [max_row] is [None] is not read at all: the comparison with
    [ws.max_row - 5] raises at the eleventh row, and the text of the whole
    file, the sheets read before included, is the error note. *)
Theorem unsized_sheet_loses_the_workbook (L : Libs) (path : text)
    (sheets : list sheet) (ws : sheet) :
  large_excel_body L path = large_excel_summary sheets ->
  In ws sheets ->
  sheet_max_row ws = None ->
  (10 < length (sheet_rows ws))%nat ->
  process_large_excel_file L path
  = Returned (txt "[Error processing Excel file: " ++ none_minus_int ++ txt "]").
Proof.
  intros Hbody Hin Hmax Hlen. unfold process_large_excel_file. rewrite Hbody.
  assert (Hsheet : excel_sheet_text ws = Raised none_minus_int).
  { unfold excel_sheet_text. rewrite Hmax, excel_rows_unsized by lia. reflexivity. }
  assert (Hall : excel_sheets_text sheets = Raised none_minus_int).
  { clear Hbody. induction sheets as [| ws' sheets IH]; [destruct Hin |]. simpl.
    destruct Hin as [-> | Hin].
    - by rewrite Hsheet.
    - destruct (excel_sheet_raises_one_message ws') as [[t Ht] | Ht]; rewrite Ht; simpl.
      + by rewrite (IH Hin).
      + reflexivity. }
  unfold large_excel_summary. rewrite Hall. reflexivity.
Qed.

Lemma unsized_sheet_loses_the_workbook_witness :
  process_large_excel_file unsized_libs (txt "Evidence/C001/export.xlsx")
  = Returned (txt "[Error processing Excel file: " ++ none_minus_int ++ txt "]").
Proof.
  apply (unsized_sheet_loses_the_workbook unsized_libs (txt "Evidence/C001/export.xlsx")
           [thirty_row_sheet; unsized_sheet] unsized_sheet).
  - reflexivity.
  - right. left. reflexivity.
  - reflexivity.
  - vm_compute. lia.
Defined.

(** ** Text of an Atlassian document *)

Lemma adf_nested_ind (P : adf -> Prop) :
  (forall s, P (AdfText s)) ->
  (forall type content, Forall P content -> P (AdfNode type content)) ->
  forall doc, P doc.
Proof.
  intros Htext Hnode.
  fix IH 1. intros [s | type content].
  - apply Htext.
  - apply Hnode. induction content as [| child content IHc]; constructor.
    + apply IH.
    + apply IHc.
Qed.

Lemma extract_text_recursive_list (items : list json) (text_parts : list json) :
  extract_text_recursive (JList items) text_parts = extract_text_each items text_parts.
Proof.
  revert text_parts. induction items as [| item items IH]; intros text_parts.
  - reflexivity.
  - simpl. destruct (extract_text_recursive item text_parts) as [parts | msg]; simpl.
    + apply IH.
    + reflexivity.
Qed.

Lemma extract_text_recursive_node (type : text) (items : list json)
    (text_parts : list json) :
  text_eqb type (txt "text") = false ->
  extract_text_recursive
    (JDict [(txt "type", JStr type); (txt "content", JList items)]) text_parts
  = extract_text_each items text_parts.
Proof.
  intros Htype. rewrite <- extract_text_recursive_list.
  cbn [extract_text_recursive]. unfold is_text_node.
  change (dict_get _ (txt "type")) with (Some (JStr type)).
  cbv beta iota. rewrite Htype.
  change (text_eqb (txt "type") (txt "content")) with false.
  change (text_eqb (txt "content") (txt "content")) with true.
  reflexivity.
Qed.

Lemma extract_text_each_app (items : list adf) (text_parts : list json) :
  Forall (fun doc => forall parts,
            extract_text_recursive (adf_json doc) parts
            = Returned (parts ++ (JStr <$> adf_texts doc))) items ->
  extract_text_each (adf_json <$> items) text_parts
  = Returned (text_parts ++ (JStr <$> concat (adf_texts <$> items))).
Proof.
  intros Hall. revert text_parts.
  induction Hall as [| doc items Hdoc _ IH]; intros text_parts; simpl.
  - by rewrite app_nil_r.
  - rewrite Hdoc. simpl. rewrite IH, fmap_app, app_assoc. reflexivity.
Qed.

Lemma extract_text_recursive_adf (doc : adf) :
  adf_well_typed doc = true ->
  forall text_parts,
    extract_text_recursive (adf_json doc) text_parts
    = Returned (text_parts ++ (JStr <$> adf_texts doc)).
Proof.
  induction doc as [s | type content IH] using adf_nested_ind; intros Hwell text_parts.
  - reflexivity.
  - simpl in Hwell. apply andb_true_iff in Hwell as [Htype Hcontent].
    apply negb_true_iff in Htype.
    change (adf_json (AdfNode type content))
      with (JDict [(txt "type", JStr type);
                   (txt "content", JList (adf_json <$> content))]).
    rewrite extract_text_recursive_node by done.
    apply extract_text_each_app.
    rewrite forallb_forall in Hcontent.
    rewrite Forall_forall in IH |- *. intros child Hchild.
    apply IH; [done |]. apply Hcontent. by apply list_elem_of_In.
Qed.

Lemma joinable_strings (parts : list text) (i : Z) :
  joinable (JStr <$> parts) i = Returned parts.
Proof.
  revert i. induction parts as [| s parts IH]; intros i; simpl.
  - reflexivity.
  - by rewrite IH.
Qed.

(** X27. The text extracted from a document of the Atlassian format, all
    of whose inner nodes have a type other than [text], is its text leaves
    in document order, joined by single spaces; the call does not raise,
    whatever the depth of the document. *)
Theorem adf_text_in_document_order (py_str : json -> text) (doc : adf) :
  adf_well_typed doc = true ->
  extract_text_from_adf py_str (adf_json doc)
  = Returned (str_join (txt " ") (adf_texts doc)).
Proof.
  intros Hwell. unfold extract_text_from_adf.
  assert (Hdict : exists fields, adf_json doc = JDict fields)
    by (destruct doc; by eexists).
  destruct Hdict as [fields Hdict]. rewrite Hdict, <- Hdict.
  rewrite extract_text_recursive_adf by done. simpl.
  by rewrite joinable_strings.
Qed.

Lemma adf_text_in_document_order_witness :
  adf_well_typed sample_comment = true
  /\ extract_text_from_adf type_name (adf_json sample_comment)
     = Returned (txt "Approved by the controller on 3 May").
Proof.
  split; [reflexivity |].
  apply (adf_text_in_document_order type_name sample_comment). reflexivity.
Defined.

(** X28. A text node whose [text] is not a string makes the extraction
    raise: the value is collected as it is, and joining the parts fails on
    it. *)
Theorem non_string_text_raises (py_str : json -> text)
    (fields : list (text * json)) (v : json) :
  is_text_node fields = true ->
  dict_get fields (txt "text") = Some v ->
  (forall s, v <> JStr s) ->
  extract_text_from_adf py_str (JDict fields)
  = Raised (txt "sequence item 0: expected str instance, "
              ++ type_name v ++ txt " found").
Proof.
  intros Hnode Hget Hstr. unfold extract_text_from_adf.
  cbn [extract_text_recursive]. rewrite Hnode, Hget. simpl.
  destruct v; try reflexivity. by destruct (Hstr s).
Qed.

Lemma non_string_text_raises_witness :
  extract_text_from_adf type_name
    (JDict [(txt "type", JStr (txt "text")); (txt "text", JInt 5)])
  = Raised (txt "sequence item 0: expected str instance, int found").
Proof.
  apply (non_string_text_raises type_name
           [(txt "type", JStr (txt "text")); (txt "text", JInt 5)] (JInt 5)).
  - reflexivity.
  - reflexivity.
  - intros s Hs. discriminate Hs.
Defined.
